(** * Fission CLI: package archives, build status and dependent functions

    A shallow embedding of the package sub-commands of the Fission command
    line client ([pkgCreate], [pkgUpdate], [updatePackage], [pkgDelete],
    [deleteOrphanPkgs], [pkgRebuild], [createArchive],
    [makeArchiveFileIfNeeded]) and of the archive transport helpers
    ([UploadArchive], [FileChecksum], [DownloadToTempFile], ...).

    Go code that exits the process ([log.Fatal], [util.CheckErr]) is modelled
    by the [Fatal] outcome of a small state monad over a [World] holding the
    control-plane store, the file system, the blob store and the log of every
    external call that was attempted. *)

From Stdlib Require Import NArith ZArith Lia Ascii String DecimalString.
From stdpp Require Import base list strings gmap.

Open Scope string_scope.

(** ** Bytes, hexadecimal text and SHA-256 *)

Abbreviation byte := Byte.byte.

(** [crypto/sha256] of the Go standard library, following FIPS 180-4:
    32-bit words are [N] reduced modulo [2^32]. *)
Module SHA256.

Definition mask32 : N := 0xFFFFFFFF.
Definition add32 (a b : N) : N := N.land (a + b) mask32.
Definition not32 (a : N) : N := N.lxor a mask32.
Definition rotr (n x : N) : N :=
  N.land (N.lor (N.shiftr x n) (N.shiftl x (32 - n))) mask32.

Definition Ch (x y z : N) : N := N.lxor (N.land x y) (N.land (not32 x) z).
Definition Maj (x y z : N) : N :=
  N.lxor (N.lxor (N.land x y) (N.land x z)) (N.land y z).
Definition bsig0 (x : N) : N := N.lxor (N.lxor (rotr 2 x) (rotr 13 x)) (rotr 22 x).
Definition bsig1 (x : N) : N := N.lxor (N.lxor (rotr 6 x) (rotr 11 x)) (rotr 25 x).
Definition ssig0 (x : N) : N := N.lxor (N.lxor (rotr 7 x) (rotr 18 x)) (N.shiftr x 3).
Definition ssig1 (x : N) : N := N.lxor (N.lxor (rotr 17 x) (rotr 19 x)) (N.shiftr x 10).

(** The first 64 primes. *)
Definition primes : list N :=
  [ 2; 3; 5; 7; 11; 13; 17; 19; 23; 29; 31; 37; 41; 43; 47; 53; 59; 61; 67; 71;
    73; 79; 83; 89; 97; 101; 103; 107; 109; 113; 127; 131; 137; 139; 149; 151;
    157; 163; 167; 173; 179; 181; 191; 193; 197; 199; 211; 223; 227; 229; 233;
    239; 241; 251; 257; 263; 269; 271; 277; 281; 283; 293; 307; 311 ]%N.

(** The integer cube root, found bit by bit from bit [k - 1] down. *)
Fixpoint cube_root_from (k : nat) (n acc : N) : N :=
  match k with
  | O => acc
  | S k' =>
      let c := (acc + 2 ^ N.of_nat k')%N in
      cube_root_from k' n (if (c * c * c <=? n)%N then c else acc)
  end.

Definition cube_root (n : N) : N := cube_root_from 40 n 0.

(** The round constants: the first 32 bits of the fractional parts of the
    cube roots of the first 64 primes. *)
Definition K : list N :=
  map (fun p => N.land (cube_root (p * 2 ^ 96)) mask32) primes.

(** The initial hash value: the first 32 bits of the fractional parts of
    the square roots of the first 8 primes. *)
Definition H0 : list N :=
  map (fun p => N.land (N.sqrt (p * 2 ^ 64)) mask32) (firstn 8 primes).

(** Big-endian conversions between bytes and words. *)
Definition word_of_bytes (bs : list byte) : N :=
  fold_left (fun acc b => (acc * 256 + Byte.to_N b)%N) bs 0%N.

Definition byte_of_N (n : N) : byte :=
  match Byte.of_N (N.land n 0xFF) with Some b => b | None => Byte.x00 end.

Fixpoint bytes_of_word (width : nat) (w : N) : list byte :=
  match width with
  | O => []
  | S k => byte_of_N (N.shiftr w (8 * N.of_nat k)) :: bytes_of_word k w
  end.

Fixpoint words_of_block (n : nat) (bs : list byte) : list N :=
  match n with
  | O => []
  | S k => word_of_bytes (firstn 4 bs) :: words_of_block k (skipn 4 bs)
  end.

(** The message schedule, kept newest word first while it is extended. *)
Fixpoint extend (n : nat) (ws : list N) : list N :=
  match n with
  | O => ws
  | S k =>
      let w := add32 (add32 (ssig1 (nth 1 ws 0%N)) (nth 6 ws 0%N))
                     (add32 (ssig0 (nth 14 ws 0%N)) (nth 15 ws 0%N)) in
      extend k (w :: ws)
  end.

Definition schedule (block : list byte) : list N :=
  rev (extend 48 (rev (words_of_block 16 block))).

Record regs := Regs { ra : N; rb : N; rc : N; rd : N; re : N; rf : N; rg : N; rh : N }.

Definition round (r : regs) (kw : N * N) : regs :=
  let t1 := add32 (add32 (add32 (rh r) (bsig1 (re r))) (Ch (re r) (rf r) (rg r)))
                  (add32 (fst kw) (snd kw)) in
  let t2 := add32 (bsig0 (ra r)) (Maj (ra r) (rb r) (rc r)) in
  Regs (add32 t1 t2) (ra r) (rb r) (rc r) (add32 (rd r) t1) (re r) (rf r) (rg r).

Definition regs_of (h : list N) : regs :=
  Regs (nth 0 h 0%N) (nth 1 h 0%N) (nth 2 h 0%N) (nth 3 h 0%N)
       (nth 4 h 0%N) (nth 5 h 0%N) (nth 6 h 0%N) (nth 7 h 0%N).

Definition list_of (r : regs) : list N :=
  [ra r; rb r; rc r; rd r; re r; rf r; rg r; rh r].

Definition compress (h : list N) (block : list byte) : list N :=
  let r := fold_left round (combine K (schedule block)) (regs_of h) in
  map (fun p => add32 (fst p) (snd p)) (combine h (list_of r)).

Definition pad (msg : list byte) : list byte :=
  let len := length msg in
  let zeros := (64 - (len + 9) mod 64) mod 64 in
  msg ++ [Byte.x80] ++ repeat Byte.x00 zeros
      ++ bytes_of_word 8 (8 * N.of_nat len).

Fixpoint blocks (n : nat) (h : list N) (bs : list byte) : list N :=
  match n with
  | O => h
  | S k => blocks k (compress h (firstn 64 bs)) (skipn 64 bs)
  end.

Definition Sum256 (msg : list byte) : list byte :=
  let p := pad msg in
  flat_map (bytes_of_word 4) (blocks (length p / 64) H0 p).

End SHA256.

(** [encoding/hex]: [hex.EncodeToString]. *)
Module hex.

Definition hextable : list ascii :=
  list_ascii_of_string "0123456789abcdef".

Definition digit (n : N) : ascii := nth (N.to_nat n) hextable "0"%char.

Fixpoint EncodeToString (src : list byte) : string :=
  match src with
  | [] => ""
  | b :: rest =>
      let v := Byte.to_N b in
      String (digit (N.shiftr v 4)) (String (digit (N.land v 0x0f)) (EncodeToString rest))
  end.

End hex.

(** ** Go helpers on strings *)
Module strings.

Definition HasPrefix (s pre : string) : bool := String.prefix pre s.

Definition TrimSuffix (s suffix : string) : string :=
  let n := String.length s - String.length suffix in
  if (String.length suffix <=? String.length s)%nat
     && String.eqb (String.substring n (String.length suffix) s) suffix
  then String.substring 0 n s
  else s.

Definition Join (elems : list string) (sep : string) : string :=
  String.concat sep elems.

End strings.

(** Go's [len(s) > 0] / [len(s) == 0] on strings and slices. *)
Definition nonempty (s : string) : bool := negb (String.eqb s "").
Definition has_items {A} (l : list A) : bool :=
  match l with [] => false | _ => true end.

(** [strings.HasPrefix(path, "http://") || strings.HasPrefix(path, "https://")] *)
Definition isHTTP (path : string) : bool :=
  strings.HasPrefix path "http://" || strings.HasPrefix path "https://".

(** ** Data model ([fv1], [metav1])

    The type declarations are not part of the sources at hand; the records
    follow the fields the code reads and writes, the enumerations follow the
    data model of the specification. *)

Module ObjectMeta.
Record t := mk { Name : string; Namespace : string; ResourceVersion : string }.
End ObjectMeta.

Inductive ChecksumType := ChecksumTypeNone | ChecksumTypeSHA256.

Module Checksum.
Record t := mk { Type' : ChecksumType; Sum : string }.
(** The zero value: no checksum. *)
Definition zero : t := mk ChecksumTypeNone "".
End Checksum.

Inductive ArchiveType := ArchiveTypeNone | ArchiveTypeLiteral | ArchiveTypeUrl.

Module Archive.
Record t := mk {
  Type' : ArchiveType;
  Literal : list byte;
  URL : string;
  Checksum : Checksum.t }.
(** [var archive fv1.Archive] *)
Definition zero : t := mk ArchiveTypeNone [] "" Checksum.zero.
End Archive.

Module EnvironmentReference.
Record t := mk { Namespace : string; Name : string }.
End EnvironmentReference.

Module PackageSpec.
Record t := mk {
  Environment : EnvironmentReference.t;
  Source : Archive.t;
  Deployment : Archive.t;
  BuildCommand : string }.
End PackageSpec.

Inductive BuildStatus :=
| BuildStatusNone
| BuildStatusPending
| BuildStatusRunning
| BuildStatusSucceeded
| BuildStatusFailed.

Module PackageStatus.
Record t := mk { BuildStatus : BuildStatus; BuildLog : string }.
End PackageStatus.

Module Package.
Record t := mk {
  Metadata : ObjectMeta.t;
  Spec : PackageSpec.t;
  Status : PackageStatus.t }.
End Package.

Module PackageRef.
Record t := mk { Namespace : string; Name : string; ResourceVersion : string }.
End PackageRef.

Module FunctionPackageRef.
Record t := mk { PackageRef : PackageRef.t; FunctionName : string }.
End FunctionPackageRef.

Module FunctionSpec.
Record t := mk { Environment : EnvironmentReference.t; Package : FunctionPackageRef.t }.
End FunctionSpec.

Module Function.
Record t := mk { Metadata : ObjectMeta.t; Spec : FunctionSpec.t }.
End Function.

(** [spec.ArchiveUploadSpec] *)
Module ArchiveUploadSpec.
Record t := mk { Name : string; IncludeGlobs : list string }.
End ArchiveUploadSpec.

#[global] Instance BuildStatus_eq_dec : EqDecision BuildStatus.
Proof. solve_decision. Defined.
#[global] Instance ArchiveType_eq_dec : EqDecision ArchiveType.
Proof. solve_decision. Defined.
#[global] Instance ChecksumType_eq_dec : EqDecision ChecksumType.
Proof. solve_decision. Defined.

(** Assignments to fields of a package or function held through a pointer. *)
Definition set_Environment_Name (v : string) (pkg : Package.t) : Package.t :=
  let s := Package.Spec pkg in
  let e := PackageSpec.Environment s in
  Package.mk (Package.Metadata pkg)
    (PackageSpec.mk (EnvironmentReference.mk (EnvironmentReference.Namespace e) v)
       (PackageSpec.Source s) (PackageSpec.Deployment s) (PackageSpec.BuildCommand s))
    (Package.Status pkg).

Definition set_Environment_Namespace (v : string) (pkg : Package.t) : Package.t :=
  let s := Package.Spec pkg in
  let e := PackageSpec.Environment s in
  Package.mk (Package.Metadata pkg)
    (PackageSpec.mk (EnvironmentReference.mk v (EnvironmentReference.Name e))
       (PackageSpec.Source s) (PackageSpec.Deployment s) (PackageSpec.BuildCommand s))
    (Package.Status pkg).

Definition set_BuildCommand (v : string) (pkg : Package.t) : Package.t :=
  let s := Package.Spec pkg in
  Package.mk (Package.Metadata pkg)
    (PackageSpec.mk (PackageSpec.Environment s)
       (PackageSpec.Source s) (PackageSpec.Deployment s) v)
    (Package.Status pkg).

Definition set_Source (v : Archive.t) (pkg : Package.t) : Package.t :=
  let s := Package.Spec pkg in
  Package.mk (Package.Metadata pkg)
    (PackageSpec.mk (PackageSpec.Environment s)
       v (PackageSpec.Deployment s) (PackageSpec.BuildCommand s))
    (Package.Status pkg).

Definition set_Deployment (v : Archive.t) (pkg : Package.t) : Package.t :=
  let s := Package.Spec pkg in
  Package.mk (Package.Metadata pkg)
    (PackageSpec.mk (PackageSpec.Environment s)
       (PackageSpec.Source s) v (PackageSpec.BuildCommand s))
    (Package.Status pkg).

Definition set_Status (v : PackageStatus.t) (pkg : Package.t) : Package.t :=
  Package.mk (Package.Metadata pkg) (Package.Spec pkg) v.

Definition set_Package_ResourceVersion (v : string) (pkg : Package.t) : Package.t :=
  let m := Package.Metadata pkg in
  Package.mk (ObjectMeta.mk (ObjectMeta.Name m) (ObjectMeta.Namespace m) v)
    (Package.Spec pkg) (Package.Status pkg).

Definition set_Function_ResourceVersion (v : string) (fn : Function.t) : Function.t :=
  let m := Function.Metadata fn in
  Function.mk (ObjectMeta.mk (ObjectMeta.Name m) (ObjectMeta.Namespace m) v)
    (Function.Spec fn).

(** [fn.Spec.Package.PackageRef.ResourceVersion = v] *)
Definition set_PackageRef_ResourceVersion (v : string) (fn : Function.t) : Function.t :=
  let s := Function.Spec fn in
  let p := FunctionSpec.Package s in
  let r := FunctionPackageRef.PackageRef p in
  Function.mk (Function.Metadata fn)
    (FunctionSpec.mk (FunctionSpec.Environment s)
       (FunctionPackageRef.mk
          (PackageRef.mk (PackageRef.Namespace r) (PackageRef.Name r) v)
          (FunctionPackageRef.FunctionName p))).

#[global] Instance byte_eq_dec : EqDecision byte := Strings.Byte.byte_eq_dec.
#[global] Instance Checksum_eq_dec : EqDecision Checksum.t.
Proof. solve_decision. Defined.
#[global] Instance Archive_eq_dec : EqDecision Archive.t.
Proof. solve_decision. Defined.
#[global] Instance EnvironmentReference_eq_dec : EqDecision EnvironmentReference.t.
Proof. solve_decision. Defined.
#[global] Instance PackageSpec_eq_dec : EqDecision PackageSpec.t.
Proof. solve_decision. Defined.

(** ** The world outside the process *)

(** Every call that leaves the process: the control-plane client, the blob
    store client, HTTP, the file system, the spec files and standard output. *)
Inductive Op :=
| OpFunctionList (ns : string)
| OpFunctionUpdate (ns name : string)
| OpPackageGet (ns name : string)
| OpPackageList (ns : string)
| OpPackageCreate (ns name : string)
| OpPackageUpdate (ns name : string)
| OpPackageDelete (ns name : string)
| OpGetSvcURL (label : string)
| OpUpload (endpoint fileName : string)
| OpHttpGet (url : string)
| OpStat (path : string)
| OpReadFile (path : string)
| OpOpen (path : string)
| OpCopy (path : string)
| OpCreate (path : string)
| OpChmod (path : string)
| OpRename (oldpath newpath : string)
| OpMkdir (path : string)
| OpGlob (patterns : list string)
| OpTempDir
| OpMakeArchive (target : string) (globs : list string)
| OpReadSpecs (dir : string)
| OpSpecSave (file : string)
| OpPrint (text : string).

(** Calls answered by a remote service. *)
Definition is_remote (op : Op) : bool :=
  match op with
  | OpFunctionList _ | OpFunctionUpdate _ _ | OpPackageGet _ _ | OpPackageList _
  | OpPackageCreate _ _ | OpPackageUpdate _ _ | OpPackageDelete _ _
  | OpGetSvcURL _ | OpUpload _ _ | OpHttpGet _ => true
  | _ => false
  end.

(** What the process cannot change: which calls fail (a function of the calls
    made so far), the web, the constants and library functions declared
    outside the sources at hand. *)
Record Host := {
  fault : list Op -> Op -> bool;
  ArchiveLiteralSizeLimit : Z;            (* types.ArchiveLiteralSizeLimit *)
  ARCHIVE_URL_PREFIX : string;            (* spec.ARCHIVE_URL_PREFIX *)
  Url : string;                           (* client.Url *)
  SvcURL : string -> string;              (* answer of client.GetSvcURL *)
  web : string -> option (Z * list byte); (* http.Get: status code and body *)
  Glob : gmap string (list byte) -> string -> list string; (* filepath.Glob *)
  ZipMatch : string -> option (list byte) -> bool;         (* archiver.Zip.Match *)
  zip : list (string * list byte) -> list byte;            (* archiver.Zip.Make *)
  uniuri : nat -> nat -> string;          (* uniuri.NewLen, by draw *)
  uuid : nat -> string;                   (* uuid.NewV4().String(), by draw *)
  KubifyName : string -> string;          (* util.KubifyName *)
  Base : string -> string;                (* path.Base *)
  ToLower : string -> string }.           (* strings.ToLower *)

Record World := {
  packages : list Package.t;              (* control plane: package records *)
  functions : list Function.t;            (* control plane: function records *)
  revision : nat;                         (* source of resource versions *)
  disk : gmap string (list byte);         (* local files by path *)
  blobs : gmap string (list byte);        (* blob store: archive id to content *)
  archiveSpecs : list ArchiveUploadSpec.t; (* spec files: archive upload specs *)
  packageSpecs : list Package.t;          (* spec files: packages *)
  draws : nat;                            (* random values drawn so far *)
  trace : list Op }.                      (* calls attempted, newest first *)

Definition log (op : Op) (w : World) : World :=
  Build_World (packages w) (functions w) (revision w) (disk w) (blobs w)
    (archiveSpecs w) (packageSpecs w) (draws w) (op :: trace w).

Definition set_packages (v : list Package.t) (w : World) : World :=
  Build_World v (functions w) (revision w) (disk w) (blobs w)
    (archiveSpecs w) (packageSpecs w) (draws w) (trace w).

Definition set_functions (v : list Function.t) (w : World) : World :=
  Build_World (packages w) v (revision w) (disk w) (blobs w)
    (archiveSpecs w) (packageSpecs w) (draws w) (trace w).

Definition set_files (v : gmap string (list byte)) (w : World) : World :=
  Build_World (packages w) (functions w) (revision w) v (blobs w)
    (archiveSpecs w) (packageSpecs w) (draws w) (trace w).

Definition set_blobs (v : gmap string (list byte)) (w : World) : World :=
  Build_World (packages w) (functions w) (revision w) (disk w) v
    (archiveSpecs w) (packageSpecs w) (draws w) (trace w).

Definition set_archiveSpecs (v : list ArchiveUploadSpec.t) (w : World) : World :=
  Build_World (packages w) (functions w) (revision w) (disk w) (blobs w)
    v (packageSpecs w) (draws w) (trace w).

Definition set_packageSpecs (v : list Package.t) (w : World) : World :=
  Build_World (packages w) (functions w) (revision w) (disk w) (blobs w)
    (archiveSpecs w) v (draws w) (trace w).

Definition next_revision (w : World) : World :=
  Build_World (packages w) (functions w) (S (revision w)) (disk w) (blobs w)
    (archiveSpecs w) (packageSpecs w) (draws w) (trace w).

Definition next_draw (w : World) : World :=
  Build_World (packages w) (functions w) (revision w) (disk w) (blobs w)
    (archiveSpecs w) (packageSpecs w) (S (draws w)) (trace w).

(** The library functions that only the reading commands use. *)
Record Library := {
  RequestURI : string -> option string;   (* url.ParseRequestURI, then u.RequestURI() *)
  tabwriter : string -> string }.         (* text/tabwriter: the text, as it is flushed *)

(** ** A state monad with process exit *)

(** [Val a]: the Go function returned [a]. [Fatal msg]: the process exited
    through [log.Fatal] or [util.CheckErr] after reporting [msg]. *)
Inductive outcome (A : Type) :=
| Val (a : A)
| Fatal (msg : string).
Arguments Val {A} a.
Arguments Fatal {A} msg.

Definition M (A : Type) : Type := World -> outcome A * World.

Definition ret {A} (a : A) : M A := fun w => (Val a, w).

Definition bind {A B} (m : M A) (k : A -> M B) : M B :=
  fun w => match m w with
           | (Val a, w') => k a w'
           | (Fatal msg, w') => (Fatal msg, w')
           end.

#[global] Instance M_ret : MRet M := @ret.
#[global] Instance M_bind : MBind M := fun A B k m => bind m k.

Definition get : M World := fun w => (Val w, w).
Definition modify (f : World -> World) : M unit := fun w => (Val tt, f w).

(** A Go [error]: [None] is [nil]. A pair [(T, error)] is a [result T]. *)
Definition error : Type := option string.

Inductive result (A : Type) :=
| Ok (a : A)
| Err (e : string).
Arguments Ok {A} a.
Arguments Err {A} e.

Definition error_of {A} (r : result A) : error :=
  match r with Ok _ => None | Err e => Some e end.

(** Punctuation that has no place inside a string literal. *)
Definition quote : string := String (ascii_of_nat 34) EmptyString.
Definition nl : string := String (ascii_of_nat 10) EmptyString.
Definition tab : string := String (ascii_of_nat 9) EmptyString.
Definition star : string := String (ascii_of_nat 42) EmptyString.

Module log_.
(** [log.Fatal(msg)]: report and exit. *)
Definition Fatal {A} (msg : string) : M A := fun w => (Fatal msg, w).
End log_.

Module util.
(** [util.CheckErr(err, msg)] for a call returning a value and an error:
    exits when the error is not nil, hands on the value otherwise. *)
Definition CheckErr {A} (r : result A) (msg : string) : M A :=
  match r with
  | Ok a => ret a
  | Err e => log_.Fatal ("Failed to " ++ msg ++ ": " ++ e)
  end.

(** [util.CheckErr(err, msg)] for a call returning only an error. *)
Definition CheckError (err : error) (msg : string) : M unit :=
  match err with
  | None => ret tt
  | Some e => log_.Fatal ("Failed to " ++ msg ++ ": " ++ e)
  end.
End util.

Module fmt.
(** [fmt.Printf] / [fmt.Println] on standard output. *)
Definition Printf (text : string) : M unit := modify (log (OpPrint text)).
End fmt.

(** An external call: it is logged, then fails or goes through as the host
    decides from the calls made before it. *)
Definition attempt (host : Host) (op : Op) : M bool :=
  fun w => (Val (negb (fault host (trace w) op)), log op w).

(** ** The control-plane client ([client.Client]) *)
Module client.
Section Client.
Variable host : Host.

Definition is_meta (ns name : string) (m : ObjectMeta.t) : bool :=
  String.eqb (ObjectMeta.Namespace m) ns && String.eqb (ObjectMeta.Name m) name.
Definition is_package (ns name : string) (p : Package.t) : bool :=
  is_meta ns name (Package.Metadata p).
Definition is_function (ns name : string) (f : Function.t) : bool :=
  is_meta ns name (Function.Metadata f).

Definition version_of (n : nat) : string :=
  NilEmpty.string_of_uint (Nat.to_uint n).

(** Modelled from the spec: [client.PackageGet] is missing from the
    sources; the store is keyed by (namespace, name). *)
Definition PackageGet (m : ObjectMeta.t) : M (result Package.t) :=
  let ns := ObjectMeta.Namespace m in
  let name := ObjectMeta.Name m in
  ok ← attempt host (OpPackageGet ns name);
  if ok : bool then
    w ← get;
    match find (is_package ns name) (packages w) with
    | Some p => ret (Ok p)
    | None => ret (Err ("package " ++ name ++ " not found"))
    end
  else ret (Err "control plane unreachable").

(** Modelled from the spec: [client.PackageList] is missing from the
    sources; it lists the packages of one namespace. *)
Definition PackageList (ns : string) : M (result (list Package.t)) :=
  ok ← attempt host (OpPackageList ns);
  if ok : bool then
    w ← get;
    ret (Ok (List.filter
               (fun p => String.eqb (ObjectMeta.Namespace (Package.Metadata p)) ns)
               (packages w)))
  else ret (Err "control plane unreachable").

(** Modelled from the spec: [client.PackageCreate] is missing from the
    sources; the new record gets a fresh resource version. *)
Definition PackageCreate (pkg : Package.t) : M (result ObjectMeta.t) :=
  let ns := ObjectMeta.Namespace (Package.Metadata pkg) in
  let name := ObjectMeta.Name (Package.Metadata pkg) in
  ok ← attempt host (OpPackageCreate ns name);
  if ok : bool then
    w ← get;
    match find (is_package ns name) (packages w) with
    | Some _ => ret (Err ("package " ++ name ++ " already exists"))
    | None =>
        let pkg' := set_Package_ResourceVersion (version_of (S (revision w))) pkg in
        modify (fun w => next_revision (set_packages (packages w ++ [pkg']) w));;
        ret (Ok (Package.Metadata pkg'))
    end
  else ret (Err "control plane unreachable").

(** Modelled from the spec: [client.PackageUpdate] is missing from the
    sources; a write against a stale resource version fails, a successful
    write replaces the record and bumps its resource version. *)
Definition PackageUpdate (pkg : Package.t) : M (result ObjectMeta.t) :=
  let ns := ObjectMeta.Namespace (Package.Metadata pkg) in
  let name := ObjectMeta.Name (Package.Metadata pkg) in
  ok ← attempt host (OpPackageUpdate ns name);
  if ok : bool then
    w ← get;
    match find (is_package ns name) (packages w) with
    | None => ret (Err ("package " ++ name ++ " not found"))
    | Some old =>
        if String.eqb (ObjectMeta.ResourceVersion (Package.Metadata old))
                      (ObjectMeta.ResourceVersion (Package.Metadata pkg))
        then
          let pkg' := set_Package_ResourceVersion (version_of (S (revision w))) pkg in
          modify (fun w => next_revision (set_packages
                    (map (fun q => if is_package ns name q then pkg' else q) (packages w)) w));;
          ret (Ok (Package.Metadata pkg'))
        else ret (Err ("conflict on package " ++ name))
    end
  else ret (Err "control plane unreachable").

(** Modelled from the spec: [client.PackageDelete] is missing from the
    sources; it removes the record unconditionally. *)
Definition PackageDelete (m : ObjectMeta.t) : M error :=
  let ns := ObjectMeta.Namespace m in
  let name := ObjectMeta.Name m in
  ok ← attempt host (OpPackageDelete ns name);
  if ok : bool then
    w ← get;
    match find (is_package ns name) (packages w) with
    | None => ret (Some ("package " ++ name ++ " not found"))
    | Some _ =>
        modify (fun w => set_packages
                  (List.filter (fun q => negb (is_package ns name q)) (packages w)) w);;
        ret None
    end
  else ret (Some "control plane unreachable").

(** Modelled from the spec: [client.FunctionList] is missing from the
    sources; it lists the functions of one namespace. *)
Definition FunctionList (ns : string) : M (result (list Function.t)) :=
  ok ← attempt host (OpFunctionList ns);
  if ok : bool then
    w ← get;
    ret (Ok (List.filter
               (fun f => String.eqb (ObjectMeta.Namespace (Function.Metadata f)) ns)
               (functions w)))
  else ret (Err "control plane unreachable").

(** Modelled from the spec: [client.FunctionUpdate] is missing from the
    sources; same contract as [PackageUpdate], on function records. *)
Definition FunctionUpdate (fn : Function.t) : M (result ObjectMeta.t) :=
  let ns := ObjectMeta.Namespace (Function.Metadata fn) in
  let name := ObjectMeta.Name (Function.Metadata fn) in
  ok ← attempt host (OpFunctionUpdate ns name);
  if ok : bool then
    w ← get;
    match find (is_function ns name) (functions w) with
    | None => ret (Err ("function " ++ name ++ " not found"))
    | Some old =>
        if String.eqb (ObjectMeta.ResourceVersion (Function.Metadata old))
                      (ObjectMeta.ResourceVersion (Function.Metadata fn))
        then
          let fn' := set_Function_ResourceVersion (version_of (S (revision w))) fn in
          modify (fun w => next_revision (set_functions
                    (map (fun g => if is_function ns name g then fn' else g) (functions w)) w));;
          ret (Ok (Function.Metadata fn'))
        else ret (Err ("conflict on function " ++ name))
    end
  else ret (Err "control plane unreachable").

(** Modelled from the spec: [client.GetSvcURL] is missing from the sources;
    it answers with the address of the service carrying the label. *)
Definition GetSvcURL (label : string) : M (result string) :=
  ok ← attempt host (OpGetSvcURL label);
  if ok : bool then ret (Ok (SvcURL host label))
  else ret (Err "control plane unreachable").

End Client.
End client.

(** ** The operating system, the web and the libraries around the sources *)

Module filepath.
(** [filepath.Join], without the cleaning of the joined path. *)
Definition Join (dir file : string) : string := dir ++ "/" ++ file.
End filepath.

Module os.
Section Os.
Variable host : Host.

(** [os.Stat]: the size of the file, as [info.Size()] gives it. *)
Definition Stat (path : string) : M (result Z) :=
  ok ← attempt host (OpStat path);
  if ok : bool then
    w ← get;
    match disk w !! path with
    | Some content => ret (Ok (Z.of_nat (length content)))
    | None => ret (Err ("stat " ++ path ++ ": no such file or directory"))
    end
  else ret (Err ("stat " ++ path ++ ": input/output error")).

(** [os.Open]: the content behind the file handle. *)
Definition Open (path : string) : M (result (list byte)) :=
  ok ← attempt host (OpOpen path);
  if ok : bool then
    w ← get;
    match disk w !! path with
    | Some content => ret (Ok content)
    | None => ret (Err ("open " ++ path ++ ": no such file or directory"))
    end
  else ret (Err ("open " ++ path ++ ": permission denied")).

(** [os.Create]: an empty file at [path]. *)
Definition Create (path : string) : M error :=
  ok ← attempt host (OpCreate path);
  if ok : bool then modify (fun w => set_files (<[path := []]> (disk w)) w);; ret None
  else ret (Some ("create " ++ path ++ ": permission denied")).

Definition Chmod (path : string) : M error :=
  ok ← attempt host (OpChmod path);
  if ok : bool then ret None
  else ret (Some ("chmod " ++ path ++ ": operation not permitted")).

Definition Mkdir (path : string) : M error :=
  ok ← attempt host (OpMkdir path);
  if ok : bool then ret None
  else ret (Some ("mkdir " ++ path ++ ": file exists")).

Definition Rename (oldpath newpath : string) : M error :=
  ok ← attempt host (OpRename oldpath newpath);
  if ok : bool then
    w ← get;
    match disk w !! oldpath with
    | Some content =>
        modify (fun w => set_files (<[newpath := content]> (delete oldpath (disk w))) w);;
        ret None
    | None => ret (Some ("rename " ++ oldpath ++ ": no such file or directory"))
    end
  else ret (Some ("rename " ++ oldpath ++ ": permission denied")).

End Os.
End os.

Module ioutil.
Section Ioutil.
Variable host : Host.

(** [ioutil.ReadFile] *)
Definition ReadFile (path : string) : M (result (list byte)) :=
  ok ← attempt host (OpReadFile path);
  if ok : bool then
    w ← get;
    match disk w !! path with
    | Some content => ret (Ok content)
    | None => ret (Err ("open " ++ path ++ ": no such file or directory"))
    end
  else ret (Err ("read " ++ path ++ ": input/output error")).

End Ioutil.
End ioutil.

Module io.
Section Io.
Variable host : Host.

(** [io.Copy(h, f)] into a hash: the hash has absorbed what it was given,
    here the whole content read from [path]. *)
Definition CopyToHash (path : string) (content : list byte) : M (result (list byte)) :=
  ok ← attempt host (OpCopy path);
  if ok : bool then ret (Ok content)
  else ret (Err ("read " ++ path ++ ": input/output error")).

(** [io.Copy(w, reader)] into the file created at [path]. *)
Definition CopyToFile (path : string) (content : list byte) : M error :=
  ok ← attempt host (OpCopy path);
  if ok : bool then modify (fun w => set_files (<[path := content]> (disk w)) w);; ret None
  else ret (Some ("write " ++ path ++ ": no space left on device")).

End Io.
End io.

Module http.
Section Http.
Variable host : Host.

Definition StatusOK : Z := 200.

(** [http.Get]: status code and body of the response. *)
Definition Get (url : string) : M (result (Z * list byte)) :=
  ok ← attempt host (OpHttpGet url);
  if ok : bool then
    match web host url with
    | Some resp => ret (Ok resp)
    | None => ret (Err ("Get " ++ url ++ ": no such host"))
    end
  else ret (Err ("Get " ++ url ++ ": connection refused")).

End Http.
End http.

(** [uniuri.NewLen] and [uuid.NewV4().String()]: the next random draw. *)
Module random.
Section Random.
Variable host : Host.

Definition NewLen (n : nat) : M string :=
  w ← get; modify next_draw;; ret (uniuri host n (draws w)).

Definition NewV4 : M string :=
  w ← get; modify next_draw;; ret (uuid host (draws w)).

End Random.
End random.

Module utils.
Section Utils.
Variable host : Host.

(** Modelled from the spec: [utils.GetTempDir] is missing from the sources;
    a scratch directory of its own for each call. *)
Definition GetTempDir : M (result string) :=
  ok ← attempt host OpTempDir;
  if ok : bool then
    name ← random.NewV4 host;
    ret (Ok (filepath.Join "/tmp" name))
  else ret (Err "cannot create temporary directory").

(** Modelled from the spec: [utils.FindAllGlobs] is missing from the
    sources; the matches of every pattern, in the order of the patterns. *)
Definition FindAllGlobs (paths : list string) : M (result (list string)) :=
  ok ← attempt host (OpGlob paths);
  if ok : bool then
    w ← get;
    ret (Ok (flat_map (Glob host (disk w)) paths))
  else ret (Err "invalid glob").

(** Modelled from the spec: [utils.MakeArchive] is missing from the sources;
    a new archive of all matched files, written at [targetName]. *)
Definition MakeArchive (targetName : string) (globs : list string) : M (result string) :=
  ok ← attempt host (OpMakeArchive targetName globs);
  if ok : bool then
    w ← get;
    let matched := flat_map (Glob host (disk w)) globs in
    let entries := flat_map (fun f => match disk w !! f with
                                      | Some c => [(f, c)]
                                      | None => []
                                      end) matched in
    modify (fun w => set_files (<[targetName := zip host entries]> (disk w)) w);;
    ret (Ok targetName)
  else ret (Err "cannot write archive").

End Utils.
End utils.

(** ** The blob store client ([storageSvcClient]) *)
Module storageSvcClient.
Section StorageSvcClient.
Variable host : Host.

Record Client := MakeClient { url : string }.

(** Modelled from the spec: [Upload] is missing from the sources; the bytes
    of the file are stored under a fresh opaque identifier. *)
Definition Upload (c : Client) (fileName : string) : M (result string) :=
  ok ← attempt host (OpUpload (url c) fileName);
  if ok : bool then
    w ← get;
    match disk w !! fileName with
    | Some content =>
        id ← random.NewV4 host;
        modify (fun w => set_blobs (<[id := content]> (blobs w)) w);;
        ret (Ok id)
    | None => ret (Err ("open " ++ fileName ++ ": no such file or directory"))
    end
  else ret (Err "upload failed").

(** Modelled from the spec: [GetUrl] is missing from the sources; the
    retrievable address of an identifier under the client's base address. *)
Definition GetUrl (c : Client) (id : string) : string :=
  strings.TrimSuffix (url c) "/" ++ "/v1/archive?id=" ++ id.

End StorageSvcClient.
End storageSvcClient.

(** ** The declarative artifact registry ([spec]) *)
Module spec.
Section Spec.
Variable host : Host.

(** [spec.FissionResources], as far as archives and packages go. *)
Record FissionResources := {
  ArchiveUploadSpecs : list ArchiveUploadSpec.t;
  Packages : list Package.t }.

(** Modelled from the spec: [spec.ReadSpecs] is missing from the sources. *)
Definition ReadSpecs (specDir : string) : M (result FissionResources) :=
  ok ← attempt host (OpReadSpecs specDir);
  if ok : bool then
    w ← get;
    ret (Ok {| ArchiveUploadSpecs := archiveSpecs w; Packages := packageSpecs w |})
  else ret (Err "cannot read specs").

(** Modelled from the spec: [SpecExists] on an archive upload spec is
    missing from the sources; a recorded description with the same glob
    list, whatever its name. *)
Definition SpecExists_aus (fr : FissionResources) (aus : ArchiveUploadSpec.t)
  : option ObjectMeta.t :=
  match find (fun a => bool_decide (ArchiveUploadSpec.IncludeGlobs a
                                    = ArchiveUploadSpec.IncludeGlobs aus))
             (ArchiveUploadSpecs fr) with
  | Some a => Some (ObjectMeta.mk (ArchiveUploadSpec.Name a) "" "")
  | None => None
  end.

(** Modelled from the spec: [SpecExists] on a package is missing from the
    sources; a recorded package with the same spec, whatever its name. *)
Definition SpecExists_pkg (fr : FissionResources) (pkg : Package.t)
  : option ObjectMeta.t :=
  match find (fun p => bool_decide (Package.Spec p = Package.Spec pkg)) (Packages fr) with
  | Some p => Some (Package.Metadata p)
  | None => None
  end.

(** Modelled from the spec: [spec.SpecSave] is missing from the sources. *)
Definition SpecSave_aus (aus : ArchiveUploadSpec.t) (specFile : string) : M error :=
  ok ← attempt host (OpSpecSave specFile);
  if ok : bool then
    modify (fun w => set_archiveSpecs (archiveSpecs w ++ [aus]) w);; ret None
  else ret (Some "cannot write spec file").

Definition SpecSave_pkg (pkg : Package.t) (specFile : string) : M error :=
  ok ← attempt host (OpSpecSave specFile);
  if ok : bool then
    modify (fun w => set_packageSpecs (packageSpecs w ++ [pkg]) w);; ret None
  else ret (Some "cannot write spec file").

End Spec.
End spec.

(** [fmt.Sprintf("%v", n)] on an integer. *)
Definition show_Z (z : Z) : string := NilZero.string_of_int (Z.to_int z).

(** ** Archive transport: [pkg/fission-cli/cmd/package/package.go] *)
Module _package.
Section Package.
Variable host : Host.

Definition FileSize (filePath : string) : M Z :=
  r ← os.Stat host filePath;
  info ← util.CheckErr r ("stat " ++ filePath);
  ret info.

Definition GetContents (filePath : string) : M (list byte) :=
  r ← ioutil.ReadFile host filePath;
  code ← util.CheckErr r ("read " ++ filePath);
  ret code.

Definition FileChecksum (fileName : string) : M (result Checksum.t) :=
  r ← os.Open host fileName;
  match r with
  | Err err => ret (Err ("failed to open file " ++ fileName ++ ": " ++ err))
  | Ok f =>
      (* h := sha256.New(); io.Copy(h, f) *)
      r ← io.CopyToHash host fileName f;
      match r with
      | Err _ => ret (Err ("failed to calculate checksum for " ++ fileName))
      | Ok h =>
          ret (Ok (Checksum.mk ChecksumTypeSHA256
                     (hex.EncodeToString (SHA256.Sum256 h))))
      end
  end.

(** [DownloadURL] downloads file from given url: the reader over the body. *)
Definition DownloadURL (fileUrl : string) : M (result (list byte)) :=
  r ← http.Get host fileUrl;
  match r with
  | Err err => ret (Err err)
  | Ok (StatusCode, Body) =>
      if negb (StatusCode =? http.StatusOK)%Z
      then ret (Err (show_Z StatusCode ++ " - HTTP response returned non 200 status"))
      else ret (Ok Body)
  end.

Definition WriteArchiveToFile (fileName : string) (reader : list byte) : M error :=
  r ← utils.GetTempDir host;
  match r with
  | Err err => ret (Some err)
  | Ok tmpDir =>
      let path := filepath.Join tmpDir (fileName ++ ".tmp") in
      err ← os.Create host path;
      match err with
      | Some err => ret (Some err)
      | None =>
          err ← io.CopyToFile host path reader;
          match err with
          | Some err => ret (Some err)
          | None =>
              err ← os.Chmod host path;
              match err with
              | Some err => ret (Some err)
              | None =>
                  err ← os.Rename host path fileName;
                  match err with
                  | Some err => ret (Some err)
                  | None => ret None
                  end
              end
          end
      end
  end.

(** [DownloadToTempFile] fetches archive file from arbitrary url and write
    it to temp file for further usage. *)
Definition DownloadToTempFile (fileUrl : string) : M string :=
  r ← DownloadURL fileUrl;
  reader ← util.CheckErr r ("download from url: " ++ fileUrl);
  r ← utils.GetTempDir host;
  tmpDir ← util.CheckErr r "create temp directory";
  tmpFilename ← random.NewV4 host;
  let destination := filepath.Join tmpDir tmpFilename in
  err ← os.Mkdir host tmpDir;
  util.CheckError err "create temp directory";;
  err ← WriteArchiveToFile destination reader;
  util.CheckError err "write archive to file";;
  ret destination.

Definition UploadArchive (fileName : string) : M Archive.t :=
  (* If filename is a URL, download it first *)
  fileName ← (if isHTTP fileName then DownloadToTempFile fileName else ret fileName);
  size ← FileSize fileName;
  if (size <? ArchiveLiteralSizeLimit host)%Z then
    contents ← GetContents fileName;
    ret (Archive.mk ArchiveTypeLiteral contents "" Checksum.zero)
  else
    let u := strings.TrimSuffix (Url host) "/" ++ "/proxy/storage" in
    let ssClient := storageSvcClient.MakeClient u in
    r ← storageSvcClient.Upload host ssClient fileName;
    id ← util.CheckErr r ("upload file " ++ fileName);
    r ← client.GetSvcURL host "application=fission-storage";
    let storageSvcURL := "http://" ++ match r with Ok s => s | Err _ => "" end in
    _ ← util.CheckErr r "get fission storage service name";
    (* a new client with the actual URL of the storage service *)
    let pkgClient := storageSvcClient.MakeClient storageSvcURL in
    let archiveURL := storageSvcClient.GetUrl pkgClient id in
    r ← FileChecksum fileName;
    csum ← util.CheckErr r ("calculate checksum for file " ++ fileName);
    ret (Archive.mk ArchiveTypeUrl [] archiveURL csum).

End Package.
End _package.

(** ** Command line flags ([cli.Context]) *)
Module cli.
Record Context := {
  String : string -> string;
  Bool : string -> bool;
  StringSlice : string -> list string }.

Definition lookup_flag {A} (dflt : A) (kvs : list (string * A)) (k : string) : A :=
  match find (fun kv => String.eqb (fst kv) k) kvs with
  | Some kv => snd kv
  | None => dflt
  end.

(** A command line: the flags given, every other flag at its zero value. *)
Definition flags (ss : list (string * string)) (bs : list (string * bool))
           (ls : list (string * list string)) : Context :=
  {| String := lookup_flag "" ss;
     Bool := lookup_flag false bs;
     StringSlice := lookup_flag [] ls |}.
End cli.

(** ** The package commands: [package fission_cli] *)
Module fission_cli.
Section FissionCli.
Variable host : Host.

Definition PackageRef_Name (fn : Function.t) : string :=
  PackageRef.Name (FunctionPackageRef.PackageRef (FunctionSpec.Package (Function.Spec fn))).
Definition PackageRef_Namespace (fn : Function.t) : string :=
  PackageRef.Namespace (FunctionPackageRef.PackageRef (FunctionSpec.Package (Function.Spec fn))).
Definition PackageRef_ResourceVersion (fn : Function.t) : string :=
  PackageRef.ResourceVersion
    (FunctionPackageRef.PackageRef (FunctionSpec.Package (Function.Spec fn))).

Definition getFunctionsByPackage (pkgName pkgNamespace : string)
  : M (result (list Function.t)) :=
  r ← client.FunctionList host pkgNamespace;
  match r with
  | Err err => ret (Err err)
  | Ok fnList =>
      let fns :=
        fold_left (fun fns fn =>
                     if String.eqb (PackageRef_Name fn) pkgName
                     then (fns ++ [fn])%list else fns)
                  fnList [] in
      ret (Ok fns)
  end.

(** Name an archive *)
Definition archiveName (givenNameHint : string) (includedFiles : list string) : M string :=
  if nonempty givenNameHint then
    r ← random.NewLen host 4; ret (givenNameHint ++ "-" ++ r)
  else
    match includedFiles with
    | [] => random.NewLen host 8
    | first :: _ => r ← random.NewLen host 4; ret (KubifyName host first ++ "-" ++ r)
    end.

(** Create an archive from the given list of input files, unless that list
    has only one item and that item is either a zip file or a URL. *)
Definition makeArchiveFileIfNeeded (archiveNameHint : string)
           (archiveInput : list string) (noZip : bool) : M string :=
  (* Unique name for the archive *)
  archiveName ← archiveName archiveNameHint archiveInput;
  (* Get files from inputs as number of files decide next steps *)
  r ← utils.FindAllGlobs host archiveInput;
  files ← util.CheckErr r "finding all globs";
  (* We have one file; if it's a zip file or a URL, no need to archive it *)
  early ← match files with
          | [file0] =>
              (* make sure it exists *)
              r ← os.Stat host file0;
              _ ← util.CheckErr r ("open input file " ++ file0);
              w ← get;
              (* an existing zip file OR we're not supposed to zip it *)
              if ZipMatch host file0 (disk w !! file0) || noZip then ret (Some file0)
              (* if it's an HTTP URL, just use the URL. *)
              else if isHTTP file0 then ret (Some file0)
              else ret None
          | _ => ret None
          end;
  match early with
  | Some path => ret path
  | None =>
      (* For anything else, create a new archive *)
      r ← utils.GetTempDir host;
      tmpDir ← util.CheckErr r "create temporary archive directory";
      r ← utils.MakeArchive host (filepath.Join tmpDir archiveName) archiveInput;
      archivePath ← util.CheckErr r "create archive file";
      ret archivePath
  end.

(** The existence check of [createArchive]: one error for every path that
    is not a URL and matches no file. *)
Fixpoint checkFilesExistence (includeFiles : list string) (errs : list string)
  : M (list string) :=
  match includeFiles with
  | [] => ret errs
  | path :: rest =>
      (* ignore http files *)
      if isHTTP path then checkFilesExistence rest errs
      else
        r ← utils.FindAllGlobs host [path];
        files ← util.CheckErr r "finding all globs";
        let report := "Error finding any files with path " ++ quote ++ path ++ quote in
        if has_items files
        then checkFilesExistence rest errs
        else checkFilesExistence rest (errs ++ [report])%list
  end.

(** [errs.Error()] of a [multierror.Error]. *)
Definition multierror_Error (errs : list string) : string :=
  show_Z (Z.of_nat (length errs)) ++ " errors occurred: " ++ String.concat "; " errs.

(** Return a fv1.Archive made from an archive.  If specFile, then create an
    archive upload spec in the specs directory; otherwise upload the archive
    using client. *)
Definition createArchive (includeFiles : list string) (noZip : bool)
           (specDir specFile : string) : M Archive.t :=
  (* check files existence *)
  errs ← checkFilesExistence includeFiles [];
  (if has_items errs then log_.Fatal (multierror_Error errs) else ret tt);;
  if nonempty specFile then
    (* create an ArchiveUploadSpec and reference it from the archive *)
    name ← archiveName "" includeFiles;
    let aus := ArchiveUploadSpec.mk name includeFiles in
    (* check if this AUS exists in the specs; if so, don't create a new one *)
    r ← spec.ReadSpecs host specDir;
    fr ← util.CheckErr r "read specs";
    aus ← match spec.SpecExists_aus fr aus with
          | Some m =>
              fmt.Printf ("Re-using previously created archive " ++ ObjectMeta.Name m ++ nl);;
              ret (ArchiveUploadSpec.mk (ObjectMeta.Name m) includeFiles)
          | None =>
              (* save the uploadspec *)
              err ← spec.SpecSave_aus host aus specFile;
              util.CheckError err ("write spec file " ++ specFile);;
              ret aus
          end;
    (* create the archive object *)
    ret (Archive.mk ArchiveTypeUrl []
           (ARCHIVE_URL_PREFIX host ++ ArchiveUploadSpec.Name aus) Checksum.zero)
  else
    archivePath ← makeArchiveFileIfNeeded "" includeFiles noZip;
    _package.UploadArchive host archivePath.

(** [updatePackage] assigns through the pointer [pkg]; the package it
    leaves behind the pointer is returned next to the Go results. *)
Definition updatePackage (pkg : Package.t) (envName envNamespace : string)
           (srcArchiveFiles deployArchiveFiles : list string) (buildcmd : string)
           (forceRebuild noZip : bool) : M (Package.t * result ObjectMeta.t) :=
  let needToBuild := false in
  let '(pkg, needToBuild) :=
    if nonempty envName
    then (set_Environment_Name envName pkg, true) else (pkg, needToBuild) in
  let '(pkg, needToBuild) :=
    if nonempty envNamespace
    then (set_Environment_Namespace envNamespace pkg, true) else (pkg, needToBuild) in
  let '(pkg, needToBuild) :=
    if nonempty buildcmd
    then (set_BuildCommand buildcmd pkg, true) else (pkg, needToBuild) in
  '(pkg, needToBuild) ←
    (if has_items srcArchiveFiles then
       srcArchiveMetadata ← createArchive srcArchiveFiles false "" "";
       ret (set_Source srcArchiveMetadata pkg, true)
     else ret (pkg, needToBuild));
  '(pkg, needToBuild) ←
    (if has_items deployArchiveFiles then
       deployArchiveMetadata ← createArchive deployArchiveFiles noZip "" "";
       (* Users may update the env, envNS and deploy archive at the same
          time, but without the source archive. In this case, we should set
          needToBuild to false *)
       ret (set_Deployment deployArchiveMetadata pkg, false)
     else ret (pkg, needToBuild));
  (* Set package as pending status when needToBuild is true *)
  let pkg :=
    if needToBuild || forceRebuild
    then (* change into pending state to trigger package build *)
      set_Status (PackageStatus.mk BuildStatusPending "") pkg
    else pkg in
  r ← client.PackageUpdate host pkg;
  newPkgMeta ← util.CheckErr r "update package";
  ret (pkg, Ok newPkgMeta).

(** The loop of [pkgUpdate] over the functions sharing the package. *)
Fixpoint updateFunctions (fnList : list Function.t) (newPkgMeta : ObjectMeta.t)
  : M unit :=
  match fnList with
  | [] => ret tt
  | fn :: rest =>
      let fn := set_PackageRef_ResourceVersion (ObjectMeta.ResourceVersion newPkgMeta) fn in
      r ← client.FunctionUpdate host fn;
      _ ← util.CheckErr r "update function";
      updateFunctions rest newPkgMeta
  end.

Definition pkgUpdate (c : cli.Context) : M error :=
  let pkgName := cli.String c "name" in
  (if nonempty pkgName then ret tt else log_.Fatal "Need --name argument.");;
  let pkgNamespace := cli.String c "pkgNamespace" in
  let force := cli.Bool c "f" in
  let envName := cli.String c "env" in
  let envNamespace := cli.String c "envNamespace" in
  let srcArchiveFiles := cli.StringSlice c "src" in
  let deployArchiveFiles := cli.StringSlice c "deploy" in
  let buildcmd := cli.String c "buildcmd" in
  (if has_items srcArchiveFiles && has_items deployArchiveFiles
   then log_.Fatal "Need either of --src or --deploy and not both arguments."
   else ret tt);;
  (if negb (has_items srcArchiveFiles) && negb (has_items deployArchiveFiles)
      && negb (nonempty envName) && negb (nonempty buildcmd)
   then log_.Fatal "Need --env or --src or --deploy or --buildcmd argument."
   else ret tt);;
  r ← client.PackageGet host (ObjectMeta.mk pkgName pkgNamespace "");
  pkg ← util.CheckErr r "get package";
  (* if the new env specified is the same as the old one, no need to update
     package *)
  let envName :=
    if nonempty envName
       && String.eqb envName (EnvironmentReference.Name
                                (PackageSpec.Environment (Package.Spec pkg)))
    then "" else envName in
  let envNamespace :=
    if String.eqb envNamespace (EnvironmentReference.Namespace
                                  (PackageSpec.Environment (Package.Spec pkg)))
    then "" else envNamespace in
  r ← getFunctionsByPackage (ObjectMeta.Name (Package.Metadata pkg))
                            (ObjectMeta.Namespace (Package.Metadata pkg));
  fnList ← util.CheckErr r "get function list";
  (if negb force && (1 <? length fnList)%nat
   then log_.Fatal "Package is used by multiple functions, use --force to force update"
   else ret tt);;
  '(_, r) ← updatePackage pkg envName envNamespace srcArchiveFiles deployArchiveFiles
                          buildcmd false false;
  newPkgMeta ← util.CheckErr r "update package";
  (* update resource version of package reference of functions that shared
     the same package *)
  updateFunctions fnList newPkgMeta;;
  fmt.Printf ("Package '" ++ ObjectMeta.Name newPkgMeta ++ "' updated" ++ nl);;
  ret None.

Definition deletePackage (pkgName pkgNamespace : string) : M error :=
  client.PackageDelete host (ObjectMeta.mk pkgName pkgNamespace "").

(** The loop of [deleteOrphanPkgs]: range through all packages and find out
    the ones not referenced by any function. *)
Fixpoint deleteOrphanPkgs_range (pkgNamespace : string) (pkgList : list Package.t)
  : M error :=
  match pkgList with
  | [] => ret None
  | pkg :: rest =>
      let name := ObjectMeta.Name (Package.Metadata pkg) in
      r ← getFunctionsByPackage name pkgNamespace;
      fnList ← util.CheckErr r ("get functions sharing package " ++ name);
      if has_items fnList then deleteOrphanPkgs_range pkgNamespace rest
      else
        err ← deletePackage name pkgNamespace;
        match err with
        | Some err => ret (Some err)
        | None => deleteOrphanPkgs_range pkgNamespace rest
        end
  end.

Definition deleteOrphanPkgs (pkgNamespace : string) : M error :=
  r ← client.PackageList host pkgNamespace;
  match r with
  | Err err => ret (Some err)
  | Ok pkgList => deleteOrphanPkgs_range pkgNamespace pkgList
  end.

Definition pkgDelete (c : cli.Context) : M error :=
  let pkgName := cli.String c "name" in
  let pkgNamespace := cli.String c "pkgNamespace" in
  let deleteOrphans := cli.Bool c "orphan" in
  if negb (nonempty pkgName) && negb deleteOrphans then
    fmt.Printf ("Need --name argument or --orphan flag." ++ nl);;
    ret None
  else if nonempty pkgName && deleteOrphans then
    fmt.Printf ("Need either --name argument or --orphan flag" ++ nl);;
    ret None
  else if nonempty pkgName then
    let force := cli.Bool c "f" in
    r ← client.PackageGet host (ObjectMeta.mk pkgName pkgNamespace "");
    _ ← util.CheckErr r "find package";
    r ← getFunctionsByPackage pkgName pkgNamespace;
    match r with
    | Err err => ret (Some err)
    | Ok fnList =>
        (if negb force && has_items fnList
         then log_.Fatal "Package is used by at least one function, use -f to force delete"
         else ret tt);;
        err ← deletePackage pkgName pkgNamespace;
        match err with
        | Some err => ret (Some err)
        | None =>
            fmt.Printf ("Package '" ++ pkgName ++ "' deleted" ++ nl);;
            ret None
        end
    end
  else
    err ← deleteOrphanPkgs pkgNamespace;
    util.CheckError err "error deleting orphan packages";;
    fmt.Printf ("Orphan packages deleted" ++ nl);;
    ret None.

(** [fmt.Sprintf("%v", fv1.BuildStatusFailed)] and its siblings. *)
Definition show_BuildStatus (s : BuildStatus) : string :=
  match s with
  | BuildStatusNone => "none"
  | BuildStatusPending => "pending"
  | BuildStatusRunning => "running"
  | BuildStatusSucceeded => "succeeded"
  | BuildStatusFailed => "failed"
  end.

Definition pkgRebuild (c : cli.Context) : M error :=
  let pkgName := cli.String c "name" in
  (if nonempty pkgName then ret tt else log_.Fatal "Need name of package, use --name");;
  let pkgNamespace := cli.String c "pkgNamespace" in
  r ← client.PackageGet host (ObjectMeta.mk pkgName pkgNamespace "");
  pkg ← util.CheckErr r "find package";
  (if bool_decide (PackageStatus.BuildStatus (Package.Status pkg) ≠ BuildStatusFailed)
   then log_.Fatal ("Package " ++ ObjectMeta.Name (Package.Metadata pkg)
                    ++ " is not in " ++ show_BuildStatus BuildStatusFailed ++ " state.")
   else ret tt);;
  '(pkg, r) ← updatePackage pkg "" "" [] [] "" true false;
  _ ← util.CheckErr r "update package";
  fmt.Printf ("Retrying build for pkg " ++ ObjectMeta.Name (Package.Metadata pkg)
             ++ ". Use " ++ quote ++ "fission pkg info --name "
             ++ ObjectMeta.Name (Package.Metadata pkg) ++ quote ++ " to view status." ++ nl);;
  ret None.

Definition createPackage (c : cli.Context) (pkgNamespace envName envNamespace : string)
           (srcArchiveFiles deployArchiveFiles : list string) (buildcmd : string)
           (specDir specFile : string) (noZip : bool) : M ObjectMeta.t :=
  let pkgSpec :=
    PackageSpec.mk (EnvironmentReference.mk envNamespace envName)
      Archive.zero Archive.zero "" in
  let pkgStatus := BuildStatusSucceeded in
  let pkgName := "" in
  '(pkgSpec, pkgStatus, pkgName) ←
    match deployArchiveFiles with
    | first :: _ =>
        let pkgStatus :=
          if nonempty specFile (* we should do this in all cases, i think *)
          then BuildStatusNone else pkgStatus in
        deployment ← createArchive deployArchiveFiles noZip specDir specFile;
        suffix ← random.NewLen host 4;
        ret (PackageSpec.mk (PackageSpec.Environment pkgSpec) (PackageSpec.Source pkgSpec)
               deployment (PackageSpec.BuildCommand pkgSpec),
             pkgStatus,
             KubifyName host (Base host first ++ "-" ++ suffix))
    | [] => ret (pkgSpec, pkgStatus, pkgName)
    end;
  '(pkgSpec, pkgStatus, pkgName) ←
    match srcArchiveFiles with
    | first :: _ =>
        source ← createArchive srcArchiveFiles false specDir specFile;
        suffix ← random.NewLen host 4;
        ret (PackageSpec.mk (PackageSpec.Environment pkgSpec) source
               (PackageSpec.Deployment pkgSpec) (PackageSpec.BuildCommand pkgSpec),
             BuildStatusPending, (* set package build status to pending *)
             KubifyName host (Base host first ++ "-" ++ suffix))
    | [] => ret (pkgSpec, pkgStatus, pkgName)
    end;
  let pkgSpec :=
    if nonempty buildcmd
    then PackageSpec.mk (PackageSpec.Environment pkgSpec) (PackageSpec.Source pkgSpec)
           (PackageSpec.Deployment pkgSpec) buildcmd
    else pkgSpec in
  pkgName ← (if nonempty pkgName then ret pkgName
             else id ← random.NewV4 host; ret (ToLower host id));
  let pkg :=
    Package.mk (ObjectMeta.mk pkgName pkgNamespace "") pkgSpec
      (PackageStatus.mk pkgStatus "") in
  if nonempty specFile then
    (* if a package with the same spec exists, don't create a new spec file *)
    r ← spec.ReadSpecs host (cli.String c "specdir");
    fr ← util.CheckErr r "read specs";
    match spec.SpecExists_pkg fr pkg with
    | Some m =>
        fmt.Printf ("Re-using previously created package " ++ ObjectMeta.Name m ++ nl);;
        ret m
    | None =>
        err ← spec.SpecSave_pkg host pkg specFile;
        util.CheckError err "save package spec";;
        ret (Package.Metadata pkg)
    end
  else
    r ← client.PackageCreate host pkg;
    pkgMetadata ← util.CheckErr r "create package";
    fmt.Printf ("Package '" ++ ObjectMeta.Name pkgMetadata ++ "' created" ++ nl);;
    ret pkgMetadata.

Definition pkgCreate (c : cli.Context) : M error :=
  let pkgNamespace := cli.String c "pkgNamespace" in
  let envName := cli.String c "env" in
  (if nonempty envName then ret tt else log_.Fatal "Need --env argument.");;
  let envNamespace := cli.String c "envNamespace" in
  let srcArchiveFiles := cli.StringSlice c "src" in
  let deployArchiveFiles := cli.StringSlice c "deploy" in
  let buildcmd := cli.String c "buildcmd" in
  (if negb (has_items srcArchiveFiles) && negb (has_items deployArchiveFiles)
   then log_.Fatal
          "Need --src to specify source archive, or use --deploy to specify deployment archive."
   else ret tt);;
  _ ← createPackage c pkgNamespace envName envNamespace srcArchiveFiles
                    deployArchiveFiles buildcmd "" "" false;
  ret None.

(** *** The commands that read: [pkgSourceGet], [pkgDeployGet], [pkgInfo],
    [pkgList] *)

Section ReadCommands.
Variable lib : Library.

(** A nil [io.Reader] or [io.ReadCloser] is used: the Go runtime panics
    and the process ends, as it does through [log.Fatal], here with the
    message of the runtime. *)
Definition nil_dereference {A} : M A :=
  log_.Fatal "panic: runtime error: invalid memory address or nil pointer dereference".

(** [downloadStoragesvcURL] downloads and return archive content with
    given storage service url; [None] is the nil reader it returns for a
    URL that does not parse. *)
Definition downloadStoragesvcURL (fileUrl : string) : M (option (list byte)) :=
  match RequestURI lib fileUrl with
  | None => ret None
  | Some requestURI =>
      (* replace in-cluster storage service host with controller server url *)
      let fileDownloadUrl :=
        strings.TrimSuffix (Url host) "/" ++ "/proxy/storage/" ++ requestURI in
      r ← _package.DownloadURL host fileDownloadUrl;
      reader ← util.CheckErr r ("download from storage service url: " ++ fileUrl);
      ret (Some reader)
  end.

(** [var reader io.Reader] as the two download commands fill it from an
    archive: the literal bytes, the body behind the URL, or nothing at
    all. [defer readCloser.Close()] evaluates the method of the reader that
    [downloadStoragesvcURL] returned. *)
Definition archiveReader (archive : Archive.t) : M (option (list byte)) :=
  match Archive.Type' archive with
  | ArchiveTypeLiteral => ret (Some (Archive.Literal archive))
  | ArchiveTypeUrl =>
      readCloser ← downloadStoragesvcURL (Archive.URL archive);
      match readCloser with
      | None => nil_dereference
      | Some body => ret (Some body)
      end
  | ArchiveTypeNone => ret None
  end.

(** [_package.WriteArchiveToFile(output, reader)] for a reader that may be
    nil: [io.Copy] uses the reader once the temporary file is created. *)
Definition writeArchive (output : string) (reader : option (list byte)) : M error :=
  match reader with
  | Some content => _package.WriteArchiveToFile host output content
  | None =>
      r ← utils.GetTempDir host;
      match r with
      | Err err => ret (Some err)
      | Ok tmpDir =>
          err ← os.Create host (filepath.Join tmpDir (output ++ ".tmp"));
          match err with
          | Some err => ret (Some err)
          | None => nil_dereference
          end
      end
  end.

(** [io.Copy(os.Stdout, reader)] *)
Definition copyToStdout (reader : option (list byte)) : M error :=
  match reader with
  | Some content =>
      ok ← attempt host (OpPrint (string_of_list_byte content));
      if ok : bool then ret None else ret (Some "write /dev/stdout: broken pipe")
  | None => nil_dereference
  end.

Definition pkgSourceGet (c : cli.Context) : M error :=
  let pkgName := cli.String c "name" in
  (if nonempty pkgName then ret tt else log_.Fatal "Need name of package, use --name");;
  let pkgNamespace := cli.String c "pkgNamespace" in
  let output := cli.String c "output" in
  r ← client.PackageGet host (ObjectMeta.mk pkgName pkgNamespace "");
  match r with
  | Err err => ret (Some err)
  | Ok pkg =>
      reader ← archiveReader (PackageSpec.Source (Package.Spec pkg));
      if nonempty output then writeArchive output reader
      else copyToStdout reader
  end.

Definition pkgDeployGet (c : cli.Context) : M error :=
  let pkgName := cli.String c "name" in
  (if nonempty pkgName then ret tt else log_.Fatal "Need name of package, use --name");;
  let pkgNamespace := cli.String c "pkgNamespace" in
  let output := cli.String c "output" in
  r ← client.PackageGet host (ObjectMeta.mk pkgName pkgNamespace "");
  match r with
  | Err err => ret (Some err)
  | Ok pkg =>
      reader ← archiveReader (PackageSpec.Deployment (Package.Spec pkg));
      if nonempty output then writeArchive output reader
      else copyToStdout reader
  end.

(** The text [pkgInfo] hands to its [tabwriter]; [w.Flush()] prints it. *)
Definition pkgInfo (c : cli.Context) : M error :=
  let pkgName := cli.String c "name" in
  (if nonempty pkgName then ret tt else log_.Fatal "Need name of package, use --name");;
  let pkgNamespace := cli.String c "pkgNamespace" in
  r ← client.PackageGet host (ObjectMeta.mk pkgName pkgNamespace "");
  pkg ← util.CheckErr r ("find package " ++ pkgName);
  let w := "" in
  let w := w ++ "Name:" ++ tab ++ ObjectMeta.Name (Package.Metadata pkg) ++ nl in
  let w := w ++ "Environment:" ++ tab
             ++ EnvironmentReference.Name (PackageSpec.Environment (Package.Spec pkg))
             ++ nl in
  let w := w ++ "Status:" ++ tab
             ++ show_BuildStatus (PackageStatus.BuildStatus (Package.Status pkg)) ++ nl in
  let w := w ++ "Build Logs:" ++ nl ++ PackageStatus.BuildLog (Package.Status pkg) in
  fmt.Printf (tabwriter lib w);;
  ret None.

(** One row of [pkgList]: name, build status and environment. *)
Definition pkgList_row (pkg : Package.t) : string :=
  ObjectMeta.Name (Package.Metadata pkg) ++ tab
  ++ show_BuildStatus (PackageStatus.BuildStatus (Package.Status pkg)) ++ tab
  ++ EnvironmentReference.Name (PackageSpec.Environment (Package.Spec pkg)) ++ nl.

(** The loop of [pkgList] under [--orphan]. *)
Fixpoint pkgList_orphans (pkgList : list Package.t) (w : string) : M string :=
  match pkgList with
  | [] => ret w
  | pkg :: rest =>
      let name := ObjectMeta.Name (Package.Metadata pkg) in
      r ← getFunctionsByPackage name (ObjectMeta.Namespace (Package.Metadata pkg));
      fnList ← util.CheckErr r ("get functions sharing package " ++ name);
      if has_items fnList then pkgList_orphans rest w
      else pkgList_orphans rest (w ++ pkgList_row pkg)
  end.

Definition pkgList (c : cli.Context) : M error :=
  (* option for the user to list all orphan packages (not referenced by
     any function) *)
  let listOrphans := cli.Bool c "orphan" in
  let pkgNamespace := cli.String c "pkgNamespace" in
  r ← client.PackageList host pkgNamespace;
  match r with
  | Err err => ret (Some err)
  | Ok pkgList =>
      let w := "NAME" ++ tab ++ "BUILD_STATUS" ++ tab ++ "ENV" ++ nl in
      w ← (if listOrphans then pkgList_orphans pkgList w
           else ret (fold_left (fun w pkg => w ++ pkgList_row pkg) pkgList w));
      fmt.Printf (tabwriter lib w);;
      ret None
  end.

End ReadCommands.

(** *** The check of the command line: [pkg/fission-cli/main.go] *)

(** The first loop of [flagValueParser]: find out all flag indexes. *)
Fixpoint flagIndexes_range (i : nat) (args : list string) (flagIndexes : list nat)
  : list nat :=
  match args with
  | [] => flagIndexes
  | v :: rest =>
      (* support both flags with "--" and "-" *)
      if strings.HasPrefix v "-"
      then flagIndexes_range (S i) rest (flagIndexes ++ [i])%list
      else flagIndexes_range (S i) rest flagIndexes
  end.

(** The second loop, [for i := 0; i < len(flagIndexes)-1; i++], with
    [steps] iterations left. *)
Fixpoint errorFlags_range (steps i : nat) (args : list string) (flagIndexes : list nat)
         (errorFlags : list string) : list string :=
  match steps with
  | O => errorFlags
  | S steps =>
      (* if the difference between the flag index i and i+1 is bigger then
         2 means that CLI receives extra arguments for one flag *)
      let errorFlags :=
        if (Z.of_nat (nth (i + 1) flagIndexes O) - Z.of_nat (nth i flagIndexes O) >? 2)%Z
        then
          let index := nth i flagIndexes O in
          (errorFlags ++ [nth index args ""])%list
        else errorFlags in
      errorFlags_range steps (S i) args flagIndexes errorFlags
  end.

Definition flagValueParser (args : list string) : error :=
  (* all input value for flags are properly set *)
  if negb (has_items args) then None
  else
    let flagIndexes := flagIndexes_range 0 args [] in
    (* add total length of args to indicate the end of args *)
    let flagIndexes := (flagIndexes ++ [length args])%list in
    let errorFlags :=
      errorFlags_range (length flagIndexes - 1) 0 args flagIndexes [] in
    if has_items errorFlags then
      Some ("Unable to parse flags: " ++ strings.Join errorFlags ", " ++ nl
            ++ "The argument should have only one input value. Please quote the input"
            ++ " value if it contains wildcard characters(" ++ star ++ ").")
    else None.

End FissionCli.
End fission_cli.

(** * Vocabulary of the properties *)

(** A computation keeps a relation between the worlds before and after it,
    whatever its outcome. *)
Definition keeps {A} (R : World -> World -> Prop) (m : M A) : Prop :=
  forall w r w', m w = (r, w') -> R w w'.

(** Two worlds with the same control-plane store. *)
Definition same_store (w w' : World) : Prop :=
  packages w' = packages w /\ functions w' = functions w /\ revision w' = revision w.

(** A relation between worlds that holds across every call which does not
    write to the control-plane store: logging, file and blob writes, random
    draws and spec file writes. *)
Record host_side (R : World -> World -> Prop) : Prop := {
  hs_refl : forall w, R w w;
  hs_trans : forall w1 w2 w3, R w1 w2 -> R w2 w3 -> R w1 w3;
  hs_log : forall op w, R w (log op w);
  hs_files : forall v w, R w (set_files v w);
  hs_blobs : forall v w, R w (set_blobs v w);
  hs_draw : forall w, R w (next_draw w);
  hs_archiveSpecs : forall v w, R w (set_archiveSpecs v w);
  hs_packageSpecs : forall v w, R w (set_packageSpecs v w) }.

(** The log of the second world continues the log of the first. *)
Definition extends (w w' : World) : Prop :=
  exists calls : list Op, trace w' = (calls ++ trace w)%list.

(** No call fails. *)
Definition healthy (host : Host) : Prop :=
  forall calls op, fault host calls op = false.

(** Between the two worlds only local calls were made. *)
Definition local_only (w w' : World) : Prop :=
  exists calls : list Op,
    trace w' = (calls ++ trace w)%list /\ Forall (fun op => is_remote op = false) calls.

(** ** The control-plane store *)

Definition stored_package (w : World) (ns name : string) : option Package.t :=
  find (client.is_package ns name) (packages w).

Definition stored_function (w : World) (ns name : string) : option Function.t :=
  find (client.is_function ns name) (functions w).

Definition Package_Namespace (p : Package.t) : string :=
  ObjectMeta.Namespace (Package.Metadata p).
Definition Package_Name (p : Package.t) : string :=
  ObjectMeta.Name (Package.Metadata p).
Definition Package_BuildStatus (p : Package.t) : BuildStatus :=
  PackageStatus.BuildStatus (Package.Status p).

(** The functions [getFunctionsByPackage] finds for a package: those listed
    in the namespace whose package reference carries the name. *)
Definition functionsReferencing (w : World) (pkgName pkgNamespace : string)
  : list Function.t :=
  List.filter (fun fn => String.eqb (fission_cli.PackageRef_Name fn) pkgName)
    (List.filter
       (fun f => String.eqb (ObjectMeta.Namespace (Function.Metadata f)) pkgNamespace)
       (functions w)).

(** ** The orphan sweep *)

(** A package no function references, as the sweep tests it. *)
Definition is_orphan (w : World) (ns : string) (pkg : Package.t) : bool :=
  negb (has_items (functionsReferencing w (Package_Name pkg) ns)).

(** The packages [client.PackageList] lists for a namespace. *)
Definition packages_in (w : World) (ns : string) : list Package.t :=
  List.filter (fun p => String.eqb (Package_Namespace p) ns) (packages w).

(** The orphans of a namespace, in the order of the listing. *)
Definition orphans (w : World) (ns : string) : list Package.t :=
  List.filter (is_orphan w ns) (packages_in w ns).

(** The package deletions found in a log, newest first. *)
Definition delete_attempts (calls : list Op) : list (string * string) :=
  flat_map (fun op => match op with
                      | OpPackageDelete ns name => [(ns, name)]
                      | _ => []
                      end) calls.

(** The key under which the sweep deletes a package of the namespace. *)
Definition sweep_key (ns : string) (p : Package.t) : string * string :=
  (ns, Package_Name p).

(** A list of package records without those stored under the keys of
    [deleted]. *)
Definition without (ns : string) (deleted : list Package.t) (l : list Package.t)
  : list Package.t :=
  List.filter
    (fun q => negb (existsb (fun p => client.is_package ns (Package_Name p) q) deleted)) l.

(** The store holds at most one package record per namespace and name. *)
Definition package_keys_unique (w : World) : Prop :=
  NoDup (map (fun p => (Package_Namespace p, Package_Name p)) (packages w)).

(** The store holds at most one function record per namespace and name. *)
Definition function_keys_unique (w : World) : Prop :=
  NoDup (map (fun f => (ObjectMeta.Namespace (Function.Metadata f),
                        ObjectMeta.Name (Function.Metadata f))) (functions w)).

(** ** [pkgUpdate] *)

(** The environment name and namespace that [pkgUpdate] hands to
    [updatePackage]: empty when the flag repeats the value the package has. *)
Definition passed_envName (c : cli.Context) (pkg : Package.t) : string :=
  let envName := cli.String c "env" in
  if nonempty envName
     && String.eqb envName (EnvironmentReference.Name
                              (PackageSpec.Environment (Package.Spec pkg)))
  then "" else envName.

Definition passed_envNamespace (c : cli.Context) (pkg : Package.t) : string :=
  let envNamespace := cli.String c "envNamespace" in
  if String.eqb envNamespace (EnvironmentReference.Namespace
                                (PackageSpec.Environment (Package.Spec pkg)))
  then "" else envNamespace.

Definition function_key (f : Function.t) : string * string :=
  (ObjectMeta.Namespace (Function.Metadata f), ObjectMeta.Name (Function.Metadata f)).

(** The stored record of the function carries the resource version [rv] in
    its package reference. *)
Definition synced (w : World) (rv : string) (fn : Function.t) : Prop :=
  exists stored,
    stored_function w (fst (function_key fn)) (snd (function_key fn)) = Some stored
    /\ fission_cli.PackageRef_ResourceVersion stored = rv.

(** The stored record of the function is the one given. *)
Definition untouched (w : World) (fn : Function.t) : Prop :=
  stored_function w (fst (function_key fn)) (snd (function_key fn)) = Some fn.

(** Claim C6 as stated: once [pkgUpdate] has written the package, every
    function that referenced it (by name and namespace of its package
    reference) carries the new resource version, or else its update was
    attempted, so that its failure could be reported. *)
Definition fanout_complete (host : Host) (c : cli.Context) (w : World) : Prop :=
  let name := cli.String c "name" in
  let ns := cli.String c "pkgNamespace" in
  forall r w' old new,
    fission_cli.pkgUpdate host c w = (r, w') ->
    stored_package w ns name = Some old ->
    stored_package w' ns name = Some new ->
    ObjectMeta.ResourceVersion (Package.Metadata new)
    <> ObjectMeta.ResourceVersion (Package.Metadata old) ->
    forall fn,
      In fn (functions w) ->
      fission_cli.PackageRef_Name fn = name ->
      fission_cli.PackageRef_Namespace fn = ns ->
      synced w' (ObjectMeta.ResourceVersion (Package.Metadata new)) fn
      \/ In (OpFunctionUpdate (fst (function_key fn)) (snd (function_key fn))) (trace w').

(** ** [updatePackage] *)

(** The rebuild decision of [updatePackage], read off its assignments to
    [needToBuild]. *)
Definition needToBuild_of (envName envNamespace : string)
           (srcArchiveFiles deployArchiveFiles : list string) (buildcmd : string) : bool :=
  negb (has_items deployArchiveFiles)
  && (nonempty envName || nonempty envNamespace || nonempty buildcmd
      || has_items srcArchiveFiles).

(** The package behind the pointer after the assignments of [updatePackage],
    given the archives that were created. *)
Definition assigned (pkg : Package.t) (envName envNamespace buildcmd : string)
           (src deploy : option Archive.t) (pending : bool) : Package.t :=
  let pkg := if nonempty envName then set_Environment_Name envName pkg else pkg in
  let pkg := if nonempty envNamespace then set_Environment_Namespace envNamespace pkg else pkg in
  let pkg := if nonempty buildcmd then set_BuildCommand buildcmd pkg else pkg in
  let pkg := match src with Some a => set_Source a pkg | None => pkg end in
  let pkg := match deploy with Some a => set_Deployment a pkg | None => pkg end in
  if pending then set_Status (PackageStatus.mk BuildStatusPending "") pkg else pkg.

(** Whether [createArchive] ran for a list of files in [updatePackage], and
    with what result. *)
Definition archive_made (host : Host) (includeFiles : list string) (noZip : bool)
           (made : option Archive.t) (w w' : World) : Prop :=
  match made with
  | Some a =>
      has_items includeFiles = true
      /\ fission_cli.createArchive host includeFiles noZip "" "" w = (Val a, w')
  | None => has_items includeFiles = false /\ w' = w
  end.

(** Claim C1, first half, as stated: an update that supplies only a new
    deployment archive never leaves the stored package pending. *)
Definition deployment_only_never_pending (host : Host) (pkg : Package.t)
           (deploy : list string) (noZip : bool) (w : World) : Prop :=
  has_items deploy = true ->
  forall pkg' r w' stored,
    fission_cli.updatePackage host pkg "" "" [] deploy "" false noZip w
    = (Val (pkg', r), w') ->
    stored_package w' (Package_Namespace pkg) (Package_Name pkg) = Some stored ->
    Package_BuildStatus stored <> BuildStatusPending.

(** Claim C2 as stated: whenever the environment name, the environment
    namespace, the build command or the source archive is supplied, the
    stored package is pending, whether or not a deployment archive comes
    with it. *)
Definition rebuild_owed_sets_pending (host : Host) (pkg : Package.t)
           (envName envNamespace : string) (src deploy : list string)
           (buildcmd : string) (noZip : bool) (w : World) : Prop :=
  nonempty envName || nonempty envNamespace || nonempty buildcmd || has_items src = true ->
  forall pkg' r w' stored,
    fission_cli.updatePackage host pkg envName envNamespace src deploy buildcmd
      false noZip w = (Val (pkg', r), w') ->
    stored_package w' (Package_Namespace pkg) (Package_Name pkg) = Some stored ->
    Package_BuildStatus stored = BuildStatusPending.

(** ** Archive transport *)

(** The archive [UploadArchive] makes of the file at [f] holding [content],
    and where it leaves the world: below the size limit a literal archive of
    the content after two local calls, otherwise an archive of kind URL that
    points into the blob store, with the SHA-256 checksum of the content. *)
Definition stored_as (host : Host) (f : string) (content : list byte) (a : Archive.t)
           (w w' : World) : Prop :=
  if (Z.of_nat (length content) <? ArchiveLiteralSizeLimit host)%Z
  then a = Archive.mk ArchiveTypeLiteral content "" Checksum.zero
       /\ w' = log (OpReadFile f) (log (OpStat f) w)
  else Archive.Type' a = ArchiveTypeUrl
       /\ Archive.Literal a = []
       /\ Archive.Checksum a
          = Checksum.mk ChecksumTypeSHA256 (hex.EncodeToString (SHA256.Sum256 content))
       /\ exists id,
            Archive.URL a
            = storageSvcClient.GetUrl
                (storageSvcClient.MakeClient
                   ("http://" ++ SvcURL host "application=fission-storage")) id
            /\ blobs w' !! id = Some content.

(** Uploads and downloads of archive content. *)
Definition is_transfer (op : Op) : bool :=
  match op with
  | OpUpload _ _ | OpHttpGet _ => true
  | _ => false
  end.

(** The archive that claim C3 expects for a URL: kind URL, the URL itself, no
    checksum. *)
Definition bare_url (url : string) : Archive.t :=
  Archive.mk ArchiveTypeUrl [] url Checksum.zero.

(** Claim C3 as stated: a single HTTP(S) URL given to [createArchive] comes
    back as the location of an archive of kind URL without checksum, and
    nothing is uploaded or downloaded on the way. *)
Definition url_passed_through (host : Host) (url : string) (noZip : bool) (w : World)
  : Prop :=
  isHTTP url = true ->
  forall a w',
    fission_cli.createArchive host [url] noZip "" "" w = (Val a, w') ->
    a = bare_url url
    /\ forall op, In op (trace w') -> In op (trace w) \/ is_transfer op = false.

(** ** A small installation to run the commands on *)
Module Demo.

Definition bytes (s : string) : list byte := list_byte_of_string s.

(** No call fails. *)
Definition quiet : list Op -> Op -> bool := fun _ _ => false.

Definition host_with (faults : list Op -> Op -> bool) : Host := {|
  fault := faults;
  ArchiveLiteralSizeLimit := 8;
  ARCHIVE_URL_PREFIX := "archive://";
  Url := "http://127.0.0.1:8888/";
  SvcURL := fun _ => "storagesvc.fission";
  web := fun u => if String.eqb u "https://example.com/fn.zip"
                  then Some (200%Z, bytes "PK") else None;
  Glob := fun fs p => if isHTTP p then []
                      else match fs !! p with Some _ => [p] | None => [] end;
  ZipMatch := fun name _ => String.eqb (strings.TrimSuffix name ".zip" ++ ".zip") name;
  zip := fun entries => flat_map snd entries;
  uniuri := fun _ i => "r" ++ client.version_of i;
  uuid := fun i => "u" ++ client.version_of i;
  KubifyName := fun s => s;
  Base := fun s => s;
  ToLower := fun s => s |}.

Definition host : Host := host_with quiet.

(** The deletion of the package "orphan1" fails, every other call goes
    through. *)
Definition flaky : Host :=
  host_with (fun _ op => match op with
                         | OpPackageDelete _ name => String.eqb name "orphan1"
                         | _ => false
                         end).

(** The update of the function "f" fails, every other call goes through. *)
Definition shaky : Host :=
  host_with (fun _ op => match op with
                         | OpFunctionUpdate _ name => String.eqb name "f"
                         | _ => false
                         end).

Definition python : EnvironmentReference.t := EnvironmentReference.mk "default" "python".

Definition package (name : string) (status : BuildStatus) (log : string) : Package.t :=
  Package.mk (ObjectMeta.mk name "default" "1")
    (PackageSpec.mk python Archive.zero Archive.zero "")
    (PackageStatus.mk status log).

(** A function in [ns] whose package reference names [pkg] in "default". *)
Definition function (ns name pkg : string) : Function.t :=
  Function.mk (ObjectMeta.mk name ns "1")
    (FunctionSpec.mk python
       (FunctionPackageRef.mk (PackageRef.mk "default" pkg "1") "main")).

Definition world : World := {|
  packages := [ package "built" BuildStatusSucceeded "ok";
                package "queued" BuildStatusPending "";
                package "broken" BuildStatusFailed "exit status 1";
                package "orphan1" BuildStatusSucceeded "";
                package "orphan2" BuildStatusSucceeded "" ];
  functions := [ function "default" "f" "built";
                 function "default" "g" "built";
                 function "default" "h" "queued" ];
  revision := 1;
  disk := {[ "deploy.zip" := bytes "0123456789"; "fn.py" := bytes "hi" ]};
  blobs := ∅;
  archiveSpecs := [];
  packageSpecs := [];
  draws := 0;
  trace := [] |}.

(** A command line on which the namespace flags are not given: they have
    the default value that [NewCliApp] declares for them,
    [metav1.NamespaceDefault]. *)
Definition args (ss : list (string * string)) (bs : list (string * bool))
           (ls : list (string * list string)) : cli.Context :=
  cli.flags (("pkgNamespace", "default") :: ("envNamespace", "default") :: ss) bs ls.

(** The same installation with one more function, "k" of the namespace
    "staging", whose package reference names the package "orphan1". *)
Definition crossed : World :=
  set_functions (functions world ++ [function "staging" "k" "orphan1"]) world.

(** The libraries of the reading commands: URLs of the storage service
    parse, other texts do not; tables are printed as they are written. *)
Definition lib : Library := {|
  RequestURI := fun u =>
    if strings.HasPrefix u "http://storagesvc.fission/"
    then Some (String.substring 25 (String.length u - 25) u) else None;
  tabwriter := fun text => text |}.

(** A host on which the controller serves the archive "u7" of the storage
    service through its proxy. *)
Definition served : Host := {|
  fault := quiet;
  ArchiveLiteralSizeLimit := ArchiveLiteralSizeLimit host;
  ARCHIVE_URL_PREFIX := ARCHIVE_URL_PREFIX host;
  Url := Url host;
  SvcURL := SvcURL host;
  web := fun u =>
    if String.eqb u "http://127.0.0.1:8888/proxy/storage//v1/archive?id=u7"
    then Some (200%Z, bytes "PKsource") else web host u;
  Glob := Glob host;
  ZipMatch := ZipMatch host;
  zip := zip host;
  uniuri := uniuri host;
  uuid := uuid host;
  KubifyName := KubifyName host;
  Base := Base host;
  ToLower := ToLower host |}.

(** A package whose deployment archive is a literal and whose source
    archive lies in the storage service. *)
Definition archived : Package.t :=
  Package.mk (ObjectMeta.mk "archived" "default" "1")
    (PackageSpec.mk python
       (Archive.mk ArchiveTypeUrl [] "http://storagesvc.fission/v1/archive?id=u7"
          (Checksum.mk ChecksumTypeSHA256 ""))
       (Archive.mk ArchiveTypeLiteral (bytes "PKdeploy") "" Checksum.zero) "")
    (PackageStatus.mk BuildStatusSucceeded "").

Definition shelf : World := set_packages (packages world ++ [archived]) world.

(** A package "roaming" whose environment is in the namespace "prod", and
    the same installation with that package stored as well. *)
Definition roaming : Package.t :=
  Package.mk (ObjectMeta.mk "roaming" "default" "1")
    (PackageSpec.mk (EnvironmentReference.mk "prod" "python") Archive.zero Archive.zero "")
    (PackageStatus.mk BuildStatusSucceeded "ok").

Definition abroad : World :=
  set_packages (packages world ++ [roaming]) world.

End Demo.

(** ** The check of the command line *)

(** An argument that [flagValueParser] takes for a flag. *)
Definition is_flag (v : string) : bool := strings.HasPrefix v "-".

(** The number of values at the head of a command line, before its first
    flag. *)
Fixpoint values_ahead (args : list string) : nat :=
  match args with
  | [] => 0
  | v :: rest => if is_flag v then 0 else S (values_ahead rest)
  end.

(** The flags of a command line that are followed by two values or more, in
    the order of the command line. *)
Fixpoint overloaded (args : list string) : list string :=
  match args with
  | [] => []
  | v :: rest =>
      if is_flag v
      then ((if (2 <=? values_ahead rest)%nat then [v] else []) ++ overloaded rest)%list
      else overloaded rest
  end.

(** The indexes of the flags of a command line whose first argument has
    index [i]. *)
Fixpoint flag_positions (i : nat) (args : list string) : list nat :=
  match args with
  | [] => []
  | v :: rest =>
      if is_flag v then i :: flag_positions (S i) rest else flag_positions (S i) rest
  end.

(** The arguments found at those indexes of a list which are more than two
    below the next one. *)
Fixpoint wide_gaps (args : list string) (indexes : list nat) : list string :=
  match indexes with
  | [] => []
  | a :: later =>
      match later with
      | [] => []
      | b :: _ =>
          ((if (Z.of_nat b - Z.of_nat a >? 2)%Z then [nth a args ""] else [])
             ++ wide_gaps args later)%list
      end
  end.

(** ** Archives made of input files *)

(** The name [archiveName] makes from the random text of draw [draw]. *)
Definition archive_name_of (host : Host) (givenNameHint : string)
           (includedFiles : list string) (draw : nat) : string :=
  if nonempty givenNameHint then givenNameHint ++ "-" ++ uniuri host 4 draw
  else match includedFiles with
       | [] => uniuri host 8 draw
       | first :: _ => KubifyName host first ++ "-" ++ uniuri host 4 draw
       end.

(** The files a list of patterns matches on a disk, in the order of the
    patterns. *)
Definition matched (host : Host) (fs : gmap string (list byte)) (patterns : list string)
  : list string :=
  flat_map (Glob host fs) patterns.

(** The one matched file that [makeArchiveFileIfNeeded] hands on as it is:
    a zip file, any file under [noZip], or a URL. *)
Definition used_as_is (host : Host) (fs : gmap string (list byte))
           (patterns : list string) (noZip : bool) : option string :=
  match matched host fs patterns with
  | [file] =>
      if ZipMatch host file (fs !! file) || noZip || isHTTP file then Some file else None
  | _ => None
  end.

(** The content of the archive made of the files that the patterns match. *)
Definition archive_of (host : Host) (fs : gmap string (list byte)) (patterns : list string)
  : list byte :=
  zip host (flat_map (fun f => match fs !! f with
                               | Some c => [(f, c)]
                               | None => []
                               end)
              (matched host fs patterns)).

(** The paths of a list that are not URLs and match no file. *)
Definition missing_paths (host : Host) (fs : gmap string (list byte))
           (includeFiles : list string) : list string :=
  List.filter (fun p => negb (isHTTP p) && negb (has_items (Glob host fs p))) includeFiles.

(** The error [createArchive] collects for such a path. *)
Definition not_found_report (path : string) : string :=
  "Error finding any files with path " ++ quote ++ path ++ quote.

(** A world after further calls that changed nothing but the log. *)
Definition logged (calls : list Op) (w : World) : World := fold_right log w calls.

Definition is_glob (op : Op) : bool :=
  match op with OpGlob _ => true | _ => false end.

(** The recorded archive upload spec that names the same patterns. *)
Definition known_archive (w : World) (includeFiles : list string)
  : option ArchiveUploadSpec.t :=
  find (fun a => bool_decide (ArchiveUploadSpec.IncludeGlobs a = includeFiles))
    (archiveSpecs w).

(** ** [createPackage] *)

(** One archive of [createPackage]: none for an empty list of files,
    otherwise the archive [createArchive] returned, followed by the draw of
    the random text for the package name. *)
Definition archive_step (host : Host) (files : list string) (noZip : bool)
           (specDir specFile : string) (a : Archive.t) (w w' : World) : Prop :=
  match files with
  | [] => a = Archive.zero /\ w' = w
  | _ :: _ =>
      exists w0,
        fission_cli.createArchive host files noZip specDir specFile w = (Val a, w0)
        /\ w' = next_draw w0
  end.

(** The name of the package: made of the first source file, else of the
    first deployment file, and of a random text; a random identifier when
    that name comes out empty. *)
Definition package_name_of (host : Host) (src deploy : list string) (suffix id : string)
  : string :=
  let pkgName :=
    match src, deploy with
    | first :: _, _ => KubifyName host (Base host first ++ "-" ++ suffix)
    | [], first :: _ => KubifyName host (Base host first ++ "-" ++ suffix)
    | [], [] => ""
    end in
  if nonempty pkgName then pkgName else ToLower host id.

(** The build status a new package starts with. *)
Definition initial_status (src deploy : list string) (specFile : string) : BuildStatus :=
  if has_items src then BuildStatusPending
  else if has_items deploy && nonempty specFile then BuildStatusNone
       else BuildStatusSucceeded.

(** The package [createPackage] puts together. *)
Definition package_made (pkgNamespace envName envNamespace : string)
           (src deploy : list string) (buildcmd specFile : string)
           (srcA depA : Archive.t) (name : string) : Package.t :=
  Package.mk (ObjectMeta.mk name pkgNamespace "")
    (PackageSpec.mk (EnvironmentReference.mk envNamespace envName) srcA depA buildcmd)
    (PackageStatus.mk (initial_status src deploy specFile) "").

(** The recorded package with the same spec. *)
Definition known_package (w : World) (pkg : Package.t) : option Package.t :=
  find (fun p => bool_decide (Package.Spec p = Package.Spec pkg)) (packageSpecs w).

(** The last step of [createPackage]: the package is recorded in the spec
    file, unless a package with the same spec is, or it is created in the
    control plane. *)
Definition package_stored (host : Host) (c : cli.Context) (specFile : string)
           (pkg : Package.t) (meta : ObjectMeta.t) (w w' : World) : Prop :=
  if nonempty specFile then
    fault host (trace w) (OpReadSpecs (cli.String c "specdir")) = false
    /\ match known_package w pkg with
       | Some known =>
           meta = Package.Metadata known
           /\ w' = log (OpPrint ("Re-using previously created package "
                                 ++ ObjectMeta.Name meta ++ nl))
                     (log (OpReadSpecs (cli.String c "specdir")) w)
       | None =>
           meta = Package.Metadata pkg
           /\ w' = set_packageSpecs (packageSpecs w ++ [pkg])
                     (log (OpSpecSave specFile)
                        (log (OpReadSpecs (cli.String c "specdir")) w))
       end
  else
    exists w0,
      client.PackageCreate host pkg w = (Val (Ok meta), w0)
      /\ w' = log (OpPrint ("Package '" ++ ObjectMeta.Name meta ++ "' created" ++ nl)) w0.

(** Between the two worlds the process worked offline: it made local calls
    only and left the control-plane store, the disk and the blob store as
    they were. *)
Definition offline (w w' : World) : Prop :=
  local_only w w' /\ same_store w w' /\ disk w' = disk w /\ blobs w' = blobs w.

(** ** The commands that read *)

(** The stores a reading command leaves alone: the control plane, the blob
    store and the spec files. *)
Definition stores_kept (w w' : World) : Prop :=
  same_store w w' /\ blobs w' = blobs w
  /\ archiveSpecs w' = archiveSpecs w /\ packageSpecs w' = packageSpecs w.

(** Nothing was written at all: the disk is as it was as well. *)
Definition nothing_written (w w' : World) : Prop :=
  stores_kept w w' /\ disk w' = disk w.

(** The table [pkgList] writes for a list of packages. *)
Definition table_of (rows : list Package.t) : string :=
  "NAME" ++ tab ++ "BUILD_STATUS" ++ tab ++ "ENV" ++ nl
  ++ String.concat "" (map fission_cli.pkgList_row rows).

(** The address under which the controller serves an archive of the storage
    service. *)
Definition proxied (host : Host) (requestURI : string) : string :=
  strings.TrimSuffix (Url host) "/" ++ "/proxy/storage/" ++ requestURI.

(** The message of the Go runtime when a nil reader is used. *)
Definition nil_panic : string :=
  "panic: runtime error: invalid memory address or nil pointer dereference".

(** The bytes of an archive have reached the user: in the output file when
    one is named, on standard output otherwise, and then the disk is as it
    was. *)
Definition delivered (output : string) (content : list byte) (w w' : World) : Prop :=
  if nonempty output then disk w' !! output = Some content
  else head (trace w') = Some (OpPrint (string_of_list_byte content)) /\ disk w' = disk w.

(** The two download commands are one command, run on the source archive or
    on the deployment archive of the package. *)
Definition get_command (host : Host) (lib : Library) (select : PackageSpec.t -> Archive.t)
           (c : cli.Context) : M error :=
  let pkgName := cli.String c "name" in
  (if nonempty pkgName then ret tt else log_.Fatal "Need name of package, use --name");;
  let pkgNamespace := cli.String c "pkgNamespace" in
  let output := cli.String c "output" in
  r ← client.PackageGet host (ObjectMeta.mk pkgName pkgNamespace "");
  match r with
  | Err err => ret (Some err)
  | Ok pkg =>
      reader ← fission_cli.archiveReader host lib (select (Package.Spec pkg));
      if nonempty output then fission_cli.writeArchive host output reader
      else fission_cli.copyToStdout host reader
  end.

(** An archive that the spec files describe for a list of files: none for
    the empty list, otherwise the archive behind the name of the recorded
    upload spec with these patterns. *)
Definition described (host : Host) (w : World) (files : list string) (a : Archive.t)
  : Prop :=
  match files with
  | [] => a = Archive.zero
  | _ :: _ =>
      exists known,
        known_archive w files = Some known
        /\ a = Archive.mk ArchiveTypeUrl []
                (ARCHIVE_URL_PREFIX host ++ ArchiveUploadSpec.Name known) Checksum.zero
  end.

(** What a download command does with an archive of kind URL, on a host
    where no call fails: a URL that does not parse ends the process at the
    nil reader; one that parses is fetched through the proxy of the
    controller, and only there, and its body is delivered when the answer
    has status 200; any other answer ends the process. *)
Definition fetched_through_proxy (host : Host) (lib : Library) (run : M error)
           (url output ns name : string) (w : World) : Prop :=
  match RequestURI lib url with
  | None => run w = (Fatal nil_panic, log (OpPackageGet ns name) w)
  | Some requestURI =>
      match web host (proxied host requestURI) with
      | Some (code, body) =>
          if (code =? http.StatusOK)%Z then
            exists w',
              run w = (Val None, w')
              /\ delivered output body w w'
              /\ In (OpHttpGet (proxied host requestURI)) (trace w')
              /\ forall u, In (OpHttpGet u) (trace w') ->
                           u = proxied host requestURI \/ In (OpHttpGet u) (trace w)
          else
            run w
            = (Fatal ("Failed to download from storage service url: " ++ url ++ ": "
                      ++ show_Z code ++ " - HTTP response returned non 200 status"),
               log (OpHttpGet (proxied host requestURI)) (log (OpPackageGet ns name) w))
      | None =>
          run w
          = (Fatal ("Failed to download from storage service url: " ++ url ++ ": Get "
                    ++ proxied host requestURI ++ ": no such host"),
             log (OpHttpGet (proxied host requestURI)) (log (OpPackageGet ns name) w))
      end
  end.

(** * Properties *)

(** ** Test vectors of SHA-256 *)

Example sha256_constants :
  nth 0 SHA256.K 0%N = 0x428a2f98%N /\ nth 63 SHA256.K 0%N = 0xc67178f2%N
  /\ nth 0 SHA256.H0 0%N = 0x6a09e667%N /\ nth 7 SHA256.H0 0%N = 0x5be0cd19%N.
Proof. vm_compute. repeat split. Qed.

Example sha256_abc :
  hex.EncodeToString (SHA256.Sum256 (list_byte_of_string "abc"))
  = "ba7816bf8f01cfea414140de5dae2223b00361a396177a9cb410ff61f20015ad".
Proof. vm_compute. reflexivity. Qed.

Example sha256_empty :
  hex.EncodeToString (SHA256.Sum256 [])
  = "e3b0c44298fc1c149afbf4c8996fb92427ae41e4649b934ca495991b7852b855".
Proof. vm_compute. reflexivity. Qed.

Example sha256_two_blocks :
  hex.EncodeToString (SHA256.Sum256 (list_byte_of_string
    "abcdbcdecdefdefgefghfghighijhijkijkljklmklmnlmnomnopnopq"))
  = "248d6a61d20638b8e5c026930c3e6039a33ce45964ff2167f6ecedd419db06c1".
Proof. vm_compute. reflexivity. Qed.

(** ** Reasoning about the monad *)

Lemma bind_inv {A B} (m : M A) (k : A -> M B) w r w' :
  bind m k w = (r, w') ->
  (exists a w1, m w = (Val a, w1) /\ k a w1 = (r, w'))
  \/ (exists msg, m w = (Fatal msg, w') /\ r = Fatal msg).
Proof.
  unfold bind. destruct (m w) as [[a|msg] w1]; intros H.
  - left. eauto.
  - right. inversion H; subst. eauto.
Qed.

Lemma bind_inv_val {A B} (m : M A) (k : A -> M B) w b w' :
  bind m k w = (Val b, w') ->
  exists a w1, m w = (Val a, w1) /\ k a w1 = (Val b, w').
Proof.
  intros H. apply bind_inv in H as [H | (msg & _ & H)]; [exact H | discriminate].
Qed.

Lemma bind_val {A B} (m : M A) (k : A -> M B) w a w1 :
  m w = (Val a, w1) -> bind m k w = k a w1.
Proof. unfold bind. intros ->. reflexivity. Qed.

Lemma bind_fatal {A B} (m : M A) (k : A -> M B) w msg w1 :
  m w = (Fatal msg, w1) -> bind m k w = (Fatal msg, w1).
Proof. unfold bind. intros ->. reflexivity. Qed.

Ltac munfold := unfold mbind, M_bind in *.

(** [minv H] splits a hypothesis on a bind into its first step and the rest. *)
Ltac minv H :=
  munfold;
  match type of H with
  | bind _ _ _ = (Val _, _) =>
      let a := fresh "a" in let w1 := fresh "w" in
      let H1 := fresh "Hstep" in
      apply bind_inv_val in H as (a & w1 & H1 & H)
  | bind _ _ _ = _ =>
      let a := fresh "a" in let w1 := fresh "w" in
      let msg := fresh "msg" in
      let H1 := fresh "Hstep" in
      apply bind_inv in H as [(a & w1 & H1 & H) | (msg & H1 & H)]
  end.

Section Keeps.
Variable R : World -> World -> Prop.
Hypothesis R_refl : forall w, R w w.
Hypothesis R_trans : forall w1 w2 w3, R w1 w2 -> R w2 w3 -> R w1 w3.

Lemma keeps_ret {A} (a : A) : keeps R (ret a).
Proof. intros w r w' H. inversion H; subst. apply R_refl. Qed.

Lemma keeps_Fatal {A} msg : keeps R (@log_.Fatal A msg).
Proof. intros w r w' H. inversion H; subst. apply R_refl. Qed.

Lemma keeps_get : keeps R get.
Proof. intros w r w' H. inversion H; subst. apply R_refl. Qed.

Lemma keeps_modify f : (forall w, R w (f w)) -> keeps R (modify f).
Proof. intros Hf w r w' H. inversion H; subst. apply Hf. Qed.

Lemma keeps_bind {A B} (m : M A) (k : A -> M B) :
  keeps R m -> (forall a, keeps R (k a)) -> keeps R (bind m k).
Proof.
  intros Hm Hk w r w' H. apply bind_inv in H as [(a & w1 & H1 & H2) | (msg & H1 & _)].
  - eapply R_trans; [eapply Hm | eapply Hk]; eassumption.
  - eapply Hm; eassumption.
Qed.

Lemma keeps_CheckErr {A} (r : result A) msg : keeps R (util.CheckErr r msg).
Proof. destruct r; [apply keeps_ret | apply keeps_Fatal]. Qed.

Lemma keeps_CheckError (e : error) msg : keeps R (util.CheckError e msg).
Proof. destruct e; [apply keeps_Fatal | apply keeps_ret]. Qed.

Hypothesis R_log : forall op w, R w (log op w).

Lemma keeps_attempt host op : keeps R (attempt host op).
Proof. intros w r w' H. inversion H; subst. apply R_log. Qed.

Lemma keeps_Printf text : keeps R (fmt.Printf text).
Proof. apply keeps_modify. intros. apply R_log. Qed.

End Keeps.

(** Walks through a computation built from binds, matches and leaves whose
    frame lemma is in the hint database [keeps]. *)
Create HintDb keeps.

Ltac keeps_step :=
  match goal with
  | |- keeps _ (mbind _ _) => munfold; apply keeps_bind; [ idtac .. | intros ]
  | |- keeps _ (bind _ _) => apply keeps_bind; [ idtac .. | intros ]
  | |- keeps _ (ret _) => apply keeps_ret
  | |- keeps _ (log_.Fatal _) => apply keeps_Fatal
  | |- keeps _ get => apply keeps_get
  | |- keeps _ (util.CheckErr _ _) => apply keeps_CheckErr
  | |- keeps _ (util.CheckError _ _) => apply keeps_CheckError
  | |- keeps _ (match ?x with _ => _ end) => destruct x
  | |- keeps _ (let _ := _ in _) => cbv zeta
  | |- keeps _ _ => solve [eauto with keeps]
  end.

(** ** What the archive code leaves alone *)

Section Frame.
Variable host : Host.
Variable R : World -> World -> Prop.
Hypothesis HR : host_side R.

Let R_refl := hs_refl R HR.
Let R_trans := hs_trans R HR.
Let R_log := hs_log R HR.

Ltac frame :=
  repeat (keeps_step; try solve [auto with keeps | exact R_refl | exact R_trans]);
  try (apply keeps_attempt; exact R_log);
  try (apply keeps_modify; intros; solve [apply HR]).

Lemma attempt_keeps op : keeps R (attempt host op).
Proof using HR. apply keeps_attempt. exact R_log. Qed.
Hint Resolve attempt_keeps : keeps.

Lemma Printf_keeps text : keeps R (fmt.Printf text).
Proof using HR. apply keeps_Printf. exact R_log. Qed.

Lemma Stat_keeps path : keeps R (os.Stat host path).
Proof using HR. unfold os.Stat. frame. Qed.

Lemma Open_keeps path : keeps R (os.Open host path).
Proof using HR. unfold os.Open. frame. Qed.

Lemma Create_keeps path : keeps R (os.Create host path).
Proof using HR. unfold os.Create. frame. Qed.

Lemma Chmod_keeps path : keeps R (os.Chmod host path).
Proof using HR. unfold os.Chmod. frame. Qed.

Lemma Mkdir_keeps path : keeps R (os.Mkdir host path).
Proof using HR. unfold os.Mkdir. frame. Qed.

Lemma Rename_keeps a b : keeps R (os.Rename host a b).
Proof using HR. unfold os.Rename. frame. Qed.

Lemma ReadFile_keeps path : keeps R (ioutil.ReadFile host path).
Proof using HR. unfold ioutil.ReadFile. frame. Qed.

Lemma CopyToHash_keeps path c : keeps R (io.CopyToHash host path c).
Proof using HR. unfold io.CopyToHash. frame. Qed.

Lemma CopyToFile_keeps path c : keeps R (io.CopyToFile host path c).
Proof using HR. unfold io.CopyToFile. frame. Qed.

Lemma Get_keeps url : keeps R (http.Get host url).
Proof using HR. unfold http.Get. frame. Qed.

Lemma NewLen_keeps n : keeps R (random.NewLen host n).
Proof using HR. unfold random.NewLen. frame. Qed.

Lemma NewV4_keeps : keeps R (random.NewV4 host).
Proof using HR. unfold random.NewV4. frame. Qed.
Hint Resolve NewLen_keeps NewV4_keeps : keeps.

Lemma GetTempDir_keeps : keeps R (utils.GetTempDir host).
Proof using HR. unfold utils.GetTempDir. frame. Qed.

Lemma FindAllGlobs_keeps paths : keeps R (utils.FindAllGlobs host paths).
Proof using HR. unfold utils.FindAllGlobs. frame. Qed.

Lemma MakeArchive_keeps target globs : keeps R (utils.MakeArchive host target globs).
Proof using HR. unfold utils.MakeArchive. frame. Qed.

Lemma Upload_keeps c fileName : keeps R (storageSvcClient.Upload host c fileName).
Proof using HR. unfold storageSvcClient.Upload. frame. Qed.

Lemma GetSvcURL_keeps label : keeps R (client.GetSvcURL host label).
Proof using HR. unfold client.GetSvcURL. frame. Qed.

Lemma ReadSpecs_keeps dir : keeps R (spec.ReadSpecs host dir).
Proof using HR. unfold spec.ReadSpecs. frame. Qed.

Lemma SpecSave_aus_keeps aus file : keeps R (spec.SpecSave_aus host aus file).
Proof using HR. unfold spec.SpecSave_aus. frame. Qed.

Lemma SpecSave_pkg_keeps pkg file : keeps R (spec.SpecSave_pkg host pkg file).
Proof using HR. unfold spec.SpecSave_pkg. frame. Qed.

Lemma PackageGet_keeps m : keeps R (client.PackageGet host m).
Proof using HR. unfold client.PackageGet. frame. Qed.

Lemma PackageList_keeps ns : keeps R (client.PackageList host ns).
Proof using HR. unfold client.PackageList. frame. Qed.

Lemma FunctionList_keeps ns : keeps R (client.FunctionList host ns).
Proof using HR. unfold client.FunctionList. frame. Qed.

Hint Resolve Printf_keeps Stat_keeps Open_keeps Create_keeps Chmod_keeps Mkdir_keeps
  Rename_keeps ReadFile_keeps CopyToHash_keeps CopyToFile_keeps Get_keeps
  GetTempDir_keeps FindAllGlobs_keeps MakeArchive_keeps Upload_keeps GetSvcURL_keeps
  ReadSpecs_keeps SpecSave_aus_keeps SpecSave_pkg_keeps PackageGet_keeps
  PackageList_keeps FunctionList_keeps : keeps.

Lemma FileSize_keeps path : keeps R (_package.FileSize host path).
Proof using HR. unfold _package.FileSize. frame. Qed.

Lemma GetContents_keeps path : keeps R (_package.GetContents host path).
Proof using HR. unfold _package.GetContents. frame. Qed.

Lemma FileChecksum_keeps path : keeps R (_package.FileChecksum host path).
Proof using HR. unfold _package.FileChecksum. frame. Qed.

Lemma DownloadURL_keeps url : keeps R (_package.DownloadURL host url).
Proof using HR. unfold _package.DownloadURL. frame. Qed.

Lemma WriteArchiveToFile_keeps f c : keeps R (_package.WriteArchiveToFile host f c).
Proof using HR. unfold _package.WriteArchiveToFile. frame. Qed.
Hint Resolve FileSize_keeps GetContents_keeps FileChecksum_keeps DownloadURL_keeps
  WriteArchiveToFile_keeps : keeps.

Lemma DownloadToTempFile_keeps url : keeps R (_package.DownloadToTempFile host url).
Proof using HR. unfold _package.DownloadToTempFile. frame. Qed.
Hint Resolve DownloadToTempFile_keeps : keeps.

Lemma UploadArchive_keeps f : keeps R (_package.UploadArchive host f).
Proof using HR. unfold _package.UploadArchive. frame. Qed.

Lemma archiveName_keeps hint fs : keeps R (fission_cli.archiveName host hint fs).
Proof using HR. unfold fission_cli.archiveName. frame. Qed.
Hint Resolve UploadArchive_keeps archiveName_keeps : keeps.

Lemma makeArchiveFileIfNeeded_keeps hint input noZip :
  keeps R (fission_cli.makeArchiveFileIfNeeded host hint input noZip).
Proof using HR. unfold fission_cli.makeArchiveFileIfNeeded. frame. Qed.

Lemma checkFilesExistence_keeps includeFiles :
  forall errs, keeps R (fission_cli.checkFilesExistence host includeFiles errs).
Proof using HR.
  induction includeFiles as [|path rest IH]; intros errs; simpl.
  - frame.
  - destruct (isHTTP path); [apply IH|]. frame; apply IH.
Qed.
Hint Resolve makeArchiveFileIfNeeded_keeps checkFilesExistence_keeps : keeps.

Lemma createArchive_keeps includeFiles noZip specDir specFile :
  keeps R (fission_cli.createArchive host includeFiles noZip specDir specFile).
Proof using HR. unfold fission_cli.createArchive. frame. Qed.

Lemma getFunctionsByPackage_keeps pkgName pkgNamespace :
  keeps R (fission_cli.getFunctionsByPackage host pkgName pkgNamespace).
Proof using HR. unfold fission_cli.getFunctionsByPackage. frame. Qed.

End Frame.

#[global] Hint Resolve attempt_keeps Printf_keeps Stat_keeps Open_keeps Create_keeps
  Chmod_keeps Mkdir_keeps Rename_keeps ReadFile_keeps CopyToHash_keeps CopyToFile_keeps
  Get_keeps NewLen_keeps NewV4_keeps GetTempDir_keeps FindAllGlobs_keeps MakeArchive_keeps
  Upload_keeps GetSvcURL_keeps ReadSpecs_keeps SpecSave_aus_keeps SpecSave_pkg_keeps
  PackageGet_keeps PackageList_keeps FunctionList_keeps FileSize_keeps GetContents_keeps
  FileChecksum_keeps DownloadURL_keeps WriteArchiveToFile_keeps DownloadToTempFile_keeps
  UploadArchive_keeps archiveName_keeps makeArchiveFileIfNeeded_keeps
  checkFilesExistence_keeps createArchive_keeps getFunctionsByPackage_keeps : keeps.

(** [frame_with HR] proves that a computation made of such calls keeps the
    relation whose laws are [HR]. *)
Ltac frame_with HR :=
  repeat first
    [ solve [eauto using HR with keeps]
    | keeps_step; try solve [exact (hs_refl _ HR) | exact (hs_trans _ HR)] ].

Lemma keeps_run {A} R (m : M A) w r w' : keeps R m -> m w = (r, w') -> R w w'.
Proof. intros H. apply H. Qed.

(** The control-plane store is one such relation, the growth of the log
    another. *)
Lemma same_store_refl w : same_store w w.
Proof. repeat split. Qed.

Lemma same_store_trans w1 w2 w3 : same_store w1 w2 -> same_store w2 w3 -> same_store w1 w3.
Proof. unfold same_store. intros (-> & -> & ->) (-> & -> & ->). repeat split. Qed.

Lemma same_store_host_side : host_side same_store.
Proof.
  split; [exact same_store_refl | exact same_store_trans | intros; repeat split ..].
Qed.

Lemma extends_host_side : host_side extends.
Proof.
  split; unfold extends; intros.
  - exists []. reflexivity.
  - destruct H as [d1 H], H0 as [d2 H0]. exists (d2 ++ d1)%list.
    rewrite H0, H, app_assoc. reflexivity.
  - exists [op]. reflexivity.
  - exists []. reflexivity.
  - exists []. reflexivity.
  - exists []. reflexivity.
  - exists []. reflexivity.
  - exists []. reflexivity.
Qed.

Lemma createArchive_store host includeFiles noZip specDir specFile :
  keeps same_store (fission_cli.createArchive host includeFiles noZip specDir specFile).
Proof. apply createArchive_keeps, same_store_host_side. Qed.

(** ** The control-plane store *)

Lemma is_meta_self m : client.is_meta (ObjectMeta.Namespace m) (ObjectMeta.Name m) m = true.
Proof. unfold client.is_meta. rewrite !String.eqb_refl. reflexivity. Qed.

Lemma is_meta_true ns name m :
  client.is_meta ns name m = true <-> ObjectMeta.Namespace m = ns /\ ObjectMeta.Name m = name.
Proof.
  unfold client.is_meta. rewrite andb_true_iff, !String.eqb_eq. reflexivity.
Qed.

Lemma find_replace {A} (p : A -> bool) (x : A) (l : list A) :
  p x = true -> is_Some (find p l) ->
  find p (map (fun y => if p y then x else y) l) = Some x.
Proof.
  intros Hx. induction l as [|y l IH]; simpl; intros [z Hz]; [discriminate|].
  destruct (p y) eqn:Hy; simpl.
  - rewrite Hx. reflexivity.
  - rewrite Hy. apply IH. eauto.
Qed.

Lemma find_filter_negb {A} (p : A -> bool) (l : list A) :
  find p (List.filter (fun y => negb (p y)) l) = None.
Proof.
  induction l as [|y l IH]; simpl; [reflexivity|].
  destruct (p y) eqn:Hy; simpl; [exact IH|]. rewrite Hy. exact IH.
Qed.

Section Store.
Variable host : Host.

(** A write of a package record either fails and leaves the world as it
    was, up to the log, or replaces the record found under its key. *)
Lemma PackageUpdate_inv pkg w r w' :
  client.PackageUpdate host pkg w = (r, w') ->
  let ns := Package_Namespace pkg in
  let name := Package_Name pkg in
  let stored := set_Package_ResourceVersion (client.version_of (S (revision w))) pkg in
  (exists e, r = Val (Err e) /\ w' = log (OpPackageUpdate ns name) w)
  \/ (r = Val (Ok (Package.Metadata stored))
      /\ fault host (trace w) (OpPackageUpdate ns name) = false
      /\ (exists old, stored_package w ns name = Some old
            /\ ObjectMeta.ResourceVersion (Package.Metadata old)
               = ObjectMeta.ResourceVersion (Package.Metadata pkg))
      /\ stored_package w' ns name = Some stored
      /\ packages w' = map (fun q => if client.is_package ns name q then stored else q)
                           (packages w)
      /\ functions w' = functions w
      /\ trace w' = OpPackageUpdate ns name :: trace w).
Proof.
  unfold client.PackageUpdate, attempt, stored_package, Package_Namespace, Package_Name.
  munfold. unfold bind, get, modify, ret. cbn -[String.eqb client.version_of].
  destruct (fault host _ _); cbn -[String.eqb client.version_of].
  { intros H; inversion H; subst. left. eauto. }
  destruct (find _ (packages w)) as [old|] eqn:Hfind;
    [|intros H; inversion H; subst; left; eauto].
  destruct (String.eqb _ _) eqn:Hrv; intros H; inversion H; subst; clear H;
    [|left; eauto].
  right. split; [reflexivity|]. split; [reflexivity|]. split.
  { exists old. split; [reflexivity|]. apply String.eqb_eq. exact Hrv. }
  split; [|repeat split].
  cbn -[client.version_of]. apply find_replace; [|rewrite Hfind; eauto].
  unfold client.is_package. apply is_meta_true. split; reflexivity.
Qed.

End Store.

(** ** [updatePackage]: what is written back *)

Lemma assigned_Metadata pkg envName envNamespace buildcmd src deploy pending :
  Package.Metadata (assigned pkg envName envNamespace buildcmd src deploy pending)
  = Package.Metadata pkg.
Proof.
  unfold assigned.
  destruct (nonempty envName), (nonempty envNamespace), (nonempty buildcmd),
    src, deploy, pending; reflexivity.
Qed.

Lemma assigned_Status pkg envName envNamespace buildcmd src deploy pending :
  Package.Status (assigned pkg envName envNamespace buildcmd src deploy pending)
  = if pending then PackageStatus.mk BuildStatusPending "" else Package.Status pkg.
Proof.
  unfold assigned.
  destruct (nonempty envName), (nonempty envNamespace), (nonempty buildcmd),
    src, deploy, pending; reflexivity.
Qed.

(** Inverts a run that returned a value, step by step. *)
Ltac mval :=
  repeat match goal with
    | H : mbind _ _ _ = (Val _, _) |- _ => minv H
    | H : bind _ _ _ = (Val _, _) |- _ => minv H
    | H : ret _ _ = _ |- _ => inversion H; subst; clear H
    | H : (if ?b then _ else _) _ = (Val _, _) |- _ => destruct b eqn:?
    | H : (let '(_, _) := ?p in _) _ = (Val _, _) |- _ => destruct p
    | H : util.CheckErr ?r _ _ = (Val _, _) |- _ =>
        destruct r; [inversion H; subst; clear H | discriminate H]
    | H : util.CheckError ?r _ _ = (Val _, _) |- _ =>
        destruct r; [discriminate H | inversion H; subst; clear H]
    | H : log_.Fatal _ _ = (Val _, _) |- _ => discriminate H
    | H : (match ?x with _ => _ end) _ = (Val _, _) |- _ => destruct x eqn:?
    end.

Section UpdatePackage.
Variable host : Host.

Lemma updatePackage_inv pkg envName envNamespace src deploy buildcmd forceRebuild noZip
      w pkg' r w' :
  fission_cli.updatePackage host pkg envName envNamespace src deploy buildcmd
    forceRebuild noZip w = (Val (pkg', r), w') ->
  exists srcA depA w1 w2 meta,
    archive_made host src false srcA w w1
    /\ archive_made host deploy noZip depA w1 w2
    /\ pkg' = assigned pkg envName envNamespace buildcmd srcA depA
                (needToBuild_of envName envNamespace src deploy buildcmd || forceRebuild)
    /\ client.PackageUpdate host pkg' w2 = (Val (Ok meta), w')
    /\ r = Ok meta.
Proof.
  unfold fission_cli.updatePackage, needToBuild_of, assigned.
  intros H.
  destruct (nonempty envName), (nonempty envNamespace), (nonempty buildcmd);
    cbv beta iota zeta in H.
  all: mval.
  all: unfold archive_made;
    first
      [ eexists None, None, _, _, _;
        solve [repeat split; first [eassumption | reflexivity]]
      | eexists (Some _), None, _, _, _;
        solve [repeat split; first [eassumption | reflexivity]]
      | eexists None, (Some _), _, _, _;
        solve [repeat split; first [eassumption | reflexivity]]
      | eexists (Some _), (Some _), _, _, _;
        solve [repeat split; first [eassumption | reflexivity]] ].
Qed.

End UpdatePackage.

Section UpdatePackageWritten.
Variable host : Host.

Lemma archive_made_store files noZip made w w' :
  archive_made host files noZip made w w' -> same_store w w'.
Proof.
  destruct made as [a|]; simpl.
  - intros [_ H]. eapply createArchive_store; exact H.
  - intros [_ ->]. apply same_store_refl.
Qed.

(** A returning [updatePackage] has written the assigned package over the
    stored record, with a new resource version, and has left the function
    records alone. *)
Lemma updatePackage_written pkg envName envNamespace src deploy buildcmd forceRebuild
      noZip w pkg' r w' :
  fission_cli.updatePackage host pkg envName envNamespace src deploy buildcmd
    forceRebuild noZip w = (Val (pkg', r), w') ->
  exists srcA depA meta,
    (is_Some srcA <-> has_items src = true)
    /\ (is_Some depA <-> has_items deploy = true)
    /\ pkg' = assigned pkg envName envNamespace buildcmd srcA depA
                (needToBuild_of envName envNamespace src deploy buildcmd || forceRebuild)
    /\ r = Ok meta
    /\ stored_package w' (Package_Namespace pkg) (Package_Name pkg)
       = Some (set_Package_ResourceVersion (ObjectMeta.ResourceVersion meta) pkg')
    /\ meta = Package.Metadata
                (set_Package_ResourceVersion (ObjectMeta.ResourceVersion meta) pkg')
    /\ functions w' = functions w.
Proof.
  intros H. apply updatePackage_inv in H
    as (srcA & depA & w1 & w2 & meta & Hsrc & Hdep & Hpkg & Hupd & ->).
  pose proof (archive_made_store _ _ _ _ _ Hsrc) as (_ & Hf1 & _).
  pose proof (archive_made_store _ _ _ _ _ Hdep) as (_ & Hf2 & _).
  exists srcA, depA, meta.
  split. { destruct srcA; simpl in Hsrc; destruct Hsrc as [E _]; rewrite E;
           split; intros X; try discriminate; eauto; destruct X; discriminate. }
  split. { destruct depA; simpl in Hdep; destruct Hdep as [E _]; rewrite E;
           split; intros X; try discriminate; eauto; destruct X; discriminate. }
  split; [exact Hpkg|]. split; [reflexivity|].
  apply PackageUpdate_inv in Hupd as [(e & He & _) | (Hr & _ & _ & Hst & _ & Hfn & _)];
    [discriminate|].
  inversion Hr; subst meta. clear Hr.
  assert (Hmeta : Package.Metadata pkg' = Package.Metadata pkg)
    by (rewrite Hpkg; apply assigned_Metadata).
  unfold Package_Namespace, Package_Name in *. rewrite Hmeta in Hst.
  split; [exact Hst|]. split; [reflexivity|]. congruence.
Qed.

End UpdatePackageWritten.

(** ** Claims C10, C1 and C2: the build status after [updatePackage] *)

Section UpdatePackageExit.
Variable host : Host.

(** An [updatePackage] that exits has not written to the store. *)
Lemma updatePackage_fatal_store pkg envName envNamespace src deploy buildcmd
      forceRebuild noZip w msg w' :
  fission_cli.updatePackage host pkg envName envNamespace src deploy buildcmd
    forceRebuild noZip w = (Fatal msg, w') ->
  same_store w w'.
Proof.
  unfold fission_cli.updatePackage. intros H.
  destruct (nonempty envName), (nonempty envNamespace), (nonempty buildcmd);
    cbv beta iota zeta in H.
  all: minv H;
    [|eapply keeps_run; [|exact Hstep]; frame_with same_store_host_side].
  all: assert (Hs1 : same_store w w0)
    by (eapply keeps_run; [|exact Hstep]; frame_with same_store_host_side).
  all: destruct a as [pkg1 need1]; minv H;
    [|eapply same_store_trans; [exact Hs1|];
      eapply keeps_run; [|exact Hstep0]; frame_with same_store_host_side].
  all: assert (Hs2 : same_store w w1)
    by (eapply same_store_trans; [exact Hs1|];
        eapply keeps_run; [|exact Hstep0]; frame_with same_store_host_side).
  all: destruct a as [pkg2 need2]; cbv beta iota zeta in H; minv H.
  all: unfold bind, util.CheckErr, log_.Fatal, ret in H.
  all: apply PackageUpdate_inv in Hstep1 as [(e & He & Hw) | (He & _)];
    inversion He; subst; try discriminate H.
  all: inversion H; subst.
  all: eapply same_store_trans; [exact Hs2 | repeat split].
Qed.

End UpdatePackageExit.

(** What a deployment-only update writes back. *)
Lemma updatePackage_deployment_only host pkg deploy noZip w pkg' r w' :
  fission_cli.updatePackage host pkg "" "" [] deploy "" false noZip w
  = (Val (pkg', r), w') ->
  exists stored,
    stored_package w' (Package_Namespace pkg) (Package_Name pkg) = Some stored
    /\ Package.Status stored = Package.Status pkg
    /\ Package.Spec stored = Package.Spec pkg'
    /\ Package.Status pkg' = Package.Status pkg
    /\ Package.Metadata pkg' = Package.Metadata pkg
    /\ PackageSpec.Environment (Package.Spec pkg') = PackageSpec.Environment (Package.Spec pkg)
    /\ PackageSpec.Source (Package.Spec pkg') = PackageSpec.Source (Package.Spec pkg)
    /\ PackageSpec.BuildCommand (Package.Spec pkg')
       = PackageSpec.BuildCommand (Package.Spec pkg)
    /\ (deploy = [] -> pkg' = pkg).
Proof.
  intros H. apply updatePackage_written in H
    as (srcA & depA & meta & Hsrc & Hdep & Hpkg & _ & Hst & _ & _).
  destruct srcA as [a|];
    [destruct Hsrc as [Hsrc _]; specialize (Hsrc (mk_is_Some _ _ eq_refl)); discriminate Hsrc|].
  assert (Hpending : needToBuild_of "" "" [] deploy "" || false = false)
    by (unfold needToBuild_of; destruct (has_items deploy); reflexivity).
  rewrite Hpending in Hpkg. clear Hpending.
  eexists. split; [exact Hst|]. subst pkg'.
  destruct depA as [a|]; cbn.
  - repeat split; try reflexivity. intros ->. destruct Hdep as [Hdep _].
    specialize (Hdep (mk_is_Some _ _ eq_refl)). discriminate Hdep.
  - repeat split; reflexivity.
Qed.

(** C10. A call of [updatePackage] that supplies no environment name, no
    environment namespace, no build command and no source archive, with
    [forceRebuild] false, leaves the status of the package (build status and
    build log) exactly as it was: when it returns, the package it has written
    back carries the status the package had before, so that a new deployment
    archive alone does not reset it, and the metadata, environment, source
    archive and build command are as before as well; only the deployment
    archive is replaced, and only when one is supplied. When it exits,
    nothing was written to the store. *)
Theorem updatePackage_frame host pkg deploy noZip w r w' :
  fission_cli.updatePackage host pkg "" "" [] deploy "" false noZip w = (r, w') ->
  match r with
  | Val (pkg', _) =>
      exists stored,
        stored_package w' (Package_Namespace pkg) (Package_Name pkg) = Some stored
        /\ Package.Status stored = Package.Status pkg
        /\ Package.Spec stored = Package.Spec pkg'
        /\ Package.Status pkg' = Package.Status pkg
        /\ Package.Metadata pkg' = Package.Metadata pkg
        /\ PackageSpec.Environment (Package.Spec pkg')
           = PackageSpec.Environment (Package.Spec pkg)
        /\ PackageSpec.Source (Package.Spec pkg') = PackageSpec.Source (Package.Spec pkg)
        /\ PackageSpec.BuildCommand (Package.Spec pkg')
           = PackageSpec.BuildCommand (Package.Spec pkg)
        /\ (deploy = [] -> pkg' = pkg)
  | Fatal _ => same_store w w'
  end.
Proof.
  destruct r as [[pkg' r]|msg]; intros H.
  - eapply updatePackage_deployment_only. exact H.
  - eapply updatePackage_fatal_store. exact H.
Qed.

Lemma updatePackage_frame_witness :
  exists pkg' r w',
    fission_cli.updatePackage Demo.host (Demo.package "queued" BuildStatusPending "")
      "" "" [] ["deploy.zip"] "" false false Demo.world = (Val (pkg', r), w')
    /\ exists stored,
         stored_package w' "default" "queued" = Some stored
         /\ Package.Status stored = PackageStatus.mk BuildStatusPending "".
Proof.
  eexists _, _, _. split; [vm_compute; reflexivity|].
  match goal with
  | |- context [stored_package ?w' _ _] =>
      pose proof (updatePackage_frame Demo.host
                    (Demo.package "queued" BuildStatusPending "")
                    ["deploy.zip"] false Demo.world _ w'
                    ltac:(vm_compute; reflexivity)) as H
  end.
  cbv beta iota in H. destruct H as (stored & H1 & H2 & _).
  exists stored. split; [exact H1 | exact H2].
Defined.

(** C1, counterexample. The package "queued" is pending (it was created from
    source); replacing its deployment archive alone leaves it pending. *)
Lemma deployment_only_still_pending :
  ~ deployment_only_never_pending Demo.host
      (Demo.package "queued" BuildStatusPending "") ["deploy.zip"] false Demo.world.
Proof.
  intros H. eapply H; [reflexivity | vm_compute; reflexivity ..].
Qed.

(** C1, amended. An update that supplies only a new deployment archive leaves
    the status of the stored package exactly as it was, so that the package
    is pending afterwards if and only if it was pending before. An update
    that supplies only a new source archive leaves the stored package
    pending. *)
Theorem updatePackage_single_archive host pkg files noZip w pkg' r w' :
  has_items files = true ->
  (fission_cli.updatePackage host pkg "" "" [] files "" false noZip w
   = (Val (pkg', r), w') ->
   Package.Status pkg' = Package.Status pkg
   /\ exists stored,
        stored_package w' (Package_Namespace pkg) (Package_Name pkg) = Some stored
        /\ Package.Status stored = Package.Status pkg
        /\ (Package_BuildStatus stored = BuildStatusPending
            <-> Package_BuildStatus pkg = BuildStatusPending))
  /\ (fission_cli.updatePackage host pkg "" "" files [] "" false noZip w
      = (Val (pkg', r), w') ->
      Package_BuildStatus pkg' = BuildStatusPending
      /\ exists stored,
           stored_package w' (Package_Namespace pkg) (Package_Name pkg) = Some stored
           /\ Package_BuildStatus stored = BuildStatusPending).
Proof.
  intros Hfiles. split; intros H.
  - apply updatePackage_deployment_only in H as (stored & H1 & H2 & _ & H4 & _).
    split; [exact H4|].
    exists stored. split; [exact H1|]. split; [exact H2|].
    unfold Package_BuildStatus. rewrite H2. reflexivity.
  - apply updatePackage_written in H as (srcA & depA & meta & _ & _ & Hpkg & _ & Hst & _).
    assert (Hp : Package_BuildStatus pkg' = BuildStatusPending).
    { unfold Package_BuildStatus. rewrite Hpkg, assigned_Status.
      unfold needToBuild_of. rewrite Hfiles. reflexivity. }
    split; [exact Hp|]. eexists. split; [exact Hst|]. exact Hp.
Qed.

Lemma updatePackage_single_archive_witness :
  has_items ["fn.py"] = true
  /\ exists pkg' r w',
       fission_cli.updatePackage Demo.host (Demo.package "built" BuildStatusSucceeded "ok")
         "" "" ["fn.py"] [] "" false false Demo.world = (Val (pkg', r), w')
       /\ exists stored,
            stored_package w' "default" "built" = Some stored
            /\ Package_BuildStatus stored = BuildStatusPending.
Proof.
  split; [reflexivity|].
  eexists _, _, _. split; [vm_compute; reflexivity|].
  eapply (updatePackage_single_archive Demo.host
            (Demo.package "built" BuildStatusSucceeded "ok") ["fn.py"] false Demo.world);
    [reflexivity | vm_compute; reflexivity].
Defined.

(** C2, counterexample. The package "built" has succeeded; an update that
    changes its environment name and brings a new deployment archive leaves
    it succeeded, not pending. *)
Lemma environment_and_deployment_not_pending :
  ~ rebuild_owed_sets_pending Demo.host
      (Demo.package "built" BuildStatusSucceeded "ok")
      "nodejs" "" [] ["deploy.zip"] "" false Demo.world.
Proof.
  intros H. red in H. specialize (H eq_refl).
  enough (BuildStatusSucceeded = BuildStatusPending) by discriminate.
  etransitivity; cycle 1; [eapply H; vm_compute; reflexivity | reflexivity].
Qed.

(** C2, amended. When the environment name, the environment namespace, the
    build command or the source archive is supplied and no deployment archive
    comes with it, the package written back is pending, with an empty build
    log. When a deployment archive comes with a new environment or build
    command and no source archive, the status of the package written back is
    the status it had. In both cases the stored package carries the status of
    the package written back. *)
Theorem updatePackage_rebuild_owed host pkg envName envNamespace src deploy buildcmd
        noZip w pkg' r w' :
  nonempty envName || nonempty envNamespace || nonempty buildcmd || has_items src = true ->
  fission_cli.updatePackage host pkg envName envNamespace src deploy buildcmd
    false noZip w = (Val (pkg', r), w') ->
  exists stored,
    stored_package w' (Package_Namespace pkg) (Package_Name pkg) = Some stored
    /\ Package.Status stored = Package.Status pkg'
    /\ (has_items deploy = false ->
        Package.Status pkg' = PackageStatus.mk BuildStatusPending "")
    /\ (has_items deploy = true -> has_items src = false ->
        Package.Status pkg' = Package.Status pkg).
Proof.
  intros Htrig H.
  apply updatePackage_written in H as (srcA & depA & meta & _ & _ & Hpkg & _ & Hst & _).
  eexists. split; [exact Hst|]. split; [reflexivity|]. rewrite Hpkg, assigned_Status.
  unfold needToBuild_of. rewrite Htrig.
  split; intros ->; [reflexivity|]. intros _. reflexivity.
Qed.

Lemma updatePackage_rebuild_owed_witness :
  nonempty "nodejs" || nonempty "" || nonempty "" || has_items (@nil string) = true
  /\ exists pkg' r w',
       fission_cli.updatePackage Demo.host (Demo.package "built" BuildStatusSucceeded "ok")
         "nodejs" "" [] [] "" false false Demo.world = (Val (pkg', r), w')
       /\ exists stored,
            stored_package w' "default" "built" = Some stored
            /\ Package.Status stored = PackageStatus.mk BuildStatusPending "".
Proof.
  split; [reflexivity|].
  eexists _, _, _. split; [vm_compute; reflexivity|].
  edestruct (updatePackage_rebuild_owed Demo.host
               (Demo.package "built" BuildStatusSucceeded "ok")
               "nodejs" "" [] [] "" false Demo.world) as (stored & H1 & H2 & H3 & _);
    [reflexivity | vm_compute; reflexivity |].
  exists stored. split; [exact H1 | rewrite H2; apply H3; reflexivity].
Defined.

(** ** Archive transport *)

(** Unfolds a primitive call down to the fault decision and the lookups. *)
Ltac prim_unfold H :=
  munfold;
  unfold bind, attempt, get, modify, ret, util.CheckErr, util.CheckError, log_.Fatal in H;
  cbn beta iota zeta in H.

(** Projections of a world that was only logged to or updated in one field. *)
Ltac wsimpl :=
  cbn [disk blobs trace packages functions revision draws archiveSpecs packageSpecs
       log set_packages set_functions set_files set_blobs set_archiveSpecs
       set_packageSpecs next_revision next_draw negb fst snd] in *.

Ltac prim_cases H :=
  repeat (match type of H with
          | context [fault ?h ?t ?op] =>
              let E := fresh "Hfault" in destruct (fault h t op) eqn:E
          | context [@lookup _ _ _ _ ?k ?m] =>
              let E := fresh "Hlook" in destruct (@lookup _ _ _ _ k m) eqn:E
          | context [web ?h ?u] =>
              let E := fresh "Hweb" in destruct (web h u) as [[? ?]|] eqn:E
          end; wsimpl; cbn beta iota zeta in H).

Section Transport.
Variable host : Host.

Lemma FileSize_val f w z w' :
  _package.FileSize host f w = (Val z, w') ->
  (exists c, disk w !! f = Some c /\ z = Z.of_nat (length c))
  /\ w' = log (OpStat f) w.
Proof.
  unfold _package.FileSize, os.Stat. intros H. prim_unfold H. prim_cases H.
  all: wsimpl; inversion H; subst; eauto.
Qed.

Lemma GetContents_val f w c w' :
  _package.GetContents host f w = (Val c, w') ->
  disk w !! f = Some c /\ w' = log (OpReadFile f) w.
Proof.
  unfold _package.GetContents, ioutil.ReadFile. intros H. prim_unfold H. prim_cases H.
  all: wsimpl; inversion H; subst; eauto.
Qed.

Lemma Upload_ok c f w id w' :
  storageSvcClient.Upload host c f w = (Val (Ok id), w') ->
  exists content,
    disk w !! f = Some content
    /\ blobs w' !! id = Some content
    /\ disk w' = disk w
    /\ same_store w w'.
Proof.
  unfold storageSvcClient.Upload, random.NewV4. intros H. prim_unfold H. prim_cases H.
  all: wsimpl; inversion H; subst; clear H.
  eexists. split; [reflexivity|]. wsimpl. split; [apply lookup_insert_eq|].
  split; [reflexivity | repeat split].
Qed.

Lemma GetSvcURL_ok label w s w' :
  client.GetSvcURL host label w = (Val (Ok s), w') ->
  s = SvcURL host label /\ w' = log (OpGetSvcURL label) w.
Proof.
  unfold client.GetSvcURL. intros H. prim_unfold H. prim_cases H.
  all: wsimpl; inversion H; subst; eauto.
Qed.

Lemma FileChecksum_ok f w cs w' :
  _package.FileChecksum host f w = (Val (Ok cs), w') ->
  exists c,
    disk w !! f = Some c
    /\ cs = Checksum.mk ChecksumTypeSHA256 (hex.EncodeToString (SHA256.Sum256 c))
    /\ w' = log (OpCopy f) (log (OpOpen f) w).
Proof.
  unfold _package.FileChecksum, os.Open, io.CopyToHash. intros H.
  prim_unfold H. prim_cases H.
  all: wsimpl; inversion H; subst; eauto.
Qed.

Lemma UploadArchive_inv fileName w a w' :
  _package.UploadArchive host fileName w = (Val a, w') ->
  exists f w0 content,
    (if isHTTP fileName
     then _package.DownloadToTempFile host fileName w = (Val f, w0)
     else f = fileName /\ w0 = w)
    /\ disk w0 !! f = Some content
    /\ stored_as host f content a w0 w'.
Proof.
  unfold _package.UploadArchive. intros H. minv H.
  exists a0, w0.
  assert (Hfirst : if isHTTP fileName
                   then _package.DownloadToTempFile host fileName w = (Val a0, w0)
                   else a0 = fileName /\ w0 = w).
  { destruct (isHTTP fileName); [exact Hstep|]. inversion Hstep; auto. }
  clear Hstep. minv H.
  apply FileSize_val in Hstep as ((content & Hfile & ->) & ->).
  exists content. split; [exact Hfirst|]. split; [exact Hfile|].
  unfold stored_as. destruct (_ <? _)%Z.
  - mval. apply GetContents_val in Hstep as (Hc & ->).
    wsimpl. rewrite Hfile in Hc. inversion Hc; subst. split; reflexivity.
  - mval.
    match goal with
    | U : storageSvcClient.Upload _ _ _ _ = _ |- _ =>
        apply Upload_ok in U as (c1 & Hc1 & Hblob & Hdisk & _)
    end.
    match goal with
    | U : client.GetSvcURL _ _ _ = _ |- _ => apply GetSvcURL_ok in U as (-> & ->)
    end.
    match goal with
    | U : _package.FileChecksum _ _ _ = _ |- _ =>
        apply FileChecksum_ok in U as (c2 & Hc2 & -> & ->)
    end.
    wsimpl. rewrite Hfile in Hc1. inversion Hc1; subst c1.
    rewrite Hdisk in Hc2. wsimpl. rewrite Hfile in Hc2. inversion Hc2; subst c2.
    repeat split. eexists. split; [reflexivity|]. wsimpl. exact Hblob.
Qed.

End Transport.

Section Download.
Variable host : Host.

Lemma DownloadURL_ok url w body w' :
  _package.DownloadURL host url w = (Val (Ok body), w') ->
  web host url = Some (http.StatusOK, body) /\ w' = log (OpHttpGet url) w.
Proof.
  unfold _package.DownloadURL, http.Get. intros H. prim_unfold H. prim_cases H.
  all: try (inversion H; fail).
  destruct (z =? http.StatusOK)%Z eqn:Hz; cbn [negb] in H; inversion H; subst.
  apply Z.eqb_eq in Hz. subst. split; reflexivity.
Qed.

Lemma Create_ok path w w' :
  os.Create host path w = (Val None, w') -> extends w w'.
Proof. intros H. eapply Create_keeps; [apply extends_host_side | exact H]. Qed.

Lemma CopyToFile_ok path c w w' :
  io.CopyToFile host path c w = (Val None, w') -> disk w' !! path = Some c.
Proof.
  unfold io.CopyToFile. intros H. prim_unfold H. prim_cases H.
  all: inversion H; subst. wsimpl. apply lookup_insert_eq.
Qed.

Lemma Chmod_ok path w w' :
  os.Chmod host path w = (Val None, w') -> disk w' = disk w.
Proof.
  unfold os.Chmod. intros H. prim_unfold H. prim_cases H.
  all: inversion H; subst. reflexivity.
Qed.

Lemma Rename_ok oldpath newpath w w' :
  os.Rename host oldpath newpath w = (Val None, w') ->
  exists c, disk w !! oldpath = Some c /\ disk w' !! newpath = Some c.
Proof.
  unfold os.Rename. intros H. prim_unfold H. prim_cases H.
  all: inversion H; subst. eexists. split; [reflexivity|]. wsimpl.
  apply lookup_insert_eq.
Qed.

Lemma WriteArchiveToFile_ok fileName reader w w' :
  _package.WriteArchiveToFile host fileName reader w = (Val None, w') ->
  disk w' !! fileName = Some reader.
Proof.
  unfold _package.WriteArchiveToFile. intros H. mval; try discriminate.
  repeat match goal with
         | U : io.CopyToFile _ _ _ _ = _ |- _ => apply CopyToFile_ok in U
         | U : os.Chmod _ _ _ = _ |- _ => apply Chmod_ok in U
         | U : os.Rename _ _ _ _ = _ |- _ => apply Rename_ok in U as (c & Hold & Hnew)
         end.
  congruence.
Qed.

(** A returning download has fetched the URL with status 200 and has left
    the body in the file it names. *)
Lemma DownloadToTempFile_val url w dest w' :
  _package.DownloadToTempFile host url w = (Val dest, w') ->
  exists body,
    web host url = Some (http.StatusOK, body)
    /\ disk w' !! dest = Some body
    /\ In (OpHttpGet url) (trace w')
    /\ same_store w w'.
Proof.
  intros H.
  assert (Hstore : same_store w w')
    by (eapply DownloadToTempFile_keeps; [apply same_store_host_side | exact H]).
  unfold _package.DownloadToTempFile in H. minv H. minv H.
  assert (Hext : extends w1 w').
  { eapply keeps_run; [|exact H]. frame_with extends_host_side. }
  mval.
  match goal with
  | U : _package.DownloadURL _ _ _ = _ |- _ => apply DownloadURL_ok in U as (Hweb & ->)
  end.
  match goal with
  | U : _package.WriteArchiveToFile _ _ _ _ = _ |- _ => apply WriteArchiveToFile_ok in U
  end.
  eexists. split; [exact Hweb|]. split; [eassumption|]. split; [|exact Hstore].
  destruct Hext as [calls ->]. apply in_or_app. right. left. reflexivity.
Qed.

End Download.

(** ** Claims C5 and C3: what [UploadArchive] returns *)

(** Runs the monad operations of the goal. *)
Ltac run_prims :=
  cbv beta iota zeta delta
    [mbind M_bind bind attempt get modify ret util.CheckErr util.CheckError log_.Fatal].

Section UploadArchive.
Variable host : Host.

Lemma stored_as_not_bare f content a w w' url :
  stored_as host f content a w w' -> a <> bare_url url.
Proof.
  unfold stored_as, bare_url. destruct (_ <? _)%Z.
  - intros [-> _]. discriminate.
  - intros (_ & _ & Hsum & _) ->. discriminate Hsum.
Qed.

Lemma UploadArchive_healthy fileName content w :
  healthy host -> isHTTP fileName = false -> disk w !! fileName = Some content ->
  exists a w', _package.UploadArchive host fileName w = (Val a, w').
Proof.
  intros Hh Hlocal Hfile. red in Hh.
  unfold _package.UploadArchive, _package.FileSize, _package.GetContents,
    _package.FileChecksum, os.Stat, os.Open, ioutil.ReadFile, io.CopyToHash,
    storageSvcClient.Upload, client.GetSvcURL, random.NewV4.
  rewrite Hlocal.
  repeat (run_prims; wsimpl; rewrite ?Hh, ?Hfile).
  destruct (Z.of_nat (length content) <? ArchiveLiteralSizeLimit host)%Z;
    repeat (run_prims; wsimpl; rewrite ?Hh, ?Hfile); eauto.
Qed.

End UploadArchive.

(** C5. [UploadArchive] on a local file: when the size of the file is
    strictly below the literal size limit, the archive is of kind Literal and
    holds exactly the bytes of the file, and only local calls were made (the
    blob store is as before); otherwise the archive is of kind URL, the blob
    store holds the bytes of the file under the identifier the URL names, and
    the checksum is the hexadecimal SHA-256 digest of those same bytes. When
    no call fails, an archive is returned. *)
Theorem UploadArchive_local host fileName content w :
  isHTTP fileName = false ->
  disk w !! fileName = Some content ->
  (forall a w',
      _package.UploadArchive host fileName w = (Val a, w') ->
      if (Z.of_nat (length content) <? ArchiveLiteralSizeLimit host)%Z
      then a = Archive.mk ArchiveTypeLiteral content "" Checksum.zero
           /\ local_only w w' /\ blobs w' = blobs w
      else Archive.Type' a = ArchiveTypeUrl
           /\ Archive.Checksum a
              = Checksum.mk ChecksumTypeSHA256 (hex.EncodeToString (SHA256.Sum256 content))
           /\ exists id,
                Archive.URL a
                = storageSvcClient.GetUrl
                    (storageSvcClient.MakeClient
                       ("http://" ++ SvcURL host "application=fission-storage")) id
                /\ blobs w' !! id = Some content)
  /\ (healthy host -> exists a w', _package.UploadArchive host fileName w = (Val a, w')).
Proof.
  intros Hlocal Hfile. split; [|intros Hh; eapply UploadArchive_healthy; eauto].
  intros a w' H. apply UploadArchive_inv in H as (f & w0 & c & Hfirst & Hc & Hst).
  rewrite Hlocal in Hfirst. destruct Hfirst as [-> ->].
  rewrite Hfile in Hc. inversion Hc; subst c. unfold stored_as in Hst.
  destruct (_ <? _)%Z.
  - destruct Hst as [-> ->]. split; [reflexivity|]. split; [|reflexivity].
    exists [OpReadFile fileName; OpStat fileName]. split; [reflexivity|].
    repeat constructor.
  - destruct Hst as (Ht & _ & Hsum & Hurl). auto.
Qed.

Lemma UploadArchive_local_witness :
  isHTTP "deploy.zip" = false
  /\ disk Demo.world !! "deploy.zip" = Some (Demo.bytes "0123456789")
  /\ exists a w',
       _package.UploadArchive Demo.host "deploy.zip" Demo.world = (Val a, w')
       /\ Archive.Type' a = ArchiveTypeUrl
       /\ Archive.Checksum a
          = Checksum.mk ChecksumTypeSHA256
              "84d89877f0d4041efb6bf91a16f0248f2fd573e6af05c19f96bedb9f882f7882".
Proof.
  split; [reflexivity|]. split; [vm_compute; reflexivity|].
  eexists _, _. split; [vm_compute; reflexivity|].
  edestruct (UploadArchive_local Demo.host "deploy.zip" (Demo.bytes "0123456789") Demo.world)
    as [H _]; [reflexivity | vm_compute; reflexivity |].
  specialize (H _ _ ltac:(vm_compute; reflexivity)).
  change (Z.of_nat (length (Demo.bytes "0123456789")) <? ArchiveLiteralSizeLimit Demo.host)%Z
    with false in H.
  destruct H as (Ht & Hsum & _). split; [exact Ht|]. rewrite Hsum. vm_compute. reflexivity.
Defined.

(** Outside spec mode, the archive [createArchive] returns is the one
    [UploadArchive] made of some path. *)
Lemma createArchive_uploads host includeFiles noZip specDir w a w' :
  fission_cli.createArchive host includeFiles noZip specDir "" w = (Val a, w') ->
  exists path w1, _package.UploadArchive host path w1 = (Val a, w').
Proof.
  unfold fission_cli.createArchive. change (nonempty "") with false.
  cbv beta iota. intros H. minv H. minv H. minv H. eauto.
Qed.




(** ** Claim C4: [pkgRebuild] *)

Section Rebuild.
Variable host : Host.

Lemma PackageGet_run ns name rv w :
  client.PackageGet host (ObjectMeta.mk name ns rv) w
  = (Val (if fault host (trace w) (OpPackageGet ns name)
          then Err "control plane unreachable"
          else match stored_package w ns name with
               | Some p => Ok p
               | None => Err ("package " ++ name ++ " not found")
               end),
     log (OpPackageGet ns name) w).
Proof.
  unfold client.PackageGet, stored_package. run_prims. cbn [ObjectMeta.Namespace ObjectMeta.Name].
  destruct (fault host (trace w) _); cbn [negb]; [reflexivity|]. wsimpl.
  destruct (find _ _); reflexivity.
Qed.

Lemma stored_package_key w ns name p :
  stored_package w ns name = Some p -> Package_Namespace p = ns /\ Package_Name p = name.
Proof.
  unfold stored_package. intros H. apply find_some in H as [_ H].
  apply is_meta_true in H. exact H.
Qed.

Lemma PackageUpdate_run pkg w old :
  fault host (trace w) (OpPackageUpdate (Package_Namespace pkg) (Package_Name pkg)) = false ->
  stored_package w (Package_Namespace pkg) (Package_Name pkg) = Some old ->
  ObjectMeta.ResourceVersion (Package.Metadata old)
  = ObjectMeta.ResourceVersion (Package.Metadata pkg) ->
  exists meta w',
    client.PackageUpdate host pkg w = (Val (Ok meta), w').
Proof.
  unfold client.PackageUpdate, stored_package, Package_Namespace, Package_Name.
  intros Hf Hfind Hrv. run_prims. rewrite Hf. cbn [negb]. wsimpl. rewrite Hfind, Hrv.
  rewrite String.eqb_refl. eauto.
Qed.

End Rebuild.

(** C4. For a package that the store holds and can be read: when its build
    status is not Failed, [pkgRebuild] exits with the state error and the
    store is as before; when it is Failed and the write goes through,
    [pkgRebuild] succeeds and the stored package is Pending (with an empty
    build log and the same spec); and [pkgRebuild] succeeds only when the
    status was Failed. *)
Theorem pkgRebuild_only_failed host c w pkg :
  let name := cli.String c "name" in
  let ns := cli.String c "pkgNamespace" in
  nonempty name = true ->
  stored_package w ns name = Some pkg ->
  fault host (trace w) (OpPackageGet ns name) = false ->
  (Package_BuildStatus pkg <> BuildStatusFailed ->
   exists w',
     fission_cli.pkgRebuild host c w
     = (Fatal ("Package " ++ name ++ " is not in failed state."), w')
     /\ same_store w w')
  /\ (Package_BuildStatus pkg = BuildStatusFailed ->
      fault host (OpPackageGet ns name :: trace w) (OpPackageUpdate ns name) = false ->
      exists w' stored,
        fission_cli.pkgRebuild host c w = (Val None, w')
        /\ stored_package w' ns name = Some stored
        /\ Package.Status stored = PackageStatus.mk BuildStatusPending ""
        /\ Package.Spec stored = Package.Spec pkg)
  /\ (forall w', fission_cli.pkgRebuild host c w = (Val None, w') ->
                 Package_BuildStatus pkg = BuildStatusFailed).
Proof.
  intros name ns Hname Hpkg Hget.
  destruct (stored_package_key _ _ _ _ Hpkg) as [Hns Hnm].
  assert (Hrun : forall k : Package.t -> M error,
             (client.PackageGet host (ObjectMeta.mk name ns "") ≫= fun r =>
                util.CheckErr r "find package" ≫= k) w
             = k pkg (log (OpPackageGet ns name) w)).
  { intros k. munfold. erewrite bind_val; [|apply PackageGet_run].
    rewrite Hget, Hpkg. reflexivity. }
  unfold fission_cli.pkgRebuild. fold name ns. rewrite Hname.
  split; [|split].
  - intros Hst. munfold. unfold bind at 1. cbn [ret]. munfold. rewrite Hrun.
    rewrite bool_decide_eq_true_2 by exact Hst.
    unfold Package_Name in Hnm. rewrite Hnm.
    eexists. split; [reflexivity|]. repeat split.
  - intros Hst Hupd. munfold. unfold bind at 1. cbn [ret]. munfold. rewrite Hrun.
    rewrite bool_decide_eq_false_2 by (intros X; apply X; exact Hst).
    unfold bind at 1. cbn [ret].
    destruct (fission_cli.updatePackage host pkg "" "" [] [] "" true false
                (log (OpPackageGet ns name) w)) as [[[pkg' r]|msg] w1] eqn:Hup.
    + pose proof Hup as Hw. apply updatePackage_written in Hw
        as (srcA & depA & meta & Hs & Hd & Hpkg' & -> & Hstored & _ & _).
      destruct srcA; [destruct Hs as [Hs _]; specialize (Hs (mk_is_Some _ _ eq_refl));
                      discriminate Hs|].
      destruct depA; [destruct Hd as [Hd _]; specialize (Hd (mk_is_Some _ _ eq_refl));
                      discriminate Hd|].
      rewrite Hns, Hnm in Hstored.
      munfold. rewrite (bind_val _ _ _ _ _ Hup).
      eexists _, _. split; [reflexivity|]. split; [exact Hstored|].
      rewrite Hpkg'. split; reflexivity.
    + exfalso. unfold fission_cli.updatePackage in Hup.
      change (nonempty "") with false in Hup. cbv beta iota zeta in Hup.
      change (has_items (@nil string)) with false in Hup. munfold.
      unfold bind at 1 2 in Hup. cbn [ret] in Hup. cbv beta iota zeta in Hup.
      destruct (PackageUpdate_run host
                  (set_Status (PackageStatus.mk BuildStatusPending "") pkg)
                  (log (OpPackageGet ns name) w) pkg) as (meta & w2 & Hrun2).
      * unfold Package_Namespace, Package_Name in *. cbn. rewrite Hns, Hnm. exact Hupd.
      * unfold Package_Namespace, Package_Name in *. cbn. rewrite Hns, Hnm. exact Hpkg.
      * reflexivity.
      * cbn [orb] in Hup. rewrite (bind_val _ _ _ _ _ Hrun2) in Hup. discriminate Hup.
  - intros w' H. munfold. unfold bind at 1 in H. cbn [ret] in H. munfold. rewrite Hrun in H.
    destruct (bool_decide _) eqn:Hdec.
    + discriminate H.
    + apply bool_decide_eq_false in Hdec. destruct (decide (Package_BuildStatus pkg = BuildStatusFailed)) as [E|E]; [exact E|].
      exfalso. apply Hdec. exact E.
Qed.

Lemma pkgRebuild_only_failed_witness :
  let c := Demo.args [("name", "broken")] [] [] in
  nonempty (cli.String c "name") = true
  /\ stored_package Demo.world "default" "broken"
     = Some (Demo.package "broken" BuildStatusFailed "exit status 1")
  /\ fault Demo.host (trace Demo.world) (OpPackageGet "default" "broken") = false
  /\ exists w' stored,
       fission_cli.pkgRebuild Demo.host c Demo.world = (Val None, w')
       /\ stored_package w' "default" "broken" = Some stored
       /\ Package.Status stored = PackageStatus.mk BuildStatusPending "".
Proof.
  intros c. split; [reflexivity|]. split; [reflexivity|]. split; [reflexivity|].
  destruct (pkgRebuild_only_failed Demo.host c Demo.world
              (Demo.package "broken" BuildStatusFailed "exit status 1")
              eq_refl eq_refl eq_refl) as (_ & H & _).
  destruct (H eq_refl eq_refl) as (w' & stored & H1 & H2 & H3 & _).
  exists w', stored. split; [exact H1|]. split; [exact H2 | exact H3].
Defined.

(** ** Claim C7: [pkgDelete] of a named package *)

Section Delete.
Variable host : Host.

Lemma fold_append_filter {A} (p : A -> bool) (l : list A) :
  forall acc, fold_left (fun fns fn => if p fn then (fns ++ [fn])%list else fns) l acc
              = (acc ++ List.filter p l)%list.
Proof.
  induction l as [|x l IH]; intros acc; simpl.
  - rewrite app_nil_r. reflexivity.
  - rewrite IH. destruct (p x); [|reflexivity]. rewrite <- app_assoc. reflexivity.
Qed.

Lemma getFunctionsByPackage_run pkgName pkgNamespace w :
  fission_cli.getFunctionsByPackage host pkgName pkgNamespace w
  = (Val (if fault host (trace w) (OpFunctionList pkgNamespace)
          then Err "control plane unreachable"
          else Ok (functionsReferencing w pkgName pkgNamespace)),
     log (OpFunctionList pkgNamespace) w).
Proof.
  unfold fission_cli.getFunctionsByPackage, client.FunctionList, functionsReferencing.
  run_prims. destruct (fault host (trace w) _); cbn [negb]; [reflexivity|].
  wsimpl. rewrite fold_append_filter. reflexivity.
Qed.

Lemma deletePackage_run pkgName pkgNamespace w :
  fission_cli.deletePackage host pkgName pkgNamespace w
  = if fault host (trace w) (OpPackageDelete pkgNamespace pkgName)
    then (Val (Some "control plane unreachable"),
          log (OpPackageDelete pkgNamespace pkgName) w)
    else match stored_package w pkgNamespace pkgName with
         | None => (Val (Some ("package " ++ pkgName ++ " not found")),
                    log (OpPackageDelete pkgNamespace pkgName) w)
         | Some _ =>
             (Val None,
              set_packages
                (List.filter (fun q => negb (client.is_package pkgNamespace pkgName q))
                   (packages w))
                (log (OpPackageDelete pkgNamespace pkgName) w))
         end.
Proof.
  unfold fission_cli.deletePackage, client.PackageDelete, stored_package.
  run_prims. cbn [ObjectMeta.Namespace ObjectMeta.Name].
  destruct (fault host (trace w) _); cbn [negb]; [reflexivity|]. wsimpl.
  destruct (find _ _); reflexivity.
Qed.

End Delete.

(** C7. [pkgDelete] of a named package (no orphan flag). Without force:
    whenever at least one function references the package, as
    [getFunctionsByPackage] finds them, the command does not succeed and the
    store is as before; when the package exists and the store answers, it
    exits with "Package is used by at least one function". With force: when
    the package exists and no call fails, the command succeeds, whatever
    functions reference it; and whenever it succeeds, the record is gone. *)
Theorem pkgDelete_guard host c w :
  let name := cli.String c "name" in
  let ns := cli.String c "pkgNamespace" in
  nonempty name = true ->
  cli.Bool c "orphan" = false ->
  (cli.Bool c "f" = false ->
   functionsReferencing w name ns <> [] ->
   (forall r w', fission_cli.pkgDelete host c w = (r, w') ->
                 r <> Val None /\ same_store w w')
   /\ (healthy host -> is_Some (stored_package w ns name) ->
       exists w',
         fission_cli.pkgDelete host c w
         = (Fatal "Package is used by at least one function, use -f to force delete", w')))
  /\ (cli.Bool c "f" = true ->
      (healthy host ->
       is_Some (stored_package w ns name) ->
       exists w', fission_cli.pkgDelete host c w = (Val None, w'))
      /\ (forall w', fission_cli.pkgDelete host c w = (Val None, w') ->
                     stored_package w' ns name = None)).
Proof.
  intros name ns Hname Horphan.
  assert (Hrun : fission_cli.pkgDelete host c w
    = (let w1 := log (OpPackageGet ns name) w in
       if fault host (trace w) (OpPackageGet ns name)
       then (Fatal ("Failed to find package: control plane unreachable"), w1)
       else match stored_package w ns name with
            | None => (Fatal ("Failed to find package: package " ++ name ++ " not found"), w1)
            | Some _ =>
                let w2 := log (OpFunctionList ns) w1 in
                if fault host (trace w1) (OpFunctionList ns)
                then (Val (Some "control plane unreachable"), w2)
                else
                  if negb (cli.Bool c "f") && has_items (functionsReferencing w name ns)
                  then (Fatal "Package is used by at least one function, use -f to force delete", w2)
                  else
                    match fission_cli.deletePackage host name ns w2 with
                    | (Val None, w3) =>
                        (Val None, log (OpPrint ("Package '" ++ name ++ "' deleted" ++ nl)) w3)
                    | (Val (Some err), w3) => (Val (Some err), w3)
                    | (Fatal msg, w3) => (Fatal msg, w3)
                    end
            end)).
  { unfold fission_cli.pkgDelete. fold name ns. rewrite Hname, Horphan.
    cbn [negb andb]. munfold. erewrite bind_val; [|apply PackageGet_run].
    destruct (fault host (trace w) (OpPackageGet ns name)); [reflexivity|].
    destruct (stored_package w ns name) as [p|]; [|reflexivity].
    unfold util.CheckErr at 1. unfold bind at 1. cbn [ret].
    erewrite bind_val; [|apply getFunctionsByPackage_run]. wsimpl.
    destruct (fault host _ (OpFunctionList ns)); [reflexivity|].
    change (functionsReferencing (log (OpPackageGet ns name) w) name ns)
      with (functionsReferencing w name ns).
    destruct (negb (cli.Bool c "f") && has_items (functionsReferencing w name ns));
      [reflexivity|].
    unfold bind at 1. cbn [ret]. unfold bind at 1.
    destruct (fission_cli.deletePackage host name ns _) as [[[e|]|msg] w3]; reflexivity. }
  split.
  - intros Hforce Href.
    assert (Hhas : has_items (functionsReferencing w name ns) = true)
      by (destruct (functionsReferencing w name ns); [contradiction|reflexivity]).
    rewrite Hforce, Hhas in Hrun. cbn [negb andb] in Hrun. split.
    + intros r w' H. rewrite Hrun in H. cbv zeta in H.
      destruct (fault host (trace w) _);
        [inversion H; subst; split; [discriminate | repeat split]|].
      destruct (stored_package w ns name);
        [|inversion H; subst; split; [discriminate | repeat split]].
      destruct (fault host _ _); inversion H; subst; split;
        first [discriminate | repeat split].
    + intros Hh [p Hp]. rewrite Hrun, Hp, !Hh. cbv zeta. eauto.
  - intros Hforce. rewrite Hforce in Hrun. cbn [negb andb] in Hrun. cbv zeta in Hrun.
    rewrite deletePackage_run in Hrun. split.
    + intros Hh [p Hp]. rewrite Hrun, Hp, !Hh. unfold stored_package in *. wsimpl.
      rewrite ?Hh, Hp. eauto.
    + intros w' H. rewrite Hrun in H.
      destruct (fault host (trace w) _); [discriminate H|].
      destruct (stored_package w ns name) as [p|] eqn:Hp; [|discriminate H].
      destruct (fault host _ (OpFunctionList ns)); [discriminate H|].
      destruct (fault host _ (OpPackageDelete ns name)); [discriminate H|].
      unfold stored_package in *. wsimpl. rewrite Hp in H. inversion H; subst.
      wsimpl. apply find_filter_negb.
Qed.

Lemma pkgDelete_guard_witness :
  let c := Demo.args [("name", "built")] [] [] in
  let forced := Demo.args [("name", "built")] [("f", true)] [] in
  nonempty (cli.String c "name") = true
  /\ cli.Bool c "orphan" = false
  /\ cli.Bool c "f" = false
  /\ cli.Bool forced "f" = true
  /\ functionsReferencing Demo.world "built" "default" <> []
  /\ healthy Demo.host
  /\ is_Some (stored_package Demo.world "default" "built")
  /\ (exists w',
        fission_cli.pkgDelete Demo.host c Demo.world
        = (Fatal "Package is used by at least one function, use -f to force delete", w')
        /\ same_store Demo.world w')
  /\ (exists w',
        fission_cli.pkgDelete Demo.host forced Demo.world = (Val None, w')
        /\ stored_package w' "default" "built" = None).
Proof.
  intros c forced.
  assert (Href : functionsReferencing Demo.world "built" "default" <> [])
    by (vm_compute; discriminate).
  assert (Hh : healthy Demo.host) by (intros ? ?; reflexivity).
  assert (Hp : is_Some (stored_package Demo.world "default" "built"))
    by (eexists; reflexivity).
  repeat (split; [first [reflexivity | assumption]|]).
  split.
  - destruct (pkgDelete_guard Demo.host c Demo.world eq_refl eq_refl) as [H _].
    destruct (H eq_refl Href) as [Hfail Hfatal].
    destruct (Hfatal Hh Hp) as [w' Hrun].
    exists w'. split; [exact Hrun|]. eapply Hfail. exact Hrun.
  - destruct (pkgDelete_guard Demo.host forced Demo.world eq_refl eq_refl) as [_ H].
    destruct (H eq_refl) as [Hruns Hgone]. destruct (Hruns Hh Hp) as [w' Hrun].
    exists w'. split; [exact Hrun | exact (Hgone w' Hrun)].
Defined.

(** ** Claim C9: input errors *)

(** The sibling commands exit on a missing name or on conflicting archive
    flags, before any call is made. *)
Lemma pkgUpdate_usage_errors_fatal host c w :
  (nonempty (cli.String c "name") = false ->
   fission_cli.pkgUpdate host c w = (Fatal "Need --name argument.", w))
  /\ (nonempty (cli.String c "name") = true ->
      has_items (cli.StringSlice c "src") = true ->
      has_items (cli.StringSlice c "deploy") = true ->
      fission_cli.pkgUpdate host c w
      = (Fatal "Need either of --src or --deploy and not both arguments.", w)).
Proof.
  unfold fission_cli.pkgUpdate. split.
  - intros ->. reflexivity.
  - intros -> -> ->. reflexivity.
Qed.

Lemma pkgRebuild_usage_error_fatal host c w :
  nonempty (cli.String c "name") = false ->
  fission_cli.pkgRebuild host c w = (Fatal "Need name of package, use --name", w).
Proof. unfold fission_cli.pkgRebuild. intros ->. reflexivity. Qed.

Lemma pkgCreate_usage_error_fatal host c w :
  nonempty (cli.String c "env") = false ->
  fission_cli.pkgCreate host c w = (Fatal "Need --env argument.", w).
Proof. unfold fission_cli.pkgCreate. intros ->. reflexivity. Qed.

(** A pattern that is not a URL and matches no file makes [createArchive]
    exit, whatever else it is given; the store is not touched. *)
Lemma checkFilesExistence_reports host includeFiles :
  forall errs w errs' w',
    fission_cli.checkFilesExistence host includeFiles errs w = (Val errs', w') ->
    disk w' = disk w
    /\ (has_items errs = true -> has_items errs' = true)
    /\ ((exists path, In path includeFiles /\ isHTTP path = false
                      /\ Glob host (disk w) path = []) ->
        has_items errs' = true).
Proof.
  induction includeFiles as [|path rest IH]; intros errs w errs' w' H; simpl in H.
  - inversion H; subst. split; [reflexivity|]. split; [auto|].
    intros (p & [] & _).
  - destruct (isHTTP path) eqn:Hp.
    + apply IH in H as (Hd & Hkeep & Hfind). split; [exact Hd|]. split; [exact Hkeep|].
      intros (p & [<-|Hin] & Hnot & Hglob); [congruence|]. apply Hfind. eauto.
    + minv H. minv H.
      unfold utils.FindAllGlobs in Hstep. prim_unfold Hstep. prim_cases Hstep.
      all: inversion Hstep; subst; clear Hstep.
      all: inversion Hstep0; subst; clear Hstep0.
      cbn [flat_map] in H. rewrite app_nil_r in H.
      destruct (Glob host (disk w) path) as [|m ms] eqn:Hglob; cbn [has_items] in H.
      * apply IH in H as (Hd & Hkeep & _). split; [exact Hd|].
        assert (Hnow : has_items errs' = true) by (apply Hkeep; destruct errs; reflexivity).
        split; auto.
      * apply IH in H as (Hd & Hkeep & Hfind). split; [exact Hd|]. split; [exact Hkeep|].
        intros (p & [<-|Hin] & Hnot & Hg); [congruence|]. apply Hfind. eauto.
Qed.

Lemma createArchive_no_match_fatal host includeFiles noZip specDir specFile w r w' :
  (exists path, In path includeFiles /\ isHTTP path = false
                /\ Glob host (disk w) path = []) ->
  fission_cli.createArchive host includeFiles noZip specDir specFile w = (r, w') ->
  (exists msg, r = Fatal msg) /\ same_store w w'.
Proof.
  intros Hex H. split; [|eapply createArchive_store; exact H].
  destruct r as [a|msg]; [exfalso|eauto].
  unfold fission_cli.createArchive in H. minv H.
  apply checkFilesExistence_reports in Hstep as (_ & _ & Hrep).
  rewrite (Hrep Hex) in H. minv H. discriminate Hstep.
Qed.

(** C9, the failing input. [pkgDelete] without a name and without the orphan
    flag, or with both, prints a hint and returns nil: the command reports
    success, where [pkgUpdate], [pkgRebuild] and [pkgCreate] exit on their
    input errors. *)
Theorem pkgDelete_usage_error_returns_nil host c w :
  (nonempty (cli.String c "name") = false -> cli.Bool c "orphan" = false ->
   fission_cli.pkgDelete host c w
   = (Val None, log (OpPrint ("Need --name argument or --orphan flag." ++ nl)) w))
  /\ (nonempty (cli.String c "name") = true -> cli.Bool c "orphan" = true ->
      fission_cli.pkgDelete host c w
      = (Val None, log (OpPrint ("Need either --name argument or --orphan flag" ++ nl)) w)).
Proof.
  unfold fission_cli.pkgDelete. split; intros -> ->; reflexivity.
Qed.

Lemma pkgDelete_usage_error_returns_nil_witness :
  let c := Demo.args [("name", "built")] [("orphan", true)] [] in
  nonempty (cli.String c "name") = true
  /\ cli.Bool c "orphan" = true
  /\ fission_cli.pkgDelete Demo.host c Demo.world
     = (Val None,
        log (OpPrint ("Need either --name argument or --orphan flag" ++ nl)) Demo.world).
Proof.
  intros c. split; [reflexivity|]. split; [reflexivity|].
  exact (proj2 (pkgDelete_usage_error_returns_nil Demo.host c Demo.world)
           eq_refl eq_refl).
Defined.

(** ** Claim C8: the orphan sweep *)

Lemma find_filter_other {A} (p g : A -> bool) (l : list A) :
  (forall y, p y = true -> g y = true) -> find p (List.filter g l) = find p l.
Proof.
  intros Hpg. induction l as [|a l IH]; simpl; [reflexivity|].
  destruct (g a) eqn:Hg; simpl.
  - destruct (p a); [reflexivity | exact IH].
  - destruct (p a) eqn:Hp; [|exact IH]. rewrite (Hpg a Hp) in Hg. discriminate.
Qed.

Lemma find_is_Some {A} (p : A -> bool) (l : list A) x :
  In x l -> p x = true -> is_Some (find p l).
Proof.
  intros Hx Hp. destruct (find p l) eqn:Hf; [eauto|].
  rewrite (find_none _ _ Hf x Hx) in Hp. discriminate.
Qed.

(** With one record per key, the listing of a namespace has one record per
    name, and every record of the listing is the stored one. *)
Lemma packages_in_names w ns :
  package_keys_unique w -> NoDup (map Package_Name (packages_in w ns)).
Proof.
  unfold package_keys_unique, packages_in.
  induction (packages w) as [|a l IH]; simpl; intros Hnd; [constructor|].
  apply NoDup_cons in Hnd as [Hfresh Hnd].
  destruct (String.eqb (Package_Namespace a) ns) eqn:Hns; [|apply IH; exact Hnd].
  simpl. apply NoDup_cons. split; [|apply IH; exact Hnd].
  intros Hin. apply Hfresh. apply list_elem_of_In in Hin. apply list_elem_of_In.
  apply in_map_iff in Hin as (q & Hname & Hq). apply filter_In in Hq as [Hq Hqns].
  apply in_map_iff. exists q. split; [|exact Hq].
  apply String.eqb_eq in Hns. apply String.eqb_eq in Hqns. congruence.
Qed.

Lemma packages_in_stored w ns p :
  In p (packages_in w ns) -> is_Some (stored_package w ns (Package_Name p)).
Proof.
  unfold packages_in. intros Hp. apply filter_In in Hp as [Hp Hns].
  apply String.eqb_eq in Hns. unfold stored_package.
  apply (find_is_Some _ _ p Hp). apply is_meta_true. split; [exact Hns | reflexivity].
Qed.

Section Sweep.
Variable host : Host.

Lemma without_nil ns l : without ns [] l = l.
Proof.
  unfold without. induction l as [|q l IH]; simpl; [reflexivity|]. f_equal. exact IH.
Qed.

Lemma without_cons ns p deleted l :
  without ns (p :: deleted) l
  = without ns deleted
      (List.filter (fun q => negb (client.is_package ns (Package_Name p) q)) l).
Proof.
  unfold without. induction l as [|q l IH]; simpl; [reflexivity|].
  destruct (client.is_package ns (Package_Name p) q); simpl; [exact IH|].
  destruct (existsb _ deleted); simpl; [exact IH | f_equal; exact IH].
Qed.

Lemma range_sweep ns l :
  forall w r w',
    fission_cli.deleteOrphanPkgs_range host ns l w = (r, w') ->
    exists deleted remaining,
      List.filter (is_orphan w ns) l = (deleted ++ remaining)%list
      /\ functions w' = functions w
      /\ packages w' = without ns deleted (packages w)
      /\ match r with
         | Val None =>
             remaining = []
             /\ delete_attempts (trace w')
                = (rev (map (sweep_key ns) deleted) ++ delete_attempts (trace w))%list
         | Val (Some e) =>
             exists p rest,
               remaining = p :: rest
               /\ (exists w0,
                     fission_cli.deletePackage host (Package_Name p) ns w0
                     = (Val (Some e), w'))
               /\ trace w' = OpPackageDelete ns (Package_Name p) :: tl (trace w')
               /\ delete_attempts (trace w')
                  = (sweep_key ns p :: rev (map (sweep_key ns) deleted)
                       ++ delete_attempts (trace w))%list
         | Fatal _ =>
             delete_attempts (trace w')
             = (rev (map (sweep_key ns) deleted) ++ delete_attempts (trace w))%list
         end.
Proof.
  induction l as [|pkg rest IH]; intros w r w' H.
  - inversion H; subst. exists [], []. rewrite without_nil. repeat split.
  - cbn [fission_cli.deleteOrphanPkgs_range] in H. munfold.
    erewrite bind_val in H; [|apply getFunctionsByPackage_run].
    cbn [List.filter]. unfold is_orphan at 1. fold (Package_Name pkg) in *.
    destruct (fault host (trace w) (OpFunctionList ns)).
    { inversion H; subst. exists [], (List.filter (is_orphan w ns) (pkg :: rest)).
      rewrite without_nil. repeat split. }
    unfold util.CheckErr at 1 in H. unfold bind at 1 in H. cbn [ret] in H.
    destruct (has_items (functionsReferencing w (Package_Name pkg) ns)); cbn [negb].
    { apply IH in H as (deleted & remaining & Hf & Hfn & Hpk & Hr).
      exists deleted, remaining. repeat split; assumption. }
    unfold bind at 1 in H.
    pose proof (deletePackage_run host (Package_Name pkg) ns
                  (log (OpFunctionList ns) w)) as Hdel.
    rewrite Hdel in H.
    destruct (fault host _ (OpPackageDelete ns (Package_Name pkg))).
    { inversion H; subst.
      exists [], (pkg :: List.filter (is_orphan w ns) rest).
      rewrite without_nil. repeat split. eexists _, _.
      split; [reflexivity|]. split; [eexists; exact Hdel|]. repeat split. }
    destruct (stored_package _ ns (Package_Name pkg)).
    2:{ inversion H; subst.
        exists [], (pkg :: List.filter (is_orphan w ns) rest).
        rewrite without_nil. repeat split. eexists _, _.
        split; [reflexivity|]. split; [eexists; exact Hdel|]. repeat split. }
    clear Hdel.
    apply IH in H as (deleted & remaining & Hf & Hfn & Hpk & Hr).
    exists (pkg :: deleted), remaining. split; [cbn; rewrite <- Hf; reflexivity|].
    split; [exact Hfn|]. split; [rewrite without_cons; exact Hpk|].
    destruct r as [[e|]|msg]; cbn [map rev]; rewrite <- ?app_assoc.
    + destruct Hr as (p & rest' & -> & Hret & Hlast & Hatt). exists p, rest'.
      split; [reflexivity|]. split; [exact Hret|]. split; assumption.
    + destruct Hr as [-> Hatt]. split; [reflexivity | exact Hatt].
    + exact Hr.
Qed.

(** Why the loop stops early: a listing of the functions failed, which
    ends the process, or the deletion of a package failed. A package of
    the listing is stored when its turn comes, so that its deletion fails
    only when the call does. *)
Lemma range_stops ns l :
  forall w r w',
    NoDup (map Package_Name l) ->
    (forall p, In p l -> is_Some (stored_package w ns (Package_Name p))) ->
    fission_cli.deleteOrphanPkgs_range host ns l w = (r, w') ->
    match r with
    | Val None => True
    | Val (Some _) =>
        exists name,
          trace w' = OpPackageDelete ns name :: tl (trace w')
          /\ fault host (tl (trace w')) (OpPackageDelete ns name) = true
    | Fatal _ =>
        trace w' = OpFunctionList ns :: tl (trace w')
        /\ fault host (tl (trace w')) (OpFunctionList ns) = true
    end.
Proof.
  induction l as [|pkg rest IH]; intros w r w' Hnd Hst H.
  - inversion H; subst. exact I.
  - apply NoDup_cons in Hnd as [Hfresh Hnd].
    cbn [fission_cli.deleteOrphanPkgs_range] in H. munfold.
    erewrite bind_val in H; [|apply getFunctionsByPackage_run].
    fold (Package_Name pkg) in *.
    destruct (fault host (trace w) (OpFunctionList ns)) eqn:Hlist.
    { inversion H; subst. split; [reflexivity | exact Hlist]. }
    unfold util.CheckErr at 1 in H. unfold bind at 1 in H. cbn [ret] in H.
    destruct (has_items (functionsReferencing w (Package_Name pkg) ns)).
    { apply IH in H; [exact H | exact Hnd |].
      intros p Hp. apply Hst. right. exact Hp. }
    unfold bind at 1 in H.
    pose proof (deletePackage_run host (Package_Name pkg) ns
                  (log (OpFunctionList ns) w)) as Hdel.
    rewrite Hdel in H. clear Hdel.
    destruct (fault host _ (OpPackageDelete ns (Package_Name pkg))) eqn:Hcall.
    { inversion H; subst. exists (Package_Name pkg). split; [reflexivity | exact Hcall]. }
    change (stored_package (log (OpFunctionList ns) w) ns (Package_Name pkg))
      with (stored_package w ns (Package_Name pkg)) in H.
    destruct (stored_package w ns (Package_Name pkg)) eqn:Hhead.
    2:{ destruct (Hst pkg (or_introl eq_refl)) as [x Hx]. congruence. }
    apply IH in H; [exact H | exact Hnd |].
    intros p Hp. unfold stored_package. cbn [packages set_packages log].
    rewrite find_filter_other; [apply Hst; right; exact Hp|].
    intros y Hy. apply negb_true_iff. apply not_true_is_false. intros Hk.
    apply is_meta_true in Hy as [_ Hy]. apply is_meta_true in Hk as [_ Hk].
    apply Hfresh. rewrite <- Hk, Hy. apply list_elem_of_In, in_map, Hp.
Qed.

End Sweep.

Lemma NoDup_map_inj_on {A B} (f : A -> B) (l : list A) x y :
  NoDup (map f l) -> In x l -> In y l -> f x = f y -> x = y.
Proof.
  induction l as [|a l IH]; simpl; intros Hnd Hx Hy Hf; [contradiction|].
  apply NoDup_cons in Hnd as [Hna Hnd].
  destruct Hx as [<-|Hx], Hy as [<-|Hy]; auto.
  - exfalso. apply Hna. rewrite Hf. apply list_elem_of_In, in_map, Hy.
  - exfalso. apply Hna. rewrite <- Hf. apply list_elem_of_In, in_map, Hx.
Qed.

Lemma find_filter_none {A} (f g : A -> bool) (l : list A) :
  (forall q, f q = true -> g q = false) -> find f (List.filter g l) = None.
Proof.
  intros Hfg. induction l as [|q l IH]; simpl; [reflexivity|].
  destruct (g q) eqn:Hg; [|exact IH]. simpl. destruct (f q) eqn:Hf; [|exact IH].
  rewrite (Hfg q Hf) in Hg. discriminate.
Qed.

(** C8. The orphan sweep works through the orphans of the namespace in the
    order of the listing: the packages it has deleted are a prefix of that
    list, their records are gone, and every other record is still stored, in
    particular every package that a function references. Its deletion calls
    are exactly those for the deleted packages, followed, when a deletion
    fails, by the failed one, which is the last call made: the sweep ends in
    the state that deletion left, returns the error that deletion returned,
    and the orphans after it are still stored. The sweep stops early for no
    other reason than a call that failed: the listing of the packages, with
    nothing deleted; the deletion of the next orphan; or a listing of the
    functions, which ends the process. When it returns nil, every orphan has
    been deleted, and it returns nil whenever no call fails. *)
Theorem deleteOrphanPkgs_sweep host ns w r w' :
  package_keys_unique w ->
  fission_cli.deleteOrphanPkgs host ns w = (r, w') ->
  (exists deleted remaining,
    orphans w ns = (deleted ++ remaining)%list
    /\ (forall p, In p deleted -> stored_package w' ns (Package_Name p) = None)
    /\ (forall p, In p (packages w) -> ~ In p deleted -> In p (packages w'))
    /\ (forall p, In p (packages w) -> is_orphan w ns p = false -> In p (packages w'))
    /\ functions w' = functions w
    /\ match r with
       | Val None =>
           remaining = []
           /\ delete_attempts (trace w')
              = (rev (map (sweep_key ns) deleted) ++ delete_attempts (trace w))%list
       | Val (Some e) =>
           (fault host (trace w) (OpPackageList ns) = true
            /\ client.PackageList host ns w = (Val (Err e), w')
            /\ deleted = [] /\ w' = log (OpPackageList ns) w)
           \/ (exists p rest,
                 remaining = p :: rest
                 /\ fault host (tl (trace w')) (OpPackageDelete ns (Package_Name p)) = true
                 /\ (exists w0,
                       fission_cli.deletePackage host (Package_Name p) ns w0
                       = (Val (Some e), w'))
                 /\ trace w' = OpPackageDelete ns (Package_Name p) :: tl (trace w')
                 /\ delete_attempts (trace w')
                    = (sweep_key ns p :: rev (map (sweep_key ns) deleted)
                         ++ delete_attempts (trace w))%list)
       | Fatal _ =>
           fault host (tl (trace w')) (OpFunctionList ns) = true
           /\ trace w' = OpFunctionList ns :: tl (trace w')
           /\ delete_attempts (trace w')
              = (rev (map (sweep_key ns) deleted) ++ delete_attempts (trace w))%list
       end)
  /\ (healthy host -> r = Val None).
Proof.
  intros Hnd H.
  match goal with |- ?main /\ _ => assert (Hmain : main) end.
  2:{ split; [exact Hmain|]. intros Hh.
      destruct Hmain as (deleted & remaining & _ & _ & _ & _ & _ & Hr).
      destruct r as [[e|]|msg]; [| reflexivity |].
      - destruct Hr as [(Hf & _) | (p & rest & _ & Hf & _)];
          rewrite Hh in Hf; discriminate.
      - destruct Hr as (Hf & _). rewrite Hh in Hf. discriminate. }
  assert (Hlisting : fault host (trace w) (OpPackageList ns) = true ->
                     client.PackageList host ns w
                     = (Val (Err "control plane unreachable"), log (OpPackageList ns) w)).
  { intros Hlist. unfold client.PackageList. munfold. unfold bind at 1.
    unfold attempt, get, ret. cbv beta iota zeta. rewrite Hlist. reflexivity. }
  unfold fission_cli.deleteOrphanPkgs, client.PackageList in H.
  munfold. unfold bind at 1 2 in H. unfold attempt, get, ret in H.
  cbv beta iota zeta in H.
  destruct (fault host (trace w) (OpPackageList ns)) eqn:Hlist; cbn [negb] in H.
  { inversion H; subst. exists [], (orphans w ns). split; [reflexivity|].
    split; [intros p []|]. split; [auto|]. split; [auto|]. split; [reflexivity|].
    left. split; [reflexivity|]. split; [apply Hlisting; reflexivity|].
    split; reflexivity. }
  clear Hlisting.
  unfold bind at 1 in H. cbv beta iota zeta in H. wsimpl.
  pose proof H as Hcause. apply range_stops in Hcause;
    [| exact (packages_in_names w ns Hnd)
     | intros p Hp; exact (packages_in_stored w ns p Hp) ].
  apply range_sweep in H as (deleted & remaining & Hf & Hfn & Hpk & Hr).
  change (List.filter (is_orphan (log (OpPackageList ns) w) ns)
            (List.filter
               (fun p => String.eqb (ObjectMeta.Namespace (Package.Metadata p)) ns)
               (packages w)))
    with (orphans w ns) in Hf.
  wsimpl.
  assert (Hdel : forall d, In d deleted ->
                   In d (packages w) /\ Package_Namespace d = ns /\ is_orphan w ns d = true).
  { intros d Hd. assert (Ho : In d (orphans w ns)) by (rewrite Hf; apply in_or_app; auto).
    unfold orphans, packages_in in Ho. apply filter_In in Ho as [Ho Horph].
    apply filter_In in Ho as [Ho Hns]. apply String.eqb_eq in Hns. auto. }
  assert (Hstay : forall p, In p (packages w) -> ~ In p deleted -> In p (packages w')).
  { intros p Hp Hnot. rewrite Hpk. unfold without. apply filter_In. split; [exact Hp|].
    apply negb_true_iff. apply not_true_is_false. intros Hex.
    apply existsb_exists in Hex as (d & Hd & Hkey).
    destruct (Hdel d Hd) as (Hdin & Hdns & _).
    apply is_meta_true in Hkey as [Hk1 Hk2].
    apply Hnot. replace p with d; [exact Hd|].
    eapply NoDup_map_inj_on; [exact Hnd | exact Hdin | exact Hp |].
    unfold Package_Namespace, Package_Name in *. rewrite Hk1, Hk2, Hdns. reflexivity. }
  exists deleted, remaining. split; [exact Hf|]. split.
  { intros p Hp. unfold stored_package. rewrite Hpk. unfold without.
    apply find_filter_none. intros q Hq. apply negb_false_iff.
    apply existsb_exists. exists p. split; [exact Hp | exact Hq]. }
  split; [exact Hstay|]. split.
  { intros p Hp Hno. apply Hstay; [exact Hp|]. intros Hd.
    destruct (Hdel p Hd) as (_ & _ & Ho). congruence. }
  split; [exact Hfn|].
  destruct r as [[e|]|msg].
  - right. destruct Hr as (p & rest & Hrem & Hret & Hlast & Hatt).
    destruct Hcause as (name & Hlast' & Hfault).
    exists p, rest. split; [exact Hrem|]. split.
    { rewrite Hlast in Hlast'. inversion Hlast' as [Hname]. rewrite Hname. exact Hfault. }
    split; [exact Hret|]. split; [exact Hlast | exact Hatt].
  - exact Hr.
  - destruct Hcause as (Hlast & Hfault).
    split; [exact Hfault|]. split; [exact Hlast | exact Hr].
Qed.

Lemma deleteOrphanPkgs_sweep_witness :
  package_keys_unique Demo.world
  /\ exists w',
       fission_cli.deleteOrphanPkgs Demo.flaky "default" Demo.world
       = (Val (Some "control plane unreachable"), w')
       /\ exists deleted p rest,
            orphans Demo.world "default" = (deleted ++ p :: rest)%list
            /\ (forall d, In d deleted -> stored_package w' "default" (Package_Name d) = None)
            /\ (forall q, In q (packages Demo.world) -> ~ In q deleted ->
                          In q (packages w'))
            /\ trace w' = OpPackageDelete "default" (Package_Name p) :: tl (trace w').
Proof.
  assert (Hnd : package_keys_unique Demo.world).
  { unfold package_keys_unique. apply (bool_decide_unpack _). vm_compute. exact I. }
  split; [exact Hnd|].
  eexists. split; [vm_compute; reflexivity|].
  edestruct (deleteOrphanPkgs_sweep Demo.flaky "default" Demo.world) as
    ((deleted & remaining & Hf & Hgone & Hstay & _ & _ & Hr) & _);
    [exact Hnd | vm_compute; reflexivity |].
  cbv beta iota in Hr.
  destruct Hr as [(Hfault & _) | (p & rest & -> & _ & _ & Hlast & _)].
  - vm_compute in Hfault. discriminate Hfault.
  - exists deleted, p, rest. split; [exact Hf|]. split; [exact Hgone|].
    split; [exact Hstay | exact Hlast].
Defined.

(** ** Claim C6: the fan-out of [pkgUpdate] *)

Lemma find_replace_other {A} (p q : A -> bool) (x : A) (l : list A) :
  p x = false -> (forall y, q y = true -> p y = false) ->
  find p (map (fun y => if q y then x else y) l) = find p l.
Proof.
  intros Hx Hpq. induction l as [|y l IH]; simpl; [reflexivity|].
  destruct (q y) eqn:Hq.
  - rewrite Hx, (Hpq y Hq). exact IH.
  - destruct (p y); [reflexivity | exact IH].
Qed.

Lemma find_unique {A B} (key : A -> B) (p : A -> bool) (l : list A) x :
  NoDup (map key l) -> In x l -> p x = true ->
  (forall y, p y = true -> key y = key x) ->
  find p l = Some x.
Proof.
  intros Hnd Hin Hpx Hp. destruct (find p l) as [y|] eqn:Hf.
  - apply find_some in Hf as [Hy Hpy]. f_equal.
    eapply NoDup_map_inj_on; eauto.
  - exfalso. eapply find_none in Hf; [|exact Hin]. congruence.
Qed.

Lemma NoDup_map_filter {A B} (key : A -> B) (p : A -> bool) (l : list A) :
  NoDup (map key l) -> NoDup (map key (List.filter p l)).
Proof.
  induction l as [|x l IH]; simpl; intros Hnd; [constructor|].
  apply NoDup_cons in Hnd as [Hx Hnd]. destruct (p x); simpl; [|auto].
  apply NoDup_cons. split; [|auto]. intros Hin. apply Hx.
  apply list_elem_of_In in Hin. apply list_elem_of_In.
  apply in_map_iff in Hin as (y & Hy & Hin). apply in_map_iff. exists y.
  apply filter_In in Hin as [Hin _]. auto.
Qed.

Section Fanout.
Variable host : Host.

Lemma is_function_key ns name f :
  client.is_function ns name f = true <-> function_key f = (ns, name).
Proof.
  unfold client.is_function, function_key. rewrite is_meta_true. split.
  - intros [-> ->]. reflexivity.
  - intros H. inversion H. auto.
Qed.

Lemma untouched_stored w fn :
  function_keys_unique w -> In fn (functions w) -> untouched w fn.
Proof.
  intros Hnd Hin. unfold untouched, stored_function.
  eapply (find_unique function_key); [exact Hnd | exact Hin | |].
  - apply is_function_key. reflexivity.
  - intros y Hy. apply is_function_key in Hy. exact Hy.
Qed.

(** A write of a function record either fails and leaves the store as it
    was, or replaces the record found under its key. *)
Lemma FunctionUpdate_inv fn w r w' :
  client.FunctionUpdate host fn w = (r, w') ->
  let ns := fst (function_key fn) in
  let name := snd (function_key fn) in
  trace w' = OpFunctionUpdate ns name :: trace w
  /\ packages w' = packages w
  /\ ((exists e, r = Val (Err e) /\ functions w' = functions w)
      \/ (exists meta stored,
            r = Val (Ok meta)
            /\ stored = set_Function_ResourceVersion
                          (client.version_of (S (revision w))) fn
            /\ stored_function w' ns name = Some stored
            /\ forall ns' name',
                 (ns', name') <> (ns, name) ->
                 stored_function w' ns' name' = stored_function w ns' name')).
Proof.
  unfold client.FunctionUpdate, stored_function. intros H. prim_unfold H.
  cbn [function_key fst snd].
  destruct (fault host _ _); cbn [negb] in H;
    [inversion H; subst; repeat split; left; eauto|].
  wsimpl. destruct (find _ (functions w)) as [old|] eqn:Hfind;
    [|inversion H; subst; repeat split; left; eauto].
  destruct (String.eqb _ _); inversion H; subst; clear H;
    [|repeat split; left; eauto].
  wsimpl. split; [reflexivity|]. split; [reflexivity|]. right.
  eexists _, _. split; [reflexivity|]. split; [reflexivity|]. split.
  - apply find_replace; [|rewrite Hfind; eauto].
    apply is_function_key. reflexivity.
  - intros ns' name' Hne. apply find_replace_other.
    + apply not_true_is_false. intros Hk. apply is_function_key in Hk.
      apply Hne. symmetry. exact Hk.
    + intros y Hy. apply not_true_is_false. intros Hk.
      apply is_function_key in Hy, Hk. apply Hne. congruence.
Qed.

(** The loop of [pkgUpdate] updates the functions in order and stops at the
    first update that fails. *)
Lemma updateFunctions_spec meta fnList :
  forall w r w',
    NoDup (map function_key fnList) ->
    (forall fn, In fn fnList -> untouched w fn) ->
    fission_cli.updateFunctions host fnList meta w = (r, w') ->
    exists done rest,
      fnList = (done ++ rest)%list
      /\ packages w' = packages w
      /\ (forall fn, In fn done -> synced w' (ObjectMeta.ResourceVersion meta) fn)
      /\ (forall ns name, ~ In (ns, name) (map function_key done) ->
                          stored_function w' ns name = stored_function w ns name)
      /\ match r with
         | Val _ => rest = []
         | Fatal msg =>
             exists fn rest' e,
               rest = fn :: rest'
               /\ msg = "Failed to update function: " ++ e
               /\ trace w'
                  = OpFunctionUpdate (fst (function_key fn)) (snd (function_key fn))
                      :: tl (trace w')
         end.
Proof.
  induction fnList as [|fn rest IH]; intros w r w' Hnd Hall H.
  - inversion H; subst. exists [], []. split; [reflexivity|]. split; [reflexivity|].
    split; [intros fn []|]. split; [reflexivity | reflexivity].
  - cbn [fission_cli.updateFunctions] in H. cbv zeta in H. minv H;
      [|exfalso; apply FunctionUpdate_inv in Hstep as (_ & _ & [(e & He & _) |
                (m & s & He & _)]); discriminate He].
    pose proof Hstep as Hupd.
    apply FunctionUpdate_inv in Hupd as (Htr & Hpk & Hcase).
    cbn [map] in Hnd. apply NoDup_cons in Hnd as [Hfresh Hnd].
    change (function_key (set_PackageRef_ResourceVersion
                            (ObjectMeta.ResourceVersion meta) fn))
      with (function_key fn) in *.
    destruct Hcase as [(e & He & Hfn) | (m & stored & He & Hst & Hfind & Hother)];
      inversion He; subst a; clear He.
    + (* the update failed: exit *)
      cbn [util.CheckErr] in H. munfold. unfold bind, log_.Fatal in H.
      inversion H; subst. exists [], (fn :: rest). split; [reflexivity|].
      split; [exact Hpk|]. split; [intros g []|]. split.
      { intros ns name _. unfold stored_function. rewrite Hfn. reflexivity. }
      exists fn, rest, e. split; [reflexivity|]. split; [reflexivity|].
      rewrite Htr. reflexivity.
    + (* the update went through: next function *)
      cbn [util.CheckErr] in H. munfold. unfold bind at 1 in H. cbn [ret] in H.
      apply IH in H as (done & rest' & -> & Hpk' & Hsync & Hkeep & Hr);
        [|exact Hnd|].
      * exists (fn :: done), rest'. split; [reflexivity|].
        split; [congruence|]. split.
        { intros g [Hg|Hg]; [subst g|apply Hsync; exact Hg].
          exists stored. split.
          - destruct (function_key fn) as [ns name] eqn:Hk. cbn [fst snd] in *.
            rewrite Hkeep; [exact Hfind|].
            intros Hin. apply Hfresh. rewrite map_app. apply list_elem_of_In.
            apply in_or_app. left. exact Hin.
          - rewrite Hst. reflexivity. }
        split.
        { intros ns name Hnot. rewrite Hkeep.
          - apply Hother. intros Hk. apply Hnot. left.
            destruct (function_key fn). cbn [fst snd] in Hk. congruence.
          - intros Hin. apply Hnot. right. exact Hin. }
        exact Hr.
      * intros g Hg. unfold untouched. rewrite Hother; [apply Hall; right; exact Hg|].
        intros Hk. apply Hfresh. apply list_elem_of_In. apply in_map_iff.
        exists g. split; [|exact Hg].
        destruct (function_key g), (function_key fn). cbn [fst snd] in Hk. congruence.
Qed.

End Fanout.

(** One step of a run, with names for what it binds. *)
Ltac mstep H a w1 H1 :=
  munfold; apply bind_inv in H as [(a & w1 & H1 & H) | (? & H1 & H)].

Lemma advance {A} (m : M A) w0 w r w' :
  same_store w0 w -> m w = (r, w') -> keeps same_store m -> same_store w0 w'.
Proof. intros Hs H Hk. eapply same_store_trans; [exact Hs | eapply Hk; exact H]. Qed.

(** The run exited at a step that does not write to the store. *)
Ltac early H H1 S :=
  left; eexists; split; [exact H|];
  eapply (advance _ _ _ _ _ S H1); frame_with same_store_host_side.

Section PkgUpdate.
Variable host : Host.

Lemma PackageGet_ok m w p w' :
  client.PackageGet host m w = (Val (Ok p), w') ->
  stored_package w (ObjectMeta.Namespace m) (ObjectMeta.Name m) = Some p
  /\ w' = log (OpPackageGet (ObjectMeta.Namespace m) (ObjectMeta.Name m)) w.
Proof.
  destruct m as [name ns rv]. rewrite PackageGet_run. cbn [ObjectMeta.Namespace ObjectMeta.Name].
  destruct (fault host _ _); [discriminate|].
  destruct (stored_package w ns name); intros H; inversion H; subst. auto.
Qed.

Lemma getFunctionsByPackage_ok pkgName pkgNamespace w fnList w' :
  fission_cli.getFunctionsByPackage host pkgName pkgNamespace w = (Val (Ok fnList), w') ->
  fnList = functionsReferencing w pkgName pkgNamespace
  /\ w' = log (OpFunctionList pkgNamespace) w.
Proof.
  rewrite getFunctionsByPackage_run. destruct (fault host _ _); [discriminate|].
  intros H; inversion H; subst. auto.
Qed.

(** [pkgUpdate] either exits before anything is written, or writes the
    package and then runs the loop over the functions found for it. *)
Lemma pkgUpdate_inv c w r w' :
  fission_cli.pkgUpdate host c w = (r, w') ->
  let name := cli.String c "name" in
  let ns := cli.String c "pkgNamespace" in
  (exists msg, r = Fatal msg /\ same_store w w')
  \/ (exists pkg w0 pkg' meta w1 r1 w2,
        stored_package w ns name = Some pkg
        /\ same_store w w0
        /\ fission_cli.updatePackage host pkg
             (passed_envName c pkg) (passed_envNamespace c pkg)
             (cli.StringSlice c "src") (cli.StringSlice c "deploy")
             (cli.String c "buildcmd") false false w0 = (Val (pkg', Ok meta), w1)
        /\ fission_cli.updateFunctions host (functionsReferencing w name ns) meta w1
           = (r1, w2)
        /\ match r1 with
           | Val _ =>
               r = Val None
               /\ w' = log (OpPrint ("Package '" ++ ObjectMeta.Name meta
                                     ++ "' updated" ++ nl)) w2
           | Fatal msg => r = Fatal msg /\ w' = w2
           end).
Proof.
  intros H name ns. unfold fission_cli.pkgUpdate in H. fold name ns in H.
  (* the three checks of the flags *)
  mstep H u1 w1 H1; [|early H H1 (same_store_refl w)].
  assert (S1 := advance _ _ _ _ _ (same_store_refl w) H1 ltac:(frame_with same_store_host_side)).
  mstep H u2 w2 H2; [|early H H2 S1].
  assert (S2 := advance _ _ _ _ _ S1 H2 ltac:(frame_with same_store_host_side)).
  mstep H u3 w3 H3; [|early H H3 S2].
  assert (S3 := advance _ _ _ _ _ S2 H3 ltac:(frame_with same_store_host_side)).
  (* get package *)
  mstep H rp w4 H4; [|early H H4 S3].
  assert (S4 := advance _ _ _ _ _ S3 H4 ltac:(frame_with same_store_host_side)).
  mstep H pkg w5 H5; [|early H H5 S4].
  assert (S5 := advance _ _ _ _ _ S4 H5 ltac:(frame_with same_store_host_side)).
  destruct rp as [p|e]; inversion H5; subst p w5. clear H5.
  apply PackageGet_ok in H4 as [Hpkg ->]. cbn [ObjectMeta.Namespace ObjectMeta.Name] in Hpkg.
  assert (Hpkg0 : stored_package w ns name = Some pkg).
  { unfold stored_package in *. destruct S3 as (Hp3 & _). rewrite <- Hp3. exact Hpkg. }
  clear Hpkg. rename Hpkg0 into Hpkg.
  destruct (stored_package_key _ _ _ _ Hpkg) as [Hns Hnm].
  unfold Package_Namespace, Package_Name in Hns, Hnm. rewrite Hns, Hnm in H.
  (* get function list *)
  mstep H rf w6 H6; [|early H H6 S5].
  assert (S6 := advance _ _ _ _ _ S5 H6 ltac:(frame_with same_store_host_side)).
  mstep H fnList w7 H7; [|early H H7 S6].
  destruct rf as [fl|e]; inversion H7; subst fl w7. clear H7.
  apply getFunctionsByPackage_ok in H6 as [Hfl Hw6].
  assert (Hfl' : fnList = functionsReferencing w name ns).
  { rewrite Hfl. unfold functionsReferencing. cbn [functions log].
    destruct S3 as (_ & Hf3 & _). rewrite Hf3. reflexivity. }
  clear Hfl. subst fnList.
  mstep H u8 w8 H8; [|early H H8 S6].
  assert (S8 := advance _ _ _ _ _ S6 H8 ltac:(frame_with same_store_host_side)).
  (* update package *)
  mstep H up w9 H9.
  2:{ left. eexists. split; [exact H|]. eapply same_store_trans; [exact S8|].
      eapply updatePackage_fatal_store. exact H9. }
  destruct up as [pkg' ru].
  pose proof H9 as Hwr. apply updatePackage_written in Hwr
    as (_ & _ & meta & _ & _ & _ & -> & _).
  mstep H m w10 H10; [|discriminate H10]. inversion H10; subst m w10. clear H10.
  right. exists pkg, w8, pkg', meta, w9.
  mstep H u11 w11 H11.
  - exists (Val u11), w11. split; [exact Hpkg|]. split; [exact S8|].
    split; [exact H9|]. split; [exact H11|].
    munfold. unfold bind, fmt.Printf, modify, ret in H. inversion H; subst. auto.
  - eexists (Fatal _), w'. split; [exact Hpkg|]. split; [exact S8|].
    split; [exact H9|]. split; [exact H11|]. auto.
Qed.

Lemma updateFunctions_packages meta fnList :
  forall w r w',
    fission_cli.updateFunctions host fnList meta w = (r, w') ->
    packages w' = packages w.
Proof.
  induction fnList as [|fn rest IH]; intros w r w' H.
  - inversion H; subst. reflexivity.
  - cbn [fission_cli.updateFunctions] in H. cbv zeta in H.
    mstep H a w1 H1;
      [|apply FunctionUpdate_inv in H1 as (_ & Hpk & _); exact Hpk].
    apply FunctionUpdate_inv in H1 as (_ & Hpk & _).
    mstep H b w2 H2.
    + destruct a; inversion H2; subst. apply IH in H. congruence.
    + destruct a; inversion H2; subst. exact Hpk.
Qed.

(** [pkgUpdate] on a changed environment name, a changed environment
    namespace, a build command or a source archive, without a deployment
    archive: unless the command exits before anything is written, the
    stored package is pending afterwards, whatever happens to the
    functions. *)
Lemma pkgUpdate_rebuild_owed c w r w' pkg :
  let name := cli.String c "name" in
  let ns := cli.String c "pkgNamespace" in
  fission_cli.pkgUpdate host c w = (r, w') ->
  stored_package w ns name = Some pkg ->
  nonempty (passed_envName c pkg) || nonempty (passed_envNamespace c pkg)
  || nonempty (cli.String c "buildcmd") || has_items (cli.StringSlice c "src") = true ->
  has_items (cli.StringSlice c "deploy") = false ->
  (exists msg, r = Fatal msg /\ same_store w w')
  \/ (exists stored,
        stored_package w' ns name = Some stored
        /\ Package.Status stored = PackageStatus.mk BuildStatusPending "").
Proof.
  intros name ns H Hpkg Htrig Hdep. apply pkgUpdate_inv in H. fold name ns in H.
  destruct H as [H | (pkg0 & w0 & pkg' & meta & w1 & r1 & w2
                       & Hpkg0 & _ & Hup & Hloop & Hr)]; [left; exact H | right].
  rewrite Hpkg in Hpkg0. inversion Hpkg0; subst pkg0. clear Hpkg0.
  destruct (stored_package_key _ _ _ _ Hpkg) as [Hns Hnm].
  apply updatePackage_written in Hup
    as (srcA & depA & m & _ & _ & Hp & _ & Hst & _ & _).
  rewrite Hns, Hnm in Hst. apply updateFunctions_packages in Hloop.
  eexists. split.
  - unfold stored_package in *.
    assert (Hw : packages w' = packages w2)
      by (destruct r1; destruct Hr as [_ ->]; reflexivity).
    rewrite Hw, Hloop. exact Hst.
  - cbn. rewrite Hp, assigned_Status. unfold needToBuild_of. rewrite Hdep, Htrig.
    reflexivity.
Qed.

End PkgUpdate.

Lemma NoDup_app_disjoint {A} (l k : list A) x :
  NoDup (l ++ k) -> In x k -> ~ In x l.
Proof.
  intros Hnd Hk Hl. apply NoDup_app in Hnd as (_ & Hdis & _).
  apply (Hdis x); apply list_elem_of_In; assumption.
Qed.

(** C6, counterexample. Two functions, "f" and "g", reference the package
    "built". The package is updated, the update of "f" fails, and the command
    exits: "g" keeps the old resource version and its update is never
    attempted. *)
Lemma fanout_stops_at_first_failure :
  ~ fanout_complete Demo.shaky
      (Demo.args [("name", "built"); ("env", "nodejs")] [("f", true)] [])
      Demo.world.
Proof.
  intros H. red in H.
  destruct (fission_cli.pkgUpdate Demo.shaky _ Demo.world) as [r w'] eqn:Hrun.
  pose proof Hrun as Hc. vm_compute in Hc. inversion Hc; subst r w'. clear Hc.
  edestruct H as [(stored & Hs & Hrv) | Hin].
  - exact Hrun.
  - vm_compute. reflexivity.
  - vm_compute. reflexivity.
  - vm_compute. discriminate.
  - right. left. reflexivity.
  - reflexivity.
  - reflexivity.
  - vm_compute in Hs. inversion Hs; subst stored. vm_compute in Hrv. discriminate Hrv.
  - vm_compute in Hin. intuition discriminate.
Qed.

(** C6, amended. [pkgUpdate] either exits before anything is written, or
    writes the package and then updates, in the order of the listing, the
    functions listed in the namespace of the package whose package reference
    carries its name. Those updated carry the new resource version of the
    package. The command succeeds when all of them were updated; at the first
    update that fails it exits with "Failed to update function", that update
    being the last call made: the functions after it are as they were, and
    the package stays written. *)
Theorem pkgUpdate_fanout host c w r w' :
  function_keys_unique w ->
  fission_cli.pkgUpdate host c w = (r, w') ->
  let name := cli.String c "name" in
  let ns := cli.String c "pkgNamespace" in
  (exists msg, r = Fatal msg /\ same_store w w')
  \/ (exists new done rest,
        stored_package w' ns name = Some new
        /\ functionsReferencing w name ns = (done ++ rest)%list
        /\ (forall fn, In fn done ->
                       synced w' (ObjectMeta.ResourceVersion (Package.Metadata new)) fn)
        /\ (forall fn, In fn rest -> untouched w' fn)
        /\ match r with
           | Val None => rest = []
           | Val (Some _) => False
           | Fatal msg =>
               exists fn rest' e,
                 rest = fn :: rest'
                 /\ msg = "Failed to update function: " ++ e
                 /\ trace w'
                    = OpFunctionUpdate (fst (function_key fn)) (snd (function_key fn))
                        :: tl (trace w')
           end).
Proof.
  intros Hnd H name ns. apply pkgUpdate_inv in H. fold name ns in H.
  destruct H as [H | (pkg & w0 & pkg' & meta & w1 & r1 & w2
                       & Hpkg & Hs0 & Hup & Hloop & Hr)]; [left; exact H | right].
  destruct (stored_package_key _ _ _ _ Hpkg) as [Hns Hnm].
  apply updatePackage_written in Hup
    as (_ & _ & m & _ & _ & _ & Hm & Hst & Hmeta & Hfn1).
  inversion Hm; subst m. clear Hm. rewrite Hns, Hnm in Hst.
  assert (Hfw : functions w1 = functions w) by (destruct Hs0 as (_ & Hf0 & _); congruence).
  assert (Hkeys : NoDup (map function_key (functionsReferencing w name ns))).
  { unfold functionsReferencing. apply NoDup_map_filter, NoDup_map_filter. exact Hnd. }
  assert (Hstored : forall fn, In fn (functionsReferencing w name ns) -> untouched w1 fn).
  { intros fn Hin. unfold untouched, stored_function. rewrite Hfw.
    apply untouched_stored; [exact Hnd|].
    unfold functionsReferencing in Hin. apply filter_In in Hin as [Hin _].
    apply filter_In in Hin as [Hin _]. exact Hin. }
  apply updateFunctions_spec in Hloop
    as (done & rest & Hsplit & Hpk & Hsync & Hkeep & Hcase); [|exact Hkeys|exact Hstored].
  assert (Hrest : forall fn, In fn rest -> untouched w2 fn).
  { intros fn Hin. unfold untouched.
    destruct (function_key fn) as [fns fname] eqn:Hk. cbn [fst snd].
    rewrite Hkeep.
    - specialize (Hstored fn). unfold untouched in Hstored. rewrite Hk in Hstored.
      apply Hstored. rewrite Hsplit. apply in_or_app. right. exact Hin.
    - rewrite <- Hk. rewrite Hsplit, map_app in Hkeys.
      eapply NoDup_app_disjoint; [exact Hkeys|]. apply in_map. exact Hin. }
  assert (Hnew : stored_package w2 ns name
                 = Some (set_Package_ResourceVersion (ObjectMeta.ResourceVersion meta) pkg')).
  { unfold stored_package in *. rewrite Hpk. exact Hst. }
  assert (Hrv : ObjectMeta.ResourceVersion
                  (Package.Metadata
                     (set_Package_ResourceVersion (ObjectMeta.ResourceVersion meta) pkg'))
                = ObjectMeta.ResourceVersion meta) by reflexivity.
  exists (set_Package_ResourceVersion (ObjectMeta.ResourceVersion meta) pkg'), done, rest.
  rewrite Hrv.
  destruct r1 as [u|msg].
  - destruct Hr as [-> ->]. split; [exact Hnew|]. split; [exact Hsplit|].
    split; [exact Hsync|]. split; [exact Hrest | exact Hcase].
  - destruct Hr as [-> ->]. split; [exact Hnew|]. split; [exact Hsplit|].
    split; [exact Hsync|]. split; [exact Hrest | exact Hcase].
Qed.

Lemma pkgUpdate_fanout_witness :
  let c := Demo.args [("name", "built"); ("env", "nodejs")] [("f", true)] [] in
  function_keys_unique Demo.world
  /\ exists w',
       fission_cli.pkgUpdate Demo.host c Demo.world = (Val None, w')
       /\ exists new,
            stored_package w' "default" "built" = Some new
            /\ forall fn, In fn (functionsReferencing Demo.world "built" "default") ->
                 synced w' (ObjectMeta.ResourceVersion (Package.Metadata new)) fn.
Proof.
  intros c.
  assert (Hnd : function_keys_unique Demo.world).
  { unfold function_keys_unique. apply (bool_decide_unpack _). vm_compute. exact I. }
  split; [exact Hnd|].
  eexists. split; [vm_compute; reflexivity|].
  edestruct (pkgUpdate_fanout Demo.host c Demo.world) as
    [(msg & Hmsg & _) | (new & done & rest & Hnew & Hsplit & Hsync & _ & Hrest)];
    [exact Hnd | vm_compute; reflexivity | discriminate Hmsg |].
  cbv beta iota in Hrest. subst rest. rewrite app_nil_r in Hsplit.
  exists new. split; [exact Hnew|]. intros fn Hin. apply Hsync.
  change (functionsReferencing Demo.world "built" "default")
    with (functionsReferencing Demo.world (cli.String c "name")
            (cli.String c "pkgNamespace")) in Hin.
  rewrite Hsplit in Hin. exact Hin.
Defined.

(** * Further properties of the code *)

(** ** The calls that leave the process, one by one *)

Lemma bind_run {A B} (m : M A) (k : A -> M B) w :
  bind m k w = match m w with
               | (Val a, w1) => k a w1
               | (Fatal msg, w1) => (Fatal msg, w1)
               end.
Proof. reflexivity. Qed.

Section Runs.
Variable host : Host.

Ltac run_one :=
  run_prims;
  repeat match goal with
         | |- context [fault ?h ?t ?op] => destruct (fault h t op); cbn [negb]
         end;
  wsimpl; try reflexivity.

Lemma NewLen_run n w :
  random.NewLen host n w = (Val (uniuri host n (draws w)), next_draw w).
Proof. reflexivity. Qed.

Lemma NewV4_run w : random.NewV4 host w = (Val (uuid host (draws w)), next_draw w).
Proof. reflexivity. Qed.

Lemma GetTempDir_run w :
  utils.GetTempDir host w
  = if fault host (trace w) OpTempDir
    then (Val (Err "cannot create temporary directory"), log OpTempDir w)
    else (Val (Ok (filepath.Join "/tmp" (uuid host (draws w)))),
          next_draw (log OpTempDir w)).
Proof. unfold utils.GetTempDir, random.NewV4. run_one. Qed.

Lemma Create_run path w :
  os.Create host path w
  = if fault host (trace w) (OpCreate path)
    then (Val (Some ("create " ++ path ++ ": permission denied")), log (OpCreate path) w)
    else (Val None, set_files (<[path := []]> (disk w)) (log (OpCreate path) w)).
Proof. unfold os.Create. run_one. Qed.

Lemma CopyToFile_run path content w :
  io.CopyToFile host path content w
  = if fault host (trace w) (OpCopy path)
    then (Val (Some ("write " ++ path ++ ": no space left on device")), log (OpCopy path) w)
    else (Val None, set_files (<[path := content]> (disk w)) (log (OpCopy path) w)).
Proof. unfold io.CopyToFile. run_one. Qed.

Lemma Chmod_run path w :
  os.Chmod host path w
  = (Val (if fault host (trace w) (OpChmod path)
          then Some ("chmod " ++ path ++ ": operation not permitted") else None),
     log (OpChmod path) w).
Proof. unfold os.Chmod. run_one. Qed.

Lemma Mkdir_run path w :
  os.Mkdir host path w
  = (Val (if fault host (trace w) (OpMkdir path)
          then Some ("mkdir " ++ path ++ ": file exists") else None),
     log (OpMkdir path) w).
Proof. unfold os.Mkdir. run_one. Qed.

Lemma Rename_run oldpath newpath w :
  os.Rename host oldpath newpath w
  = if fault host (trace w) (OpRename oldpath newpath)
    then (Val (Some ("rename " ++ oldpath ++ ": permission denied")),
          log (OpRename oldpath newpath) w)
    else match disk w !! oldpath with
         | Some content =>
             (Val None,
              set_files (<[newpath := content]> (delete oldpath (disk w)))
                (log (OpRename oldpath newpath) w))
         | None =>
             (Val (Some ("rename " ++ oldpath ++ ": no such file or directory")),
              log (OpRename oldpath newpath) w)
         end.
Proof. unfold os.Rename. run_one. destruct (disk w !! oldpath); reflexivity. Qed.

Lemma Stat_run path w :
  os.Stat host path w
  = (Val (if fault host (trace w) (OpStat path)
          then Err ("stat " ++ path ++ ": input/output error")
          else match disk w !! path with
               | Some content => Ok (Z.of_nat (length content))
               | None => Err ("stat " ++ path ++ ": no such file or directory")
               end),
     log (OpStat path) w).
Proof. unfold os.Stat. run_one. destruct (disk w !! path); reflexivity. Qed.

Lemma Open_run path w :
  os.Open host path w
  = (Val (if fault host (trace w) (OpOpen path)
          then Err ("open " ++ path ++ ": permission denied")
          else match disk w !! path with
               | Some content => Ok content
               | None => Err ("open " ++ path ++ ": no such file or directory")
               end),
     log (OpOpen path) w).
Proof. unfold os.Open. run_one. destruct (disk w !! path); reflexivity. Qed.

Lemma CopyToHash_run path content w :
  io.CopyToHash host path content w
  = (Val (if fault host (trace w) (OpCopy path)
          then Err ("read " ++ path ++ ": input/output error") else Ok content),
     log (OpCopy path) w).
Proof. unfold io.CopyToHash. run_one. Qed.

Lemma FindAllGlobs_run paths w :
  utils.FindAllGlobs host paths w
  = (Val (if fault host (trace w) (OpGlob paths)
          then Err "invalid glob"
          else Ok (flat_map (Glob host (disk w)) paths)),
     log (OpGlob paths) w).
Proof. unfold utils.FindAllGlobs. run_one. Qed.

Lemma MakeArchive_run targetName globs w :
  utils.MakeArchive host targetName globs w
  = if fault host (trace w) (OpMakeArchive targetName globs)
    then (Val (Err "cannot write archive"), log (OpMakeArchive targetName globs) w)
    else (Val (Ok targetName),
          set_files
            (<[targetName :=
                 zip host (flat_map (fun f => match disk w !! f with
                                              | Some c => [(f, c)]
                                              | None => []
                                              end)
                             (flat_map (Glob host (disk w)) globs))]> (disk w))
            (log (OpMakeArchive targetName globs) w)).
Proof. unfold utils.MakeArchive. run_one. Qed.

Lemma ReadSpecs_run specDir w :
  spec.ReadSpecs host specDir w
  = (Val (if fault host (trace w) (OpReadSpecs specDir)
          then Err "cannot read specs"
          else Ok {| spec.ArchiveUploadSpecs := archiveSpecs w;
                     spec.Packages := packageSpecs w |}),
     log (OpReadSpecs specDir) w).
Proof. unfold spec.ReadSpecs. run_one. Qed.

Lemma SpecSave_aus_run aus specFile w :
  spec.SpecSave_aus host aus specFile w
  = if fault host (trace w) (OpSpecSave specFile)
    then (Val (Some "cannot write spec file"), log (OpSpecSave specFile) w)
    else (Val None,
          set_archiveSpecs (archiveSpecs w ++ [aus]) (log (OpSpecSave specFile) w)).
Proof. unfold spec.SpecSave_aus. run_one. Qed.

Lemma SpecSave_pkg_run pkg specFile w :
  spec.SpecSave_pkg host pkg specFile w
  = if fault host (trace w) (OpSpecSave specFile)
    then (Val (Some "cannot write spec file"), log (OpSpecSave specFile) w)
    else (Val None,
          set_packageSpecs (packageSpecs w ++ [pkg]) (log (OpSpecSave specFile) w)).
Proof. unfold spec.SpecSave_pkg. run_one. Qed.

Lemma PackageList_run ns w :
  client.PackageList host ns w
  = (Val (if fault host (trace w) (OpPackageList ns)
          then Err "control plane unreachable"
          else Ok (packages_in w ns)),
     log (OpPackageList ns) w).
Proof. unfold client.PackageList, packages_in. run_one. Qed.

Lemma PackageCreate_run pkg w :
  let ns := Package_Namespace pkg in
  let name := Package_Name pkg in
  let stored := set_Package_ResourceVersion (client.version_of (S (revision w))) pkg in
  client.PackageCreate host pkg w
  = if fault host (trace w) (OpPackageCreate ns name)
    then (Val (Err "control plane unreachable"), log (OpPackageCreate ns name) w)
    else match stored_package w ns name with
         | Some _ =>
             (Val (Err ("package " ++ name ++ " already exists")),
              log (OpPackageCreate ns name) w)
         | None =>
             (Val (Ok (Package.Metadata stored)),
              next_revision
                (set_packages (packages w ++ [stored]) (log (OpPackageCreate ns name) w)))
         end.
Proof.
  unfold client.PackageCreate, stored_package, Package_Namespace, Package_Name.
  run_prims. destruct (fault host (trace w) _); cbn [negb]; [reflexivity|]. wsimpl.
  destruct (find _ _); reflexivity.
Qed.

Lemma DownloadURL_run url w :
  _package.DownloadURL host url w
  = (Val (if fault host (trace w) (OpHttpGet url)
          then Err ("Get " ++ url ++ ": connection refused")
          else match web host url with
               | Some (code, body) =>
                   if (code =? http.StatusOK)%Z then Ok body
                   else Err (show_Z code ++ " - HTTP response returned non 200 status")
               | None => Err ("Get " ++ url ++ ": no such host")
               end),
     log (OpHttpGet url) w).
Proof.
  unfold _package.DownloadURL, http.Get. run_prims.
  destruct (fault host (trace w) _); cbn [negb]; [reflexivity|].
  destruct (web host url) as [[code body]|]; [|reflexivity].
  destruct (code =? http.StatusOK)%Z; reflexivity.
Qed.

End Runs.

(** ** The check of the command line: [flagValueParser] *)

Lemma flagIndexes_range_positions args :
  forall i flagIndexes,
    fission_cli.flagIndexes_range i args flagIndexes
    = (flagIndexes ++ flag_positions i args)%list.
Proof.
  induction args as [|v rest IH]; intros i acc; simpl.
  - rewrite app_nil_r. reflexivity.
  - unfold is_flag. destruct (strings.HasPrefix v "-"); rewrite IH; [|reflexivity].
    rewrite <- app_assoc. reflexivity.
Qed.

Lemma errorFlags_range_gaps args indexes :
  forall steps i errorFlags,
    steps + i = length indexes - 1 ->
    fission_cli.errorFlags_range steps i args indexes errorFlags
    = (errorFlags ++ wide_gaps args (drop i indexes))%list.
Proof.
  induction steps as [|steps IH]; intros i acc Hlen; cbn [fission_cli.errorFlags_range].
  - assert (Hshort : length (drop i indexes) <= 1) by (rewrite length_drop; lia).
    destruct (drop i indexes) as [|a [|b l]]; simpl in *; try lia;
      rewrite app_nil_r; reflexivity.
  - rewrite IH by lia.
    destruct (lookup_lt_is_Some_2 indexes i ltac:(lia)) as [a Ha].
    destruct (lookup_lt_is_Some_2 indexes (S i) ltac:(lia)) as [b Hb].
    rewrite (drop_S _ _ _ Ha), (drop_S _ _ _ Hb). cbn [wide_gaps].
    replace (i + 1) with (S i) by lia.
    rewrite !nth_lookup, Ha, Hb. cbn [default from_option].
    destruct (_ >? _)%Z; [|reflexivity]. rewrite <- app_assoc. reflexivity.
Qed.

Lemma flag_positions_S args :
  forall i, flag_positions (S i) args = map S (flag_positions i args).
Proof.
  induction args as [|v rest IH]; intros i; simpl; [reflexivity|].
  destruct (is_flag v); simpl; rewrite IH; reflexivity.
Qed.

Lemma wide_gaps_cons args a b l :
  wide_gaps args (a :: b :: l)
  = ((if (Z.of_nat b - Z.of_nat a >? 2)%Z then [nth a args ""] else [])
       ++ wide_gaps args (b :: l))%list.
Proof. reflexivity. Qed.

Lemma wide_gaps_S v args indexes :
  wide_gaps (v :: args) (map S indexes) = wide_gaps args indexes.
Proof.
  induction indexes as [|a later IH]; [reflexivity|].
  destruct later as [|b l]; [reflexivity|].
  change (map S (a :: b :: l)) with (S a :: S b :: map S l).
  rewrite !wide_gaps_cons. change (S b :: map S l) with (map S (b :: l)).
  rewrite IH. cbn [nth].
  replace (Z.of_nat (S b) - Z.of_nat (S a))%Z with (Z.of_nat b - Z.of_nat a)%Z by lia.
  reflexivity.
Qed.

Lemma first_index_values_ahead args :
  head (flag_positions 0 args ++ [length args])%list = Some (values_ahead args).
Proof.
  induction args as [|v rest IH]; simpl; [reflexivity|].
  destruct (is_flag v); [reflexivity|].
  rewrite flag_positions_S.
  change [S (length rest)] with (map S [length rest]). rewrite <- map_app.
  destruct (flag_positions 0 rest ++ [length rest])%list; simpl in *; congruence.
Qed.

Lemma wide_gaps_overloaded args :
  wide_gaps args (flag_positions 0 args ++ [length args])%list = overloaded args.
Proof.
  induction args as [|v rest IH]; [reflexivity|].
  cbn [flag_positions overloaded length]. rewrite flag_positions_S.
  change [S (length rest)] with (map S [length rest]).
  destruct (is_flag v).
  - rewrite <- app_comm_cons, <- map_app, <- IH. clear IH.
    pose proof (first_index_values_ahead rest) as Hhd.
    destruct (flag_positions 0 rest ++ [length rest])%list as [|b l] eqn:Hl;
      [discriminate|].
    simpl in Hhd. inversion Hhd; subst b.
    change (map S (values_ahead rest :: l)) with (S (values_ahead rest) :: map S l).
    rewrite wide_gaps_cons.
    change (S (values_ahead rest) :: map S l) with (map S (values_ahead rest :: l)).
    rewrite wide_gaps_S. cbn [nth].
    destruct (2 <=? values_ahead rest)%nat eqn:H2.
    + apply Nat.leb_le in H2.
      replace (_ >? 2)%Z with true by (symmetry; rewrite Z.gtb_ltb; apply Z.ltb_lt; lia).
      reflexivity.
    + apply Nat.leb_gt in H2.
      replace (_ >? 2)%Z with false by (symmetry; rewrite Z.gtb_ltb; apply Z.ltb_ge; lia).
      reflexivity.
  - rewrite <- map_app, wide_gaps_S. exact IH.
Qed.

(** The two loops of [flagValueParser] collect the flags that are followed
    by two values or more. *)
Lemma errorFlags_overloaded args :
  let flagIndexes := (fission_cli.flagIndexes_range 0 args [] ++ [length args])%list in
  fission_cli.errorFlags_range (length flagIndexes - 1) 0 args flagIndexes []
  = overloaded args.
Proof.
  cbv zeta. rewrite flagIndexes_range_positions, app_nil_l.
  rewrite errorFlags_range_gaps by lia. rewrite drop_0, app_nil_l.
  apply wide_gaps_overloaded.
Qed.

Lemma values_ahead_two rest :
  (2 <=? values_ahead rest)%nat = true
  <-> exists a b tl, rest = a :: b :: tl /\ is_flag a = false /\ is_flag b = false.
Proof.
  rewrite Nat.leb_le. split.
  - destruct rest as [|a [|b tl]]; simpl.
    + lia.
    + destruct (is_flag a); lia.
    + destruct (is_flag a) eqn:Ha; [lia|]. destruct (is_flag b) eqn:Hb; [lia|]. eauto 6.
  - intros (a & b & tl & -> & Ha & Hb). simpl. rewrite Ha, Hb. lia.
Qed.

Lemma overloaded_nil_iff args :
  overloaded args = []
  <-> forall i f a b,
        args !! i = Some f -> is_flag f = true ->
        args !! S i = Some a -> args !! S (S i) = Some b ->
        is_flag a = true \/ is_flag b = true.
Proof.
  induction args as [|v rest IH]; cbn [overloaded].
  - split; [intros _ i f a b H; discriminate H | reflexivity].
  - split.
    + intros Hnil i f a b Hf Hflag Ha Hb.
      assert (Hrest : overloaded rest = []).
      { destruct (is_flag v); [|exact Hnil]. apply app_eq_nil in Hnil as [_ H]. exact H. }
      destruct i as [|i].
      * simpl in Hf, Ha, Hb. inversion Hf; subst f. rewrite Hflag in Hnil.
        destruct (2 <=? values_ahead rest)%nat eqn:H2; [simpl in Hnil; discriminate Hnil|].
        destruct (is_flag a) eqn:Ea; [auto|]. destruct (is_flag b) eqn:Eb; [auto|].
        exfalso. apply not_true_iff_false in H2. apply H2, values_ahead_two.
        destruct rest as [|a' [|b' tl]]; simpl in Ha, Hb; try discriminate.
        inversion Ha; inversion Hb; subst. eauto 6.
      * eapply IH; [exact Hrest | exact Hf | exact Hflag | exact Ha | exact Hb].
    + intros Hwin.
      assert (Hrest : overloaded rest = []).
      { apply IH. intros i f a b Hf Hflag Ha Hb. exact (Hwin (S i) f a b Hf Hflag Ha Hb). }
      rewrite Hrest. destruct (is_flag v) eqn:Hv; [|reflexivity].
      destruct (2 <=? values_ahead rest)%nat eqn:H2; [|reflexivity].
      apply values_ahead_two in H2 as (a & b & tl & -> & Ha & Hb).
      destruct (Hwin 0 v a b eq_refl Hv eq_refl eq_refl); congruence.
Qed.

Lemma overloaded_values_first pre rest :
  Forall (fun v => is_flag v = false) pre -> overloaded (pre ++ rest) = overloaded rest.
Proof.
  induction 1 as [|v pre Hv _ IH]; [reflexivity|]. simpl. rewrite Hv. exact IH.
Qed.

Lemma flagValueParser_run args :
  fission_cli.flagValueParser args
  = if has_items (overloaded args)
    then Some ("Unable to parse flags: " ++ strings.Join (overloaded args) ", " ++ nl
               ++ "The argument should have only one input value. Please quote the input"
               ++ " value if it contains wildcard characters(" ++ star ++ ").")
    else None.
Proof.
  unfold fission_cli.flagValueParser. destruct args as [|v rest]; [reflexivity|].
  cbn [has_items negb]. cbv zeta. rewrite (errorFlags_overloaded (v :: rest)).
  reflexivity.
Qed.

(** X1. [flagValueParser] reports exactly the flags that are followed by two
    values or more before the next flag or the end of the command line, in
    the order of the command line and separated by commas; it returns nil
    when there is none, in particular on an empty command line. *)
Theorem flagValueParser_reports args :
  fission_cli.flagValueParser args
  = match overloaded args with
    | [] => None
    | flags =>
        Some ("Unable to parse flags: " ++ String.concat ", " flags ++ nl
              ++ "The argument should have only one input value. Please quote the input"
              ++ " value if it contains wildcard characters(" ++ star ++ ").")
    end.
Proof.
  rewrite flagValueParser_run. destruct (overloaded args); reflexivity.
Qed.

(** X2. [flagValueParser] accepts a command line if and only if no flag is
    directly followed by two arguments that are both not flags. *)
Theorem flagValueParser_accepts_iff args :
  fission_cli.flagValueParser args = None
  <-> forall i f a b,
        args !! i = Some f -> is_flag f = true ->
        args !! S i = Some a -> args !! S (S i) = Some b ->
        is_flag a = true \/ is_flag b = true.
Proof.
  rewrite flagValueParser_run, <- overloaded_nil_iff.
  destruct (overloaded args); simpl; split; intros H; (reflexivity || discriminate).
Qed.

(** X3. The arguments in front of the first flag are not counted: however
    many there are, the answer is that for the rest of the command line. A
    command line without any flag is accepted. *)
Theorem flagValueParser_values_first pre rest :
  Forall (fun v => is_flag v = false) pre ->
  fission_cli.flagValueParser (pre ++ rest) = fission_cli.flagValueParser rest.
Proof.
  intros H. rewrite !flagValueParser_run, (overloaded_values_first _ _ H). reflexivity.
Qed.

Lemma flagValueParser_values_first_witness :
  Forall (fun v => is_flag v = false) ["examples/a.js"; "examples/b.js"; "examples/c.js"]
  /\ fission_cli.flagValueParser
       (["examples/a.js"; "examples/b.js"; "examples/c.js"] ++ ["--name"; "e1"])
     = None.
Proof.
  assert (H : Forall (fun v => is_flag v = false)
                ["examples/a.js"; "examples/b.js"; "examples/c.js"])
    by (repeat constructor).
  split; [exact H|].
  rewrite (flagValueParser_values_first _ ["--name"; "e1"] H). reflexivity.
Defined.

(** ** Writing an archive to a file *)

Lemma length_append (a b : string) :
  String.length (a ++ b) = String.length a + String.length b.
Proof. induction a as [|c a IH]; simpl; [reflexivity | rewrite IH; reflexivity]. Qed.

Lemma Join_tmp_fresh dir fileName : filepath.Join dir (fileName ++ ".tmp") <> fileName.
Proof.
  unfold filepath.Join. intros H. apply (f_equal String.length) in H.
  rewrite !length_append in H. simpl in H. lia.
Qed.

(** One step of an unfolded run: the call is replaced by its answers. *)
Ltac run_step lem :=
  munfold; rewrite bind_run, lem; wsimpl;
  try match goal with
      | |- context [fault ?h ?t ?op] => destruct (fault h t op) eqn:?
      end.

(** X4. [WriteArchiveToFile] never exits and writes through a temporary
    file of its own: when it returns nil the destination holds exactly the
    bytes it was given and the temporary file is gone; when it returns an
    error the destination, like every path but the temporary one, is as it
    was. The control-plane store and the blob store are not touched. *)
Theorem WriteArchiveToFile_atomic host fileName content w r w' :
  _package.WriteArchiveToFile host fileName content w = (r, w') ->
  let tmp :=
    filepath.Join (filepath.Join "/tmp" (uuid host (draws w))) (fileName ++ ".tmp") in
  tmp <> fileName
  /\ same_store w w' /\ blobs w' = blobs w
  /\ exists err,
       r = Val err
       /\ match err with
          | None => disk w' = <[fileName := content]> (delete tmp (disk w))
          | Some _ => forall p, p <> tmp -> disk w' !! p = disk w !! p
          end.
Proof.
  intros H tmp. split; [apply Join_tmp_fresh|].
  split; [eapply WriteArchiveToFile_keeps; [apply same_store_host_side | exact H]|].
  revert H. unfold _package.WriteArchiveToFile.
  run_step (GetTempDir_run host).
  { intros H; inversion H; subst. split; [reflexivity|]. eexists. split; [reflexivity|].
    intros p Hp. reflexivity. }
  fold tmp. run_step (Create_run host).
  { intros H; inversion H; subst. split; [reflexivity|]. eexists. split; [reflexivity|].
    intros p Hp. reflexivity. }
  run_step (CopyToFile_run host).
  { intros H; inversion H; subst. split; [reflexivity|]. eexists. split; [reflexivity|].
    wsimpl. intros p Hp. apply lookup_insert_ne. congruence. }
  run_step (Chmod_run host).
  { intros H; inversion H; subst. split; [reflexivity|]. eexists. split; [reflexivity|].
    wsimpl. intros p Hp. rewrite !lookup_insert_ne by congruence. reflexivity. }
  rewrite bind_run, Rename_run. wsimpl.
  destruct (fault host _ (OpRename tmp fileName)).
  { intros H; inversion H; subst. split; [reflexivity|]. eexists. split; [reflexivity|].
    wsimpl. intros p Hp. rewrite !lookup_insert_ne by congruence. reflexivity. }
  rewrite lookup_insert_eq.
  intros H; inversion H; subst. split; [reflexivity|]. eexists. split; [reflexivity|].
  wsimpl. rewrite insert_insert_eq, delete_insert_eq. reflexivity.
Qed.

Lemma WriteArchiveToFile_atomic_witness :
  exists w',
    _package.WriteArchiveToFile Demo.host "out.zip" (Demo.bytes "PK") Demo.world
    = (Val None, w')
    /\ disk w' !! "out.zip" = Some (Demo.bytes "PK")
    /\ disk w' !! "deploy.zip" = disk Demo.world !! "deploy.zip".
Proof.
  eexists. split; [vm_compute; reflexivity|].
  match goal with
  | |- context [disk ?w' !! "out.zip"] =>
      pose proof (WriteArchiveToFile_atomic Demo.host "out.zip" (Demo.bytes "PK")
                    Demo.world _ w' ltac:(vm_compute; reflexivity)) as H
  end.
  cbv zeta in H. destruct H as (_ & _ & _ & err & Herr & Hdisk).
  inversion Herr; subst err. rewrite Hdisk.
  split; [apply lookup_insert_eq|].
  rewrite lookup_insert_ne by discriminate. apply lookup_delete_ne. discriminate.
Defined.

(** ** The checksum of a file *)

Lemma length_compress h block : length h = 8 -> length (SHA256.compress h block) = 8.
Proof.
  intros Hh. unfold SHA256.compress. rewrite length_map, length_combine, Hh. reflexivity.
Qed.

Lemma length_blocks n : forall h bs, length h = 8 -> length (SHA256.blocks n h bs) = 8.
Proof.
  induction n as [|n IH]; intros h bs Hh; simpl; [exact Hh|].
  apply IH, length_compress, Hh.
Qed.

Lemma length_bytes_of_word width w : length (SHA256.bytes_of_word width w) = width.
Proof. induction width as [|k IH]; simpl; [reflexivity | rewrite IH; reflexivity]. Qed.

Lemma length_Sum256 msg : length (SHA256.Sum256 msg) = 32.
Proof.
  unfold SHA256.Sum256.
  assert (H : forall ws, length (flat_map (SHA256.bytes_of_word 4) ws) = 4 * length ws).
  { induction ws as [|x ws IH]; [reflexivity|].
    cbn [flat_map]. rewrite length_app, length_bytes_of_word, IH. simpl. lia. }
  rewrite H, length_blocks; [reflexivity|].
  unfold SHA256.H0. rewrite length_map. reflexivity.
Qed.

Lemma length_EncodeToString src :
  String.length (hex.EncodeToString src) = 2 * length src.
Proof. induction src as [|b src IH]; simpl; [reflexivity | rewrite IH; lia]. Qed.

Lemma digit_hex n : (n < 16)%N -> In (hex.digit n) hex.hextable.
Proof.
  intros Hn. unfold hex.digit. apply nth_In.
  change (length hex.hextable) with 16. lia.
Qed.

Lemma EncodeToString_hex src :
  Forall (fun c => In c hex.hextable) (list_ascii_of_string (hex.EncodeToString src)).
Proof.
  induction src as [|b src IH]; [constructor|].
  cbn [hex.EncodeToString list_ascii_of_string].
  assert (Hb : (Byte.to_N b < 256)%N) by (pose proof (Byte.to_N_bounded b); lia).
  constructor; [|constructor; [|exact IH]]; apply digit_hex.
  - rewrite N.shiftr_div_pow2. change (2 ^ 4)%N with 16%N.
    apply N.Div0.div_lt_upper_bound. lia.
  - change 15%N with (N.ones 4). rewrite N.land_ones. apply N.mod_lt. discriminate.
Qed.

(** X5. [FileChecksum] never exits and changes nothing but the log. The
    checksum it returns is of type SHA-256 and its sum is the digest of the
    bytes of the file, written as 64 lower-case hexadecimal digits whatever
    the size of the file. A file that is not there gives an error that names
    it. *)
Theorem FileChecksum_digest host fileName w r w' :
  _package.FileChecksum host fileName w = (r, w') ->
  same_store w w' /\ disk w' = disk w /\ blobs w' = blobs w
  /\ match r with
     | Val (Ok cs) =>
         (exists content,
             disk w !! fileName = Some content
             /\ cs = Checksum.mk ChecksumTypeSHA256
                       (hex.EncodeToString (SHA256.Sum256 content)))
         /\ String.length (Checksum.Sum cs) = 64
         /\ Forall (fun c => In c hex.hextable) (list_ascii_of_string (Checksum.Sum cs))
     | Val (Err e) =>
         disk w !! fileName = None ->
         fault host (trace w) (OpOpen fileName) = false ->
         e = "failed to open file " ++ fileName ++ ": open " ++ fileName
             ++ ": no such file or directory"
     | Fatal _ => False
     end.
Proof.
  unfold _package.FileChecksum. munfold. rewrite bind_run, Open_run.
  destruct (fault host (trace w) (OpOpen fileName)).
  { intros H; inversion H; subst. repeat split. discriminate. }
  destruct (disk w !! fileName) as [content|] eqn:Hfile.
  - rewrite bind_run, CopyToHash_run. wsimpl.
    destruct (fault host _ (OpCopy fileName)); intros H; inversion H; subst.
    { repeat split. discriminate. }
    split; [repeat split|]. split; [reflexivity|]. split; [reflexivity|].
    split; [eauto|]. cbn [Checksum.Sum].
    split; [rewrite length_EncodeToString, length_Sum256; reflexivity|].
    apply EncodeToString_hex.
  - intros H; inversion H; subst. repeat split.
Qed.

Lemma FileChecksum_digest_witness :
  exists cs w',
    _package.FileChecksum Demo.host "fn.py" Demo.world = (Val (Ok cs), w')
    /\ String.length (Checksum.Sum cs) = 64.
Proof.
  eexists _, _. split; [vm_compute; reflexivity|].
  match goal with
  | |- context [Checksum.Sum ?cs] =>
      pose proof (FileChecksum_digest Demo.host "fn.py" Demo.world (Val (Ok cs)) _
                    ltac:(vm_compute; reflexivity)) as H
  end.
  cbv beta iota in H. destruct H as (_ & _ & _ & _ & Hlen & _). exact Hlen.
Defined.

(** ** Archives made of input files *)

Section MakeArchive.
Variable host : Host.

Lemma archiveName_run hint input w :
  fission_cli.archiveName host hint input w
  = (Val (archive_name_of host hint input (draws w)), next_draw w).
Proof.
  unfold fission_cli.archiveName, archive_name_of.
  destruct (nonempty hint); [reflexivity|]. destruct input; reflexivity.
Qed.

(** The last steps of [makeArchiveFileIfNeeded]: for anything else, create
    a new archive. *)
Lemma new_archive_run name input w path w' :
  bind (utils.GetTempDir host)
    (fun r => bind (util.CheckErr r "create temporary archive directory")
       (fun tmpDir =>
          bind (utils.MakeArchive host (filepath.Join tmpDir name) input)
            (fun r0 => bind (util.CheckErr r0 "create archive file")
                         (fun archivePath => ret archivePath)))) w
  = (Val path, w') ->
  path = filepath.Join (filepath.Join "/tmp" (uuid host (draws w))) name
  /\ disk w' = <[path := archive_of host (disk w) input]> (disk w)
  /\ trace w' = OpMakeArchive path input :: tl (trace w')
  /\ blobs w' = blobs w.
Proof.
  rewrite bind_run, GetTempDir_run.
  destruct (fault host (trace w) OpTempDir); [discriminate|].
  rewrite bind_run. cbn [util.CheckErr ret]. rewrite bind_run, MakeArchive_run.
  destruct (fault host _ (OpMakeArchive _ input)); [discriminate|].
  rewrite bind_run. cbn [util.CheckErr ret]. intros H; inversion H; subst. wsimpl.
  repeat split.
Qed.

Lemma makeArchiveFileIfNeeded_inv hint input noZip w path w' :
  fission_cli.makeArchiveFileIfNeeded host hint input noZip w = (Val path, w') ->
  match used_as_is host (disk w) input noZip with
  | Some file =>
      path = file /\ is_Some (disk w !! file) /\ disk w' = disk w /\ blobs w' = blobs w
  | None =>
      path = filepath.Join (filepath.Join "/tmp" (uuid host (S (draws w))))
               (archive_name_of host hint input (draws w))
      /\ disk w' = <[path := archive_of host (disk w) input]> (disk w)
      /\ trace w' = OpMakeArchive path input :: tl (trace w')
      /\ blobs w' = blobs w
  end.
Proof.
  unfold fission_cli.makeArchiveFileIfNeeded, used_as_is.
  run_step archiveName_run. run_step (FindAllGlobs_run host).
  { discriminate. }
  rewrite bind_run. cbn [util.CheckErr ret]. fold (matched host (disk w) input).
  destruct (matched host (disk w) input) as [|file0 [|file1 files]] eqn:Hfiles.
  - rewrite bind_run. cbn [ret]. intros H. apply new_archive_run in H. exact H.
  - rewrite bind_run, bind_run, Stat_run. wsimpl.
    destruct (fault host _ (OpStat file0)); [discriminate|].
    destruct (disk w !! file0) as [content|] eqn:Hfile; [|discriminate].
    rewrite bind_run. cbn [util.CheckErr ret]. rewrite bind_run. cbn [get]. wsimpl.
    rewrite Hfile.
    destruct (ZipMatch host file0 (Some content) || noZip) eqn:Hzip; cbn [orb].
    { intros H; inversion H; subst. wsimpl. eauto 6. }
    destruct (isHTTP file0).
    { intros H; inversion H; subst. wsimpl. eauto 6. }
    intros H. apply new_archive_run in H. exact H.
  - rewrite bind_run. cbn [ret]. intros H. apply new_archive_run in H. exact H.
Qed.

End MakeArchive.

(** X6. When the patterns match exactly one file and that file is a zip
    file, or zipping is switched off, or the file is a URL,
    [makeArchiveFileIfNeeded] returns the file itself: the file is there, no
    archive is made and the disk is as it was. *)
Theorem makeArchiveFileIfNeeded_as_is host hint input noZip w path w' file :
  fission_cli.makeArchiveFileIfNeeded host hint input noZip w = (Val path, w') ->
  matched host (disk w) input = [file] ->
  ZipMatch host file (disk w !! file) || noZip || isHTTP file = true ->
  path = file /\ is_Some (disk w !! file) /\ disk w' = disk w
  /\ same_store w w' /\ blobs w' = blobs w.
Proof.
  intros H Hfiles Hcond.
  assert (Hs : same_store w w')
    by (eapply makeArchiveFileIfNeeded_keeps; [apply same_store_host_side | exact H]).
  apply makeArchiveFileIfNeeded_inv in H. unfold used_as_is in H.
  rewrite Hfiles, Hcond in H. destruct H as (H1 & H2 & H3 & H4). auto.
Qed.

Lemma makeArchiveFileIfNeeded_as_is_witness :
  exists w',
    fission_cli.makeArchiveFileIfNeeded Demo.host "" ["deploy.zip"] false Demo.world
    = (Val "deploy.zip", w')
    /\ disk w' = disk Demo.world.
Proof.
  eexists. split; [vm_compute; reflexivity|].
  match goal with
  | |- disk ?w' = _ =>
      destruct (makeArchiveFileIfNeeded_as_is Demo.host "" ["deploy.zip"] false
                  Demo.world "deploy.zip" w' "deploy.zip")
        as (_ & _ & Hd & _);
        [vm_compute; reflexivity | vm_compute; reflexivity | vm_compute; reflexivity |]
  end.
  exact Hd.
Defined.

(** X7. In every other case, in particular whenever the patterns match two
    files or more, whatever [noZip] says, [makeArchiveFileIfNeeded] makes a
    new archive of the matched files: it is written to a path of its own
    under a new temporary directory, named after the hint or the first
    pattern, and every other file is left as it was. *)
Theorem makeArchiveFileIfNeeded_new_archive host hint input noZip w path w' :
  fission_cli.makeArchiveFileIfNeeded host hint input noZip w = (Val path, w') ->
  length (matched host (disk w) input) <> 1
  \/ (exists file, matched host (disk w) input = [file]
                   /\ ZipMatch host file (disk w !! file) || noZip || isHTTP file = false) ->
  path = filepath.Join (filepath.Join "/tmp" (uuid host (S (draws w))))
           (archive_name_of host hint input (draws w))
  /\ disk w' = <[path := archive_of host (disk w) input]> (disk w)
  /\ trace w' = OpMakeArchive path input :: tl (trace w')
  /\ blobs w' = blobs w.
Proof.
  intros H Hcase. apply makeArchiveFileIfNeeded_inv in H. unfold used_as_is in H.
  destruct Hcase as [Hlen | (file & Hfiles & Hcond)].
  - destruct (matched host (disk w) input) as [|f0 [|f1 fs]]; simpl in Hlen;
      [exact H | congruence | exact H].
  - rewrite Hfiles, Hcond in H. exact H.
Qed.

Lemma makeArchiveFileIfNeeded_new_archive_witness :
  exists path w',
    fission_cli.makeArchiveFileIfNeeded Demo.host "" ["deploy.zip"; "fn.py"] true Demo.world
    = (Val path, w')
    /\ disk w' !! path = Some (Demo.bytes "0123456789hi")
    /\ disk w' !! "fn.py" = Some (Demo.bytes "hi").
Proof.
  eexists _, _. split; [vm_compute; reflexivity|].
  match goal with
  | |- context [disk ?w' !! ?path = Some (Demo.bytes "0123456789hi")] =>
      destruct (makeArchiveFileIfNeeded_new_archive Demo.host "" ["deploy.zip"; "fn.py"]
                  true Demo.world path w') as (_ & Hd & _);
        [vm_compute; reflexivity | left; vm_compute; discriminate |]
  end.
  rewrite Hd. split; [rewrite lookup_insert_eq; vm_compute; reflexivity|].
  rewrite lookup_insert_ne by (vm_compute; discriminate). vm_compute. reflexivity.
Defined.

(** ** The existence check of [createArchive] *)

Lemma logged_fields calls w :
  packages (logged calls w) = packages w /\ functions (logged calls w) = functions w
  /\ revision (logged calls w) = revision w /\ disk (logged calls w) = disk w
  /\ blobs (logged calls w) = blobs w /\ archiveSpecs (logged calls w) = archiveSpecs w
  /\ packageSpecs (logged calls w) = packageSpecs w /\ draws (logged calls w) = draws w
  /\ trace (logged calls w) = (calls ++ trace w)%list.
Proof.
  induction calls as [|op calls IH]; [repeat split|].
  destruct IH as (H1 & H2 & H3 & H4 & H5 & H6 & H7 & H8 & H9).
  change (logged (op :: calls) w) with (log op (logged calls w)).
  wsimpl. rewrite H9. repeat split; assumption.
Qed.

Lemma logged_app calls1 calls2 w :
  logged calls1 (logged calls2 w) = logged (calls1 ++ calls2) w.
Proof. unfold logged. rewrite fold_right_app. reflexivity. Qed.

Lemma checkFilesExistence_run host includeFiles :
  forall errs w r w',
    fission_cli.checkFilesExistence host includeFiles errs w = (r, w') ->
    exists calls,
      w' = logged calls w
      /\ forallb is_glob calls = true
      /\ (r = Val (errs ++ map not_found_report (missing_paths host (disk w) includeFiles))%list
          \/ r = Fatal "Failed to finding all globs: invalid glob").
Proof.
  induction includeFiles as [|path rest IH]; intros errs w r w' H;
    cbn [fission_cli.checkFilesExistence missing_paths List.filter] in *.
  - inversion H; subst. exists []. rewrite app_nil_r. auto.
  - destruct (isHTTP path); cbn [negb andb].
    { apply IH in H. exact H. }
    revert H. run_step (FindAllGlobs_run host).
    { intros H; inversion H; subst. exists [OpGlob [path]]. auto. }
    rewrite bind_run. cbn [util.CheckErr ret flat_map]. rewrite app_nil_r.
    assert (Hd : disk (log (OpGlob [path]) w) = disk w) by reflexivity.
    destruct (has_items (Glob host (disk w) path)); cbn [negb]; intros H;
      apply IH in H as (calls & -> & Hglob & Hr); rewrite Hd in Hr;
      exists (calls ++ [OpGlob [path]])%list;
      (split; [unfold logged; rewrite fold_right_app; reflexivity|]);
      (split; [rewrite forallb_app, Hglob; reflexivity|]).
    + exact Hr.
    + cbn [map]. rewrite <- app_assoc in Hr. exact Hr.
Qed.

(** X8. When some path given to [createArchive] is not a URL and matches no
    file, the command exits before it does anything else: nothing but the
    log has changed and every call made was a file lookup. Unless a lookup
    itself failed, the message lists one error for every such path, in the
    order given. *)
Theorem createArchive_missing_files host includeFiles noZip specDir specFile w r w' :
  fission_cli.createArchive host includeFiles noZip specDir specFile w = (r, w') ->
  missing_paths host (disk w) includeFiles <> [] ->
  (exists calls, w' = logged calls w /\ forallb is_glob calls = true)
  /\ (r = Fatal (fission_cli.multierror_Error
                   (map not_found_report (missing_paths host (disk w) includeFiles)))
      \/ r = Fatal "Failed to finding all globs: invalid glob").
Proof.
  unfold fission_cli.createArchive. munfold. rewrite bind_run.
  destruct (fission_cli.checkFilesExistence host includeFiles [] w) as [r0 w0] eqn:Hcheck.
  apply checkFilesExistence_run in Hcheck as (calls & -> & Hglob & [-> | ->]).
  - intros H Hmiss. rewrite app_nil_l in H. rewrite bind_run in H.
    destruct (map not_found_report _) as [|e errs] eqn:Hmap.
    { apply map_eq_nil in Hmap. contradiction. }
    cbn [has_items log_.Fatal] in H. inversion H; subst. eauto.
  - intros H _. inversion H; subst. eauto.
Qed.

Lemma createArchive_missing_files_witness :
  missing_paths Demo.host (disk Demo.world) ["nowhere.js"; "deploy.zip"; "gone.py"]
  = ["nowhere.js"; "gone.py"]
  /\ exists w',
       fission_cli.createArchive Demo.host ["nowhere.js"; "deploy.zip"; "gone.py"]
         false "" "" Demo.world
       = (Fatal (fission_cli.multierror_Error
                   [not_found_report "nowhere.js"; not_found_report "gone.py"]), w').
Proof.
  split; [vm_compute; reflexivity|].
  eexists.
  match goal with
  | |- ?run = (_, ?w') =>
      destruct (createArchive_missing_files Demo.host
                  ["nowhere.js"; "deploy.zip"; "gone.py"] false "" "" Demo.world
                  (fst run) (snd run)) as (_ & [Hr | Hr]);
        [vm_compute; reflexivity | vm_compute; discriminate | |]
  end.
  - vm_compute. reflexivity.
  - vm_compute in Hr. discriminate Hr.
Defined.

(** ** Spec mode: archives and packages recorded in spec files *)

Lemma is_glob_local calls :
  forallb is_glob calls = true -> Forall (fun op => is_remote op = false) calls.
Proof.
  induction calls as [|op calls IH]; simpl; [constructor|].
  intros H. apply andb_true_iff in H as [Hop H]. constructor; [|apply IH, H].
  destruct op; try discriminate Hop. reflexivity.
Qed.

Section SpecMode.
Variable host : Host.

(** [createArchive] with a spec file: the archive returned, and what was
    recorded. *)
Lemma createArchive_spec_inv includeFiles noZip specDir specFile w a w' :
  nonempty specFile = true ->
  fission_cli.createArchive host includeFiles noZip specDir specFile w = (Val a, w') ->
  missing_paths host (disk w) includeFiles = []
  /\ local_only w w' /\ same_store w w' /\ disk w' = disk w /\ blobs w' = blobs w
  /\ packageSpecs w' = packageSpecs w /\ draws w' = S (draws w)
  /\ exists name,
       a = Archive.mk ArchiveTypeUrl [] (ARCHIVE_URL_PREFIX host ++ name) Checksum.zero
       /\ match known_archive w includeFiles with
          | Some known =>
              name = ArchiveUploadSpec.Name known /\ archiveSpecs w' = archiveSpecs w
          | None =>
              name = archive_name_of host "" includeFiles (draws w)
              /\ archiveSpecs w'
                 = (archiveSpecs w ++ [ArchiveUploadSpec.mk name includeFiles])%list
          end.
Proof.
  intros Hspec. unfold fission_cli.createArchive. munfold. rewrite bind_run.
  destruct (fission_cli.checkFilesExistence host includeFiles [] w) as [r0 w0] eqn:Hcheck.
  apply checkFilesExistence_run in Hcheck as (calls & -> & Hglob & [-> | ->]);
    [|discriminate].
  rewrite app_nil_l, bind_run.
  destruct (missing_paths host (disk w) includeFiles) as [|p ps] eqn:Hmiss;
    [|discriminate].
  cbn [map has_items ret]. rewrite Hspec.
  destruct (logged_fields calls w) as (L1 & L2 & L3 & L4 & L5 & L6 & L7 & L8 & L9).
  run_step archiveName_run. run_step (ReadSpecs_run host).
  { discriminate. }
  rewrite bind_run. cbn [util.CheckErr ret]. rewrite L6, L7, L8.
  unfold spec.SpecExists_aus, known_archive. cbn [spec.ArchiveUploadSpecs ArchiveUploadSpec.IncludeGlobs].
  apply is_glob_local in Hglob.
  destruct (find _ (archiveSpecs w)) as [known|].
  - rewrite bind_run, bind_run. cbn [fmt.Printf modify ret ObjectMeta.Name].
    intros H; inversion H; subst. unfold local_only, same_store. wsimpl.
    rewrite ?L1, ?L2, ?L3, ?L4, ?L5, ?L6, ?L7, ?L8, ?L9.
    split; [reflexivity|]. split.
    { eexists (_ :: _ :: calls)%list. split; [reflexivity|].
      constructor; [reflexivity|]. constructor; [reflexivity | exact Hglob]. }
    repeat split. eexists. split; [reflexivity|]. split; reflexivity.
  - rewrite bind_run, bind_run, SpecSave_aus_run. wsimpl.
    destruct (fault host _ (OpSpecSave specFile)); [discriminate|].
    rewrite bind_run. cbn [util.CheckError ret].
    intros H; inversion H; subst. unfold local_only, same_store. wsimpl.
    rewrite ?L1, ?L2, ?L3, ?L4, ?L5, ?L6, ?L7, ?L8, ?L9.
    split; [reflexivity|]. split.
    { eexists (_ :: _ :: calls)%list. split; [reflexivity|].
      constructor; [reflexivity|]. constructor; [reflexivity | exact Hglob]. }
    repeat split. eexists. split; [reflexivity|]. split; reflexivity.
Qed.

End SpecMode.

(** X9. With a spec file, [createArchive] works offline: it makes no remote
    call, uploads nothing and leaves the disk, the blob store and the
    control-plane store as they were. The archive it returns is of kind URL
    and points, behind the prefix for spec archives, to the name of the
    recorded archive upload spec with the same patterns when there is one,
    which is re-used and nothing is recorded; otherwise to a new name, under
    which the patterns are recorded. *)
Theorem createArchive_spec_mode host includeFiles noZip specDir specFile w a w' :
  nonempty specFile = true ->
  fission_cli.createArchive host includeFiles noZip specDir specFile w = (Val a, w') ->
  local_only w w' /\ same_store w w' /\ disk w' = disk w /\ blobs w' = blobs w
  /\ packageSpecs w' = packageSpecs w
  /\ exists name,
       a = Archive.mk ArchiveTypeUrl [] (ARCHIVE_URL_PREFIX host ++ name) Checksum.zero
       /\ match known_archive w includeFiles with
          | Some known =>
              name = ArchiveUploadSpec.Name known /\ archiveSpecs w' = archiveSpecs w
          | None =>
              name = archive_name_of host "" includeFiles (draws w)
              /\ archiveSpecs w'
                 = (archiveSpecs w ++ [ArchiveUploadSpec.mk name includeFiles])%list
          end.
Proof.
  intros Hspec H. apply createArchive_spec_inv in H; [|exact Hspec].
  destruct H as (_ & H1 & H2 & H3 & H4 & H5 & _ & H6). auto 7.
Qed.

Lemma createArchive_spec_mode_witness :
  nonempty "specs/fn.yaml" = true
  /\ exists w',
       fission_cli.createArchive Demo.host ["fn.py"] false "specs" "specs/fn.yaml" Demo.world
       = (Val (Archive.mk ArchiveTypeUrl [] "archive://fn.py-r0" Checksum.zero), w')
       /\ local_only Demo.world w'
       /\ archiveSpecs w' = [ArchiveUploadSpec.mk "fn.py-r0" ["fn.py"]].
Proof.
  split; [reflexivity|].
  eexists. split; [vm_compute; reflexivity|].
  match goal with
  | |- local_only _ ?w' /\ _ =>
      destruct (createArchive_spec_mode Demo.host ["fn.py"] false "specs" "specs/fn.yaml"
                  Demo.world (Archive.mk ArchiveTypeUrl [] "archive://fn.py-r0" Checksum.zero)
                  w' eq_refl ltac:(vm_compute; reflexivity))
        as (Hlocal & _ & _ & _ & _ & name & _ & Hrec)
  end.
  split; [exact Hlocal|]. vm_compute. reflexivity.
Defined.

(** ** [createPackage] *)

Lemma nonempty_false s : nonempty s = false -> s = "".
Proof.
  unfold nonempty. intros H. apply negb_false_iff in H. apply String.eqb_eq in H. exact H.
Qed.

Section CreatePackage.
Variable host : Host.

Lemma package_stored_run c specFile pkg meta w w' :
  (if nonempty specFile then
     r ← spec.ReadSpecs host (cli.String c "specdir");
     fr ← util.CheckErr r "read specs";
     match spec.SpecExists_pkg fr pkg with
     | Some m =>
         fmt.Printf ("Re-using previously created package " ++ ObjectMeta.Name m ++ nl);;
         ret m
     | None =>
         err ← spec.SpecSave_pkg host pkg specFile;
         util.CheckError err "save package spec";;
         ret (Package.Metadata pkg)
     end
   else
     r ← client.PackageCreate host pkg;
     pkgMetadata ← util.CheckErr r "create package";
     fmt.Printf ("Package '" ++ ObjectMeta.Name pkgMetadata ++ "' created" ++ nl);;
     ret pkgMetadata) w = (Val meta, w') ->
  package_stored host c specFile pkg meta w w'.
Proof.
  unfold package_stored. destruct (nonempty specFile).
  - run_step (ReadSpecs_run host); [discriminate|].
    rewrite bind_run. cbn [util.CheckErr ret].
    unfold spec.SpecExists_pkg, known_package. cbn [spec.Packages].
    destruct (find _ (packageSpecs w)) as [known|].
    + rewrite bind_run. cbn [fmt.Printf modify ret]. intros H; inversion H; subst. auto.
    + rewrite bind_run, SpecSave_pkg_run. wsimpl.
      destruct (fault host _ (OpSpecSave specFile)); [discriminate|].
      rewrite bind_run. cbn [util.CheckError ret]. intros H; inversion H; subst. auto.
  - munfold. rewrite bind_run.
    destruct (client.PackageCreate host pkg w) as [[[m|e]|msg] w0] eqn:Hc;
      cbn [util.CheckErr ret]; try discriminate.
    rewrite bind_run. cbn [util.CheckErr ret]. rewrite bind_run.
    cbn [fmt.Printf modify ret]. intros H; inversion H; subst. eauto.
Qed.

Lemma createPackage_inv c ns env envNs src deploy buildcmd specDir specFile noZip
      w meta w' :
  fission_cli.createPackage host c ns env envNs src deploy buildcmd specDir specFile noZip w
  = (Val meta, w') ->
  exists depA srcA w1 w2 w3 suffix id,
    archive_step host deploy noZip specDir specFile depA w w1
    /\ archive_step host src false specDir specFile srcA w1 w2
    /\ (w3 = w2 \/ w3 = next_draw w2)
    /\ package_stored host c specFile
         (package_made ns env envNs src deploy buildcmd specFile srcA depA
            (package_name_of host src deploy suffix id))
         meta w3 w'.
Proof.
  unfold fission_cli.createPackage. intros H. cbv zeta in H.
  minv H. destruct a as [[spec1 status1] name1]. minv H.
  destruct a as [[spec2 status2] name2]. minv H.
  apply package_stored_run in H.
  assert (Hname : a = (if nonempty name2 then name2 else ToLower host (uuid host (draws w1)))
                  /\ (w2 = w1 \/ w2 = next_draw w1)).
  { destruct (nonempty name2); inversion Hstep1; subst; auto. }
  destruct Hname as [-> Hw2]. clear Hstep1.
  assert (Hcmd : forall e sA dA,
             (if nonempty buildcmd then PackageSpec.mk e sA dA buildcmd
              else PackageSpec.mk e sA dA "") = PackageSpec.mk e sA dA buildcmd).
  { intros. destruct (nonempty buildcmd) eqn:Hb; [reflexivity|].
    apply nonempty_false in Hb. subst. reflexivity. }
  destruct deploy as [|d ds].
  - inversion Hstep; subst; clear Hstep.
    destruct src as [|s0 ss].
    + inversion Hstep0; subst; clear Hstep0.
      exists Archive.zero, Archive.zero, w1, w1, w2, "", (uuid host (draws w1)).
      split; [split; reflexivity|]. split; [split; reflexivity|]. split; [exact Hw2|].
      unfold package_made, package_name_of, initial_status. cbn [has_items andb].
      rewrite Hcmd in H. exact H.
    + minv Hstep0. minv Hstep0. inversion Hstep0; subst; clear Hstep0.
      inversion Hstep1; subst; clear Hstep1.
      eexists Archive.zero, _, w0, _, w2, _, (uuid host _).
      split; [split; reflexivity|]. split; [eexists; split; [exact Hstep|reflexivity]|].
      split; [exact Hw2|].
      unfold package_made, package_name_of, initial_status. cbn [has_items andb].
      cbn [PackageSpec.Environment PackageSpec.Deployment PackageSpec.BuildCommand
           PackageSpec.Source] in H.
      rewrite Hcmd in H. exact H.
  - minv Hstep. minv Hstep. inversion Hstep; subst; clear Hstep.
    inversion Hstep2; subst; clear Hstep2.
    destruct src as [|s0 ss].
    + inversion Hstep0; subst; clear Hstep0.
      eexists _, Archive.zero, _, _, w2, _, (uuid host _).
      split; [eexists; split; [exact Hstep1|reflexivity]|].
      split; [split; reflexivity|]. split; [exact Hw2|].
      unfold package_made, package_name_of, initial_status. cbn [has_items andb].
      cbn [PackageSpec.Environment PackageSpec.Deployment PackageSpec.BuildCommand
           PackageSpec.Source] in H.
      rewrite Hcmd in H. exact H.
    + minv Hstep0. minv Hstep0. inversion Hstep0; subst; clear Hstep0.
      inversion Hstep2; subst; clear Hstep2.
      eexists _, _, _, _, w2, _, (uuid host _).
      split; [eexists; split; [exact Hstep1|reflexivity]|].
      split; [eexists; split; [exact Hstep|reflexivity]|]. split; [exact Hw2|].
      unfold package_made, package_name_of, initial_status. cbn [has_items andb].
      cbn [PackageSpec.Environment PackageSpec.Deployment PackageSpec.BuildCommand
           PackageSpec.Source] in H.
      rewrite Hcmd in H. exact H.
Qed.

End CreatePackage.

Lemma find_app_new {A} (p : A -> bool) (l : list A) (x : A) :
  find p l = None -> p x = true -> find p (l ++ [x]) = Some x.
Proof.
  induction l as [|y l IH]; simpl; intros Hl Hx; [rewrite Hx; reflexivity|].
  destruct (p y); [discriminate|]. apply IH; assumption.
Qed.

Lemma archive_step_store host files noZip specDir specFile a w w' :
  archive_step host files noZip specDir specFile a w w' -> same_store w w'.
Proof.
  unfold archive_step. destruct files as [|f fs].
  - intros [_ ->]. apply same_store_refl.
  - intros (w0 & H & ->). eapply same_store_trans; [eapply createArchive_store; exact H|].
    repeat split.
Qed.

(** What a returning [createPackage] without spec file has stored. *)
Lemma createPackage_record host c ns env envNs src deploy buildcmd specDir noZip
        w meta w' :
  fission_cli.createPackage host c ns env envNs src deploy buildcmd specDir "" noZip w
  = (Val meta, w') ->
  exists pkg,
    stored_package w ns (ObjectMeta.Name meta) = None
    /\ packages w' = (packages w ++ [pkg])%list
    /\ functions w' = functions w
    /\ stored_package w' ns (ObjectMeta.Name meta) = Some pkg
    /\ Package.Metadata pkg = meta
    /\ ObjectMeta.Namespace meta = ns
    /\ ObjectMeta.ResourceVersion meta = client.version_of (S (revision w))
    /\ (exists suffix id, ObjectMeta.Name meta = package_name_of host src deploy suffix id)
    /\ PackageSpec.Environment (Package.Spec pkg) = EnvironmentReference.mk envNs env
    /\ PackageSpec.BuildCommand (Package.Spec pkg) = buildcmd
    /\ Package.Status pkg
       = PackageStatus.mk
           (if has_items src then BuildStatusPending else BuildStatusSucceeded) ""
    /\ exists w1 w2,
         archive_step host deploy noZip specDir ""
           (PackageSpec.Deployment (Package.Spec pkg)) w w1
         /\ archive_step host src false specDir ""
              (PackageSpec.Source (Package.Spec pkg)) w1 w2.
Proof.
  intros H. apply createPackage_inv in H
    as (depA & srcA & w1 & w2 & w3 & suffix & id & Hdep & Hsrc & Hw3 & Hst).
  assert (Hs : same_store w w3).
  { eapply same_store_trans; [eapply archive_step_store; exact Hdep|].
    eapply same_store_trans; [eapply archive_step_store; exact Hsrc|].
    destruct Hw3 as [-> | ->]; repeat split. }
  destruct Hs as (Hp & Hf & Hr).
  unfold package_stored in Hst. change (nonempty "") with false in Hst. cbv iota in Hst.
  destruct Hst as (w0 & Hc & ->).
  rewrite PackageCreate_run in Hc.
  unfold package_made, Package_Namespace, Package_Name in Hc.
  cbn [Package.Metadata ObjectMeta.Namespace ObjectMeta.Name] in Hc.
  destruct (fault host _ _); [discriminate|].
  destruct (stored_package w3 ns _) eqn:Hfree; [discriminate|].
  inversion Hc; subst; clear Hc. wsimpl.
  cbn [set_Package_ResourceVersion Package.Metadata Package.Spec Package.Status
       ObjectMeta.Name ObjectMeta.Namespace ObjectMeta.ResourceVersion
       PackageSpec.Environment PackageSpec.BuildCommand PackageSpec.Source
       PackageSpec.Deployment] in *.
  unfold stored_package in *. wsimpl. rewrite Hp in *. rewrite Hr.
  eexists. split; [exact Hfree|]. split; [reflexivity|]. split; [exact Hf|].
  split.
  { apply find_app_new; [exact Hfree|]. unfold client.is_package. apply is_meta_self. }
  cbn [Package.Metadata Package.Spec Package.Status PackageSpec.Environment
       PackageSpec.BuildCommand PackageSpec.Source PackageSpec.Deployment
       ObjectMeta.Namespace ObjectMeta.ResourceVersion ObjectMeta.Name].
  split; [reflexivity|]. split; [reflexivity|]. split; [reflexivity|].
  split; [eauto|]. split; [reflexivity|]. split; [reflexivity|].
  split.
  { unfold initial_status. rewrite andb_false_r. reflexivity. }
  eauto.
Qed.

(** X10. A returning [createPackage] without spec file has added one record
    to the control-plane store and has changed no other: the record is
    stored under a name that was free, in the namespace given, with a new
    resource version, the environment and the build command given, and the
    archives made of the files given. It is pending when source files were
    given and succeeded otherwise. Its name is made of the first source
    file when there is one, else of the first deployment file. *)
Theorem createPackage_stored host c ns env envNs src deploy buildcmd specDir noZip
        w meta w' :
  fission_cli.createPackage host c ns env envNs src deploy buildcmd specDir "" noZip w
  = (Val meta, w') ->
  exists pkg,
    stored_package w ns (ObjectMeta.Name meta) = None
    /\ packages w' = (packages w ++ [pkg])%list
    /\ functions w' = functions w
    /\ stored_package w' ns (ObjectMeta.Name meta) = Some pkg
    /\ Package.Metadata pkg = meta
    /\ ObjectMeta.Namespace meta = ns
    /\ ObjectMeta.ResourceVersion meta = client.version_of (S (revision w))
    /\ (exists suffix id, ObjectMeta.Name meta = package_name_of host src deploy suffix id)
    /\ PackageSpec.Environment (Package.Spec pkg) = EnvironmentReference.mk envNs env
    /\ PackageSpec.BuildCommand (Package.Spec pkg) = buildcmd
    /\ Package.Status pkg
       = PackageStatus.mk
           (if has_items src then BuildStatusPending else BuildStatusSucceeded) ""
    /\ exists w1 w2,
         archive_step host deploy noZip specDir ""
           (PackageSpec.Deployment (Package.Spec pkg)) w w1
         /\ archive_step host src false specDir ""
              (PackageSpec.Source (Package.Spec pkg)) w1 w2.
Proof.
  apply createPackage_record.
Qed.

Lemma createPackage_stored_witness :
  exists meta w' pkg,
    fission_cli.createPackage Demo.host (Demo.args [] [] []) "default" "python" "default"
      ["fn.py"] [] "" "" "" false Demo.world = (Val meta, w')
    /\ stored_package w' "default" (ObjectMeta.Name meta) = Some pkg
    /\ Package_BuildStatus pkg = BuildStatusPending.
Proof.
  eexists _, _.
  match goal with
  | |- exists pkg, ?run = (Val ?meta, ?w') /\ _ =>
      destruct (createPackage_stored Demo.host (Demo.args [] [] []) "default" "python"
                  "default" ["fn.py"] [] "" "" false Demo.world meta w')
        as (pkg & _ & _ & _ & Hst & _ & _ & _ & _ & _ & _ & Hstatus & _)
  end.
  - vm_compute. reflexivity.
  - exists pkg. split; [vm_compute; reflexivity|]. split; [exact Hst|].
    unfold Package_BuildStatus. rewrite Hstatus. reflexivity.
Defined.

(** ** [createPackage] with a spec file *)

Lemma offline_refl w : offline w w.
Proof.
  split; [exists []; split; [reflexivity | constructor]|].
  split; [apply same_store_refl | split; reflexivity].
Qed.

Lemma offline_trans w1 w2 w3 : offline w1 w2 -> offline w2 w3 -> offline w1 w3.
Proof.
  intros ((c1 & Ht1 & Hl1) & Hs1 & Hd1 & Hb1) ((c2 & Ht2 & Hl2) & Hs2 & Hd2 & Hb2).
  split.
  { exists (c2 ++ c1)%list. split; [rewrite Ht2, Ht1, app_assoc; reflexivity|].
    apply Forall_app; split; assumption. }
  split; [eapply same_store_trans; eassumption|]. split; congruence.
Qed.

Lemma offline_log op w : is_remote op = false -> offline w (log op w).
Proof.
  intros Hop. split; [exists [op]; split; [reflexivity | repeat constructor; exact Hop]|].
  repeat split.
Qed.

Lemma offline_logged calls w :
  Forall (fun op => is_remote op = false) calls -> offline w (logged calls w).
Proof.
  intros H. destruct (logged_fields calls w) as (L1 & L2 & L3 & L4 & L5 & _ & _ & _ & L9).
  split; [exists calls; split; assumption|]. repeat split; assumption.
Qed.

Lemma offline_draw w : offline w (next_draw w).
Proof. split; [exists []; split; [reflexivity | constructor]|]. repeat split. Qed.

Create HintDb offline.

Section Offline.
Variable host : Host.

Lemma checkFilesExistence_offline includeFiles errs :
  keeps offline (fission_cli.checkFilesExistence host includeFiles errs).
Proof.
  intros w r w' H. apply checkFilesExistence_run in H as (calls & -> & Hglob & _).
  apply offline_logged, is_glob_local, Hglob.
Qed.

Lemma archiveName_offline hint input : keeps offline (fission_cli.archiveName host hint input).
Proof.
  intros w r w' H. rewrite archiveName_run in H. inversion H; subst. apply offline_draw.
Qed.

Lemma NewLen_offline n : keeps offline (random.NewLen host n).
Proof. intros w r w' H. inversion H; subst. apply offline_draw. Qed.

Lemma NewV4_offline : keeps offline (random.NewV4 host).
Proof. intros w r w' H. inversion H; subst. apply offline_draw. Qed.

Lemma ReadSpecs_offline dir : keeps offline (spec.ReadSpecs host dir).
Proof.
  intros w r w' H. rewrite ReadSpecs_run in H. inversion H; subst.
  apply offline_log. reflexivity.
Qed.

Lemma Printf_offline text : keeps offline (fmt.Printf text).
Proof. intros w r w' H. inversion H; subst. apply offline_log. reflexivity. Qed.

Lemma SpecSave_aus_offline aus file : keeps offline (spec.SpecSave_aus host aus file).
Proof.
  intros w r w' H. rewrite SpecSave_aus_run in H.
  destruct (fault host _ _); inversion H; subst; [apply offline_log; reflexivity|].
  split; [exists [OpSpecSave file]; split; [reflexivity | repeat constructor]|].
  repeat split.
Qed.

Lemma SpecSave_pkg_offline pkg file : keeps offline (spec.SpecSave_pkg host pkg file).
Proof.
  intros w r w' H. rewrite SpecSave_pkg_run in H.
  destruct (fault host _ _); inversion H; subst; [apply offline_log; reflexivity|].
  split; [exists [OpSpecSave file]; split; [reflexivity | repeat constructor]|].
  repeat split.
Qed.

Hint Resolve checkFilesExistence_offline archiveName_offline NewLen_offline NewV4_offline
  ReadSpecs_offline Printf_offline SpecSave_aus_offline SpecSave_pkg_offline : offline.

Ltac off_step :=
  match goal with
  | |- keeps _ (mbind _ _) => munfold; apply keeps_bind; [exact offline_trans | | intros]
  | |- keeps _ (bind _ _) => apply keeps_bind; [exact offline_trans | | intros]
  | |- keeps _ (ret _) => apply keeps_ret; exact offline_refl
  | |- keeps _ (log_.Fatal _) => apply keeps_Fatal; exact offline_refl
  | |- keeps _ (util.CheckErr _ _) => apply keeps_CheckErr; exact offline_refl
  | |- keeps _ (util.CheckError _ _) => apply keeps_CheckError; exact offline_refl
  | |- keeps _ (match ?x with _ => _ end) => destruct x
  | |- keeps _ (let _ := _ in _) => cbv zeta
  | |- keeps _ _ => solve [eauto with offline]
  end.

Lemma createArchive_offline includeFiles noZip specDir specFile :
  nonempty specFile = true ->
  keeps offline (fission_cli.createArchive host includeFiles noZip specDir specFile).
Proof.
  intros Hspec. unfold fission_cli.createArchive. rewrite Hspec. repeat off_step.
Qed.

Lemma createPackage_offline c ns env envNs src deploy buildcmd specDir specFile noZip :
  nonempty specFile = true ->
  keeps offline
    (fission_cli.createPackage host c ns env envNs src deploy buildcmd specDir specFile noZip).
Proof.
  intros Hspec. pose proof (createArchive_offline) as Harchive.
  unfold fission_cli.createPackage. rewrite Hspec. cbv zeta.
  repeat off_step; eauto with offline.
Qed.

End Offline.

Lemma find_app_found {A} (p : A -> bool) (l extra : list A) x :
  find p l = Some x -> find p (l ++ extra) = Some x.
Proof.
  induction l as [|y l IH]; simpl; [discriminate|].
  destruct (p y); [auto | exact IH].
Qed.

Section Recorded.
Variable host : Host.

Lemma archive_step_recorded files noZip specDir specFile a w w1 :
  nonempty specFile = true ->
  archive_step host files noZip specDir specFile a w w1 ->
  described host w1 files a
  /\ (exists extra, archiveSpecs w1 = (archiveSpecs w ++ extra)%list)
  /\ packageSpecs w1 = packageSpecs w.
Proof.
  intros Hspec. unfold archive_step, described. destruct files as [|f fs].
  - intros [-> ->]. split; [reflexivity|]. split; [exists []; rewrite app_nil_r|]; reflexivity.
  - intros (w0 & H & ->). apply createArchive_spec_inv in H; [|exact Hspec].
    destruct H as (_ & _ & _ & _ & _ & Hp & _ & name & -> & Hk).
    unfold known_archive in *. wsimpl.
    destruct (find _ (archiveSpecs w)) as [known|] eqn:Hfind.
    + destruct Hk as [-> Hk]. rewrite Hk, Hfind. split; [eauto|].
      split; [exists []; rewrite app_nil_r; reflexivity | exact Hp].
    + destruct Hk as [-> Hk]. rewrite Hk. split.
      * eexists. split; [apply find_app_new; [exact Hfind|]|reflexivity].
        apply bool_decide_eq_true. reflexivity.
      * split; [eauto | exact Hp].
Qed.

Lemma recorded_later w w1 files a extra :
  described host w files a -> archiveSpecs w1 = (archiveSpecs w ++ extra)%list ->
  described host w1 files a.
Proof.
  unfold described, known_archive. destruct files as [|f fs]; [auto|].
  intros (known & Hk & ->) ->. exists known. split; [|reflexivity].
  apply find_app_found, Hk.
Qed.

Lemma recorded_again files noZip specDir specFile a a' w w1 :
  nonempty specFile = true ->
  described host w files a ->
  archive_step host files noZip specDir specFile a' w w1 ->
  a' = a /\ archiveSpecs w1 = archiveSpecs w /\ packageSpecs w1 = packageSpecs w.
Proof.
  intros Hspec. unfold archive_step, described. destruct files as [|f fs].
  - intros -> [-> ->]. auto.
  - intros (known & Hk & ->) (w0 & H & ->). apply createArchive_spec_inv in H; [|exact Hspec].
    destruct H as (_ & _ & _ & _ & _ & Hp & _ & name & -> & Hn). rewrite Hk in Hn.
    destruct Hn as [-> Hn]. wsimpl. auto.
Qed.

Lemma package_stored_specs c specFile pkg meta w w' :
  nonempty specFile = true ->
  package_stored host c specFile pkg meta w w' ->
  archiveSpecs w' = archiveSpecs w
  /\ match known_package w pkg with
     | Some known => meta = Package.Metadata known /\ packageSpecs w' = packageSpecs w
     | None => meta = Package.Metadata pkg
               /\ packageSpecs w' = (packageSpecs w ++ [pkg])%list
     end.
Proof.
  intros Hspec. unfold package_stored. rewrite Hspec. intros [_ H].
  destruct (known_package w pkg); destruct H as [-> ->]; wsimpl; auto.
Qed.

(** What two runs of [createPackage] with the same arguments record. *)
Lemma createPackage_twice c ns env envNs src deploy buildcmd specDir specFile noZip
      w meta w' meta2 w'' :
  nonempty specFile = true ->
  fission_cli.createPackage host c ns env envNs src deploy buildcmd specDir specFile noZip w
  = (Val meta, w') ->
  fission_cli.createPackage host c ns env envNs src deploy buildcmd specDir specFile noZip w'
  = (Val meta2, w'') ->
  meta2 = meta /\ archiveSpecs w'' = archiveSpecs w' /\ packageSpecs w'' = packageSpecs w'.
Proof.
  intros Hspec H1 H2.
  apply createPackage_inv in H1
    as (depA & srcA & w1 & w2 & w3 & suffix & id & Hdep & Hsrc & Hw3 & Hst).
  apply createPackage_inv in H2
    as (depB & srcB & v1 & v2 & v3 & suffix2 & id2 & Hdep2 & Hsrc2 & Hv3 & Hst2).
  apply archive_step_recorded in Hdep as (Rdep & (e1 & Ea1) & Ep1); [|exact Hspec].
  apply archive_step_recorded in Hsrc as (Rsrc & (e2 & Ea2) & Ep2); [|exact Hspec].
  assert (Ea3 : archiveSpecs w3 = archiveSpecs w2 /\ packageSpecs w3 = packageSpecs w2)
    by (destruct Hw3 as [-> | ->]; split; reflexivity).
  destruct Ea3 as [Ea3 Ep3].
  apply package_stored_specs in Hst as (Ea4 & Hk1); [|exact Hspec].
  assert (Rdep' : described host w' deploy depA).
  { eapply recorded_later; [exact Rdep|]. rewrite Ea4, Ea3, Ea2. reflexivity. }
  assert (Rsrc' : described host w' src srcA).
  { eapply recorded_later; [exact Rsrc|]. rewrite Ea4, Ea3, app_nil_r. reflexivity. }
  destruct (recorded_again _ _ _ _ _ _ _ _ Hspec Rdep' Hdep2) as (-> & Eb1 & Eq1).
  assert (Rsrc'' : described host v1 src srcA).
  { eapply recorded_later; [exact Rsrc'|]. rewrite Eb1, app_nil_r. reflexivity. }
  destruct (recorded_again _ _ _ _ _ _ _ _ Hspec Rsrc'' Hsrc2) as (-> & Eb2 & Eq2).
  assert (Eb3 : archiveSpecs v3 = archiveSpecs v2 /\ packageSpecs v3 = packageSpecs v2)
    by (destruct Hv3 as [-> | ->]; split; reflexivity).
  destruct Eb3 as [Eb3 Eq3].
  apply package_stored_specs in Hst2 as (Eb4 & Hk2); [|exact Hspec].
  split; [|split; [congruence|]].
  - unfold known_package in *. rewrite Eq3, Eq2, Eq1 in Hk2.
    cbn [package_made Package.Spec] in *.
    destruct (find _ (packageSpecs w3)) as [known|] eqn:Hfind.
    + destruct Hk1 as [-> Hk1]. rewrite Hk1, Hfind in Hk2. destruct Hk2 as [-> _].
      reflexivity.
    + destruct Hk1 as [-> Hk1]. rewrite Hk1 in Hk2.
      rewrite (find_app_new _ _ _ Hfind) in Hk2
        by (apply bool_decide_eq_true; reflexivity).
      destruct Hk2 as [-> _]. reflexivity.
  - unfold known_package in *. rewrite Eq3, Eq2, Eq1 in Hk2.
    cbn [package_made Package.Spec] in *.
    destruct (find _ (packageSpecs w3)) as [known|] eqn:Hfind.
    + destruct Hk1 as [_ Hk1]. rewrite Hk1, Hfind in Hk2. destruct Hk2 as [_ Hk2].
      congruence.
    + destruct Hk1 as [_ Hk1]. rewrite Hk1 in Hk2.
      rewrite (find_app_new _ _ _ Hfind) in Hk2
        by (apply bool_decide_eq_true; reflexivity).
      destruct Hk2 as [_ Hk2]. congruence.
Qed.

End Recorded.

(** X11. With a spec file, [createPackage] works offline, whatever its
    outcome: it makes no remote call and leaves the control-plane store, the
    disk and the blob store as they were. When it returns, the package it
    has put together starts with the status none when only deployment files
    were given and pending when source files were given; if a package with
    the same spec was recorded already, the metadata of that package is
    returned and nothing is recorded, otherwise the package is recorded and
    its own metadata returned. *)
Theorem createPackage_spec_mode host c ns env envNs src deploy buildcmd specDir specFile
        noZip w r w' :
  nonempty specFile = true ->
  fission_cli.createPackage host c ns env envNs src deploy buildcmd specDir specFile noZip w
  = (r, w') ->
  local_only w w' /\ same_store w w' /\ disk w' = disk w /\ blobs w' = blobs w
  /\ forall meta,
       r = Val meta ->
       exists pkg,
         Package_Namespace pkg = ns
         /\ PackageSpec.Environment (Package.Spec pkg) = EnvironmentReference.mk envNs env
         /\ PackageSpec.BuildCommand (Package.Spec pkg) = buildcmd
         /\ Package.Status pkg = PackageStatus.mk (initial_status src deploy specFile) ""
         /\ match known_package w pkg with
            | Some known =>
                meta = Package.Metadata known /\ packageSpecs w' = packageSpecs w
            | None =>
                meta = Package.Metadata pkg
                /\ packageSpecs w' = (packageSpecs w ++ [pkg])%list
            end.
Proof.
  intros Hspec H.
  destruct (createPackage_offline host c ns env envNs src deploy buildcmd specDir specFile
              noZip Hspec w r w' H) as (H1 & H2 & H3 & H4).
  split; [exact H1|]. split; [exact H2|]. split; [exact H3|]. split; [exact H4|].
  intros meta ->. apply createPackage_inv in H
    as (depA & srcA & w1 & w2 & w3 & suffix & id & Hdep & Hsrc & Hw3 & Hst).
  apply archive_step_recorded in Hdep as (_ & _ & Ep1); [|exact Hspec].
  apply archive_step_recorded in Hsrc as (_ & _ & Ep2); [|exact Hspec].
  assert (Ep3 : packageSpecs w3 = packageSpecs w)
    by (destruct Hw3 as [-> | ->]; wsimpl; congruence).
  apply package_stored_specs in Hst as (_ & Hk); [|exact Hspec].
  unfold known_package in *. rewrite Ep3 in Hk.
  eexists. split; [|split; [|split; [|split; [|exact Hk]]]]; reflexivity.
Qed.

Lemma createPackage_spec_mode_witness :
  nonempty "specs/fn.yaml" = true
  /\ exists meta w',
       fission_cli.createPackage Demo.host (Demo.args [] [] []) "default" "python" "default"
         [] ["deploy.zip"] "" "specs" "specs/fn.yaml" false Demo.world = (Val meta, w')
       /\ local_only Demo.world w'
       /\ packages w' = packages Demo.world.
Proof.
  split; [reflexivity|]. eexists _, _. split; [vm_compute; reflexivity|].
  match goal with
  | |- local_only _ ?w' /\ _ =>
      destruct (createPackage_spec_mode Demo.host (Demo.args [] [] []) "default" "python"
                  "default" [] ["deploy.zip"] "" "specs" "specs/fn.yaml" false
                  Demo.world _ w' eq_refl ltac:(vm_compute; reflexivity))
        as (Hlocal & (Hp & _) & _)
  end.
  split; [exact Hlocal | exact Hp].
Defined.

(** X12. Recording a package twice changes nothing the second time: when
    [createPackage] with a spec file has returned, a second run with the same
    arguments that returns as well gives the same metadata and leaves the
    recorded archive upload specs and packages as the first run left them. *)
Theorem createPackage_spec_idempotent host c ns env envNs src deploy buildcmd specDir
        specFile noZip w meta w' meta2 w'' :
  nonempty specFile = true ->
  fission_cli.createPackage host c ns env envNs src deploy buildcmd specDir specFile noZip w
  = (Val meta, w') ->
  fission_cli.createPackage host c ns env envNs src deploy buildcmd specDir specFile noZip w'
  = (Val meta2, w'') ->
  meta2 = meta /\ archiveSpecs w'' = archiveSpecs w' /\ packageSpecs w'' = packageSpecs w'.
Proof.
  apply createPackage_twice.
Qed.

Lemma createPackage_spec_idempotent_witness :
  nonempty "specs/fn.yaml" = true
  /\ exists meta w' w'',
       fission_cli.createPackage Demo.host (Demo.args [] [] []) "default" "python" "default"
         ["fn.py"] [] "" "specs" "specs/fn.yaml" false Demo.world = (Val meta, w')
       /\ fission_cli.createPackage Demo.host (Demo.args [] [] []) "default" "python"
            "default" ["fn.py"] [] "" "specs" "specs/fn.yaml" false w' = (Val meta, w'')
       /\ packageSpecs w'' = packageSpecs w'.
Proof.
  split; [reflexivity|]. eexists _, _, _.
  split; [vm_compute; reflexivity|]. split; [vm_compute; reflexivity|].
  match goal with
  | |- packageSpecs ?w'' = packageSpecs ?w' =>
      destruct (createPackage_spec_idempotent Demo.host (Demo.args [] [] []) "default"
                  "python" "default" ["fn.py"] [] "" "specs" "specs/fn.yaml" false
                  Demo.world _ w' _ w'' eq_refl
                  ltac:(vm_compute; reflexivity) ltac:(vm_compute; reflexivity))
        as (_ & _ & Hp)
  end.
  exact Hp.
Defined.

(** ** [pkgUpdate]: the guard, the unchanged environment, the other records *)

Lemma functionsReferencing_log op w name ns :
  functionsReferencing (log op w) name ns = functionsReferencing w name ns.
Proof. reflexivity. Qed.

(** Closes a branch in which the command exits or returns at once. *)
Ltac exit_here :=
  let H := fresh "H" in
  intros H; inversion H; subst; repeat split; eauto; try congruence;
  try match goal with
      | X : is_Some None |- _ => destruct X; discriminate
      | X : _ || _ = true |- _ => cbn [orb] in X; discriminate X
      end.

(** X13. Without the force flag, [pkgUpdate] on a package that two
    functions or more share always exits, whichever calls fail, and nothing
    is written: the control-plane store, the disk and the blob store are as
    they were. When the flags are in order and the package and the functions
    can be read, the message is "Package is used by multiple functions, use
    --force to force update" and no archive was made. *)
Theorem pkgUpdate_shared_guard host c w r w' :
  let name := cli.String c "name" in
  let ns := cli.String c "pkgNamespace" in
  cli.Bool c "f" = false ->
  1 < length (functionsReferencing w name ns) ->
  fission_cli.pkgUpdate host c w = (r, w') ->
  (exists msg, r = Fatal msg)
  /\ same_store w w' /\ disk w' = disk w /\ blobs w' = blobs w
  /\ (nonempty name = true ->
      has_items (cli.StringSlice c "src") && has_items (cli.StringSlice c "deploy") = false ->
      nonempty (cli.String c "env") || nonempty (cli.String c "buildcmd")
      || has_items (cli.StringSlice c "src") || has_items (cli.StringSlice c "deploy") = true ->
      is_Some (stored_package w ns name) ->
      fault host (trace w) (OpPackageGet ns name) = false ->
      fault host (OpPackageGet ns name :: trace w) (OpFunctionList ns) = false ->
      r = Fatal "Package is used by multiple functions, use --force to force update"
      /\ w' = log (OpFunctionList ns) (log (OpPackageGet ns name) w)).
Proof.
  intros name ns Hforce Hshared. unfold fission_cli.pkgUpdate. fold name ns.
  rewrite Hforce. munfold.
  assert (Hlen : (1 <? length (functionsReferencing w name ns))%nat = true)
    by (apply Nat.ltb_lt; exact Hshared).
  destruct (nonempty name) eqn:Hname; [|exit_here].
  rewrite bind_run. cbn [ret].
  destruct (has_items (cli.StringSlice c "src")) eqn:Hsrc,
           (has_items (cli.StringSlice c "deploy")) eqn:Hdep,
           (nonempty (cli.String c "env")) eqn:Henv,
           (nonempty (cli.String c "buildcmd")) eqn:Hcmd; cbn [andb negb].
  all: rewrite bind_run; cbn [ret log_.Fatal]; try solve [exit_here].
  all: rewrite bind_run; cbn [ret log_.Fatal]; try solve [exit_here].
  all: rewrite bind_run, PackageGet_run.
  all: destruct (fault host (trace w) (OpPackageGet ns name)) eqn:Hf1;
    [rewrite bind_run; cbn [util.CheckErr log_.Fatal]; exit_here|].
  all: destruct (stored_package w ns name) as [pkg|] eqn:Hpkg;
    [|rewrite bind_run; cbn [util.CheckErr log_.Fatal]; exit_here].
  all: destruct (stored_package_key _ _ _ _ Hpkg) as [Hns Hnm];
    unfold Package_Namespace, Package_Name in Hns, Hnm.
  all: rewrite bind_run; cbn [util.CheckErr ret]; rewrite Hns, Hnm.
  all: rewrite bind_run, getFunctionsByPackage_run; wsimpl.
  all: destruct (fault host _ (OpFunctionList ns)) eqn:Hf2;
    [rewrite bind_run; cbn [util.CheckErr log_.Fatal]; exit_here|].
  all: rewrite bind_run; cbn [util.CheckErr ret]; rewrite functionsReferencing_log, Hlen.
  all: cbn [negb andb]; rewrite bind_run; cbn [log_.Fatal].
  all: exit_here.
Qed.

Lemma pkgUpdate_shared_guard_witness :
  let c := Demo.args [("name", "built"); ("env", "nodejs")] [] [] in
  cli.Bool c "f" = false
  /\ 1 < length (functionsReferencing Demo.world "built" "default")
  /\ exists w',
       fission_cli.pkgUpdate Demo.host c Demo.world
       = (Fatal "Package is used by multiple functions, use --force to force update", w')
       /\ same_store Demo.world w'.
Proof.
  intros c. split; [reflexivity|]. split; [vm_compute; lia|].
  eexists. split; [vm_compute; reflexivity|].
  match goal with
  | |- same_store _ ?w' =>
      destruct (pkgUpdate_shared_guard Demo.host c Demo.world _ w' eq_refl
                  ltac:(vm_compute; lia) ltac:(vm_compute; reflexivity))
        as (_ & Hs & _)
  end.
  exact Hs.
Defined.

Section PkgUpdateMore.
Variable host : Host.

Lemma assigned_nothing pkg :
  assigned pkg "" "" "" None None false = pkg.
Proof. reflexivity. Qed.

Lemma stored_package_replace w w1 ns name stored :
  packages w1 = map (fun q => if client.is_package ns name q then stored else q) (packages w) ->
  Package_Namespace stored = ns -> Package_Name stored = name ->
  forall ns' name',
    (ns', name') <> (ns, name) ->
    stored_package w1 ns' name' = stored_package w ns' name'.
Proof.
  intros Hp Hns Hnm ns' name' Hne. unfold stored_package. rewrite Hp.
  apply find_replace_other.
  - apply not_true_is_false. intros Hk. apply is_meta_true in Hk as [H1 H2].
    apply Hne. unfold Package_Namespace, Package_Name in *. congruence.
  - intros y Hy. apply not_true_is_false. intros Hk.
    apply is_meta_true in Hy as [H1 H2]. apply is_meta_true in Hk as [H3 H4].
    apply Hne. congruence.
Qed.

(** A returning [updatePackage] has replaced the record of its package and
    no other. *)
Lemma updatePackage_others pkg envName envNamespace src deploy buildcmd forceRebuild
      noZip w pkg' r w' :
  fission_cli.updatePackage host pkg envName envNamespace src deploy buildcmd
    forceRebuild noZip w = (Val (pkg', r), w') ->
  forall ns' name',
    (ns', name') <> (Package_Namespace pkg, Package_Name pkg) ->
    stored_package w' ns' name' = stored_package w ns' name'.
Proof.
  intros H. apply updatePackage_inv in H
    as (srcA & depA & w1 & w2 & meta & Hsrc & Hdep & Hpkg & Hupd & _).
  pose proof (archive_made_store _ _ _ _ _ _ Hsrc) as (Hp1 & _).
  pose proof (archive_made_store _ _ _ _ _ _ Hdep) as (Hp2 & _).
  assert (Hmeta : Package.Metadata pkg' = Package.Metadata pkg)
    by (rewrite Hpkg; apply assigned_Metadata).
  apply PackageUpdate_inv in Hupd as [(e & He & _) | (_ & _ & _ & _ & Hp & _)];
    [discriminate|].
  intros ns' name' Hne.
  unfold Package_Namespace, Package_Name in *. rewrite Hmeta in Hp.
  rewrite (stored_package_replace w2 w' _ _ _ Hp);
    [| cbn; rewrite Hmeta; reflexivity | cbn; rewrite Hmeta; reflexivity | exact Hne].
  unfold stored_package. rewrite Hp2, Hp1. reflexivity.
Qed.

End PkgUpdateMore.

(** X14. [pkgUpdate] that names only the environment name the package
    already has, with no build command and no files, goes by the value of
    [--envNamespace] alone, which is "default" when the flag is not given.
    When that value is the environment namespace the package has, or is
    empty, the stored package keeps the spec and the status it had: it is
    not set to pending. For any other value the environment namespace of
    the stored package is replaced by it and the package is set to pending,
    with an empty build log; so that repeating the environment name without
    the namespace flag, for a package whose environment is not in
    "default", moves the package to "default" and asks for a build. Either
    way, unless the command exited before anything was written. *)
Theorem pkgUpdate_same_environment_name host c w r w' pkg :
  let name := cli.String c "name" in
  let ns := cli.String c "pkgNamespace" in
  let envNamespace := cli.String c "envNamespace" in
  let current := PackageSpec.Environment (Package.Spec pkg) in
  fission_cli.pkgUpdate host c w = (r, w') ->
  stored_package w ns name = Some pkg ->
  cli.String c "env" = EnvironmentReference.Name current ->
  cli.String c "buildcmd" = "" ->
  cli.StringSlice c "src" = [] ->
  cli.StringSlice c "deploy" = [] ->
  (exists msg, r = Fatal msg /\ same_store w w')
  \/ (exists stored,
        stored_package w' ns name = Some stored
        /\ if String.eqb envNamespace (EnvironmentReference.Namespace current)
              || negb (nonempty envNamespace)
           then Package.Spec stored = Package.Spec pkg
                /\ Package.Status stored = Package.Status pkg
           else Package.Spec stored
                = PackageSpec.mk
                    (EnvironmentReference.mk envNamespace (EnvironmentReference.Name current))
                    (PackageSpec.Source (Package.Spec pkg))
                    (PackageSpec.Deployment (Package.Spec pkg))
                    (PackageSpec.BuildCommand (Package.Spec pkg))
                /\ Package.Status stored = PackageStatus.mk BuildStatusPending "").
Proof.
  intros name ns envNamespace current H Hpkg Henv Hcmd Hsrc Hdep.
  apply pkgUpdate_inv in H. fold name ns in H.
  destruct H as [H | (pkg0 & w0 & pkg' & meta & w1 & r1 & w2
                       & Hpkg0 & _ & Hup & Hloop & Hr)]; [left; exact H | right].
  rewrite Hpkg in Hpkg0. inversion Hpkg0; subst pkg0. clear Hpkg0.
  destruct (stored_package_key _ _ _ _ Hpkg) as [Hns Hnm].
  assert (He1 : passed_envName c pkg = "").
  { unfold passed_envName. rewrite Henv. fold current. rewrite String.eqb_refl.
    destruct (nonempty _) eqn:Hn; [reflexivity|]. apply nonempty_false in Hn. exact Hn. }
  assert (Hw : packages w' = packages w2)
    by (destruct r1; destruct Hr as [_ ->]; reflexivity).
  apply updateFunctions_packages in Hloop.
  destruct (String.eqb envNamespace (EnvironmentReference.Namespace current)
            || negb (nonempty envNamespace)) eqn:Hcase.
  - assert (He2 : passed_envNamespace c pkg = "").
    { unfold passed_envNamespace. fold envNamespace current.
      destruct (String.eqb envNamespace _); [reflexivity|].
      cbn [orb] in Hcase. apply negb_true_iff in Hcase.
      apply nonempty_false in Hcase. exact Hcase. }
    rewrite He1, He2, Hcmd, Hsrc, Hdep in Hup.
    apply updatePackage_written in Hup
      as (srcA & depA & m & Hs & Hd & Hp & _ & Hst & _ & _).
    assert (srcA = None) as ->.
    { destruct srcA; [|reflexivity]. destruct Hs as [Hs _].
      specialize (Hs (mk_is_Some _ _ eq_refl)). discriminate Hs. }
    assert (depA = None) as ->.
    { destruct depA; [|reflexivity]. destruct Hd as [Hd _].
      specialize (Hd (mk_is_Some _ _ eq_refl)). discriminate Hd. }
    cbn in Hp. subst pkg'.
    rewrite Hns, Hnm in Hst.
    eexists. split.
    + unfold stored_package in *. rewrite Hw, Hloop. exact Hst.
    + split; reflexivity.
  - apply orb_false_iff in Hcase as [Hother Hgiven]. apply negb_false_iff in Hgiven.
    assert (He2 : passed_envNamespace c pkg = envNamespace).
    { unfold passed_envNamespace. fold envNamespace current. rewrite Hother. reflexivity. }
    rewrite He1, He2, Hcmd, Hsrc, Hdep in Hup.
    apply updatePackage_written in Hup
      as (srcA & depA & m & Hs & Hd & Hp & _ & Hst & _ & _).
    assert (srcA = None) as ->.
    { destruct srcA; [|reflexivity]. destruct Hs as [Hs _].
      specialize (Hs (mk_is_Some _ _ eq_refl)). discriminate Hs. }
    assert (depA = None) as ->.
    { destruct depA; [|reflexivity]. destruct Hd as [Hd _].
      specialize (Hd (mk_is_Some _ _ eq_refl)). discriminate Hd. }
    unfold assigned, needToBuild_of in Hp. rewrite Hgiven in Hp. cbn in Hp. subst pkg'.
    rewrite Hns, Hnm in Hst.
    eexists. split.
    + unfold stored_package in *. rewrite Hw, Hloop. exact Hst.
    + destruct pkg as [meta0 [[envNs0 envName0] srcA0 depA0 cmd0] status0].
      split; reflexivity.
Qed.

Lemma pkgUpdate_same_environment_name_witness :
  let c := Demo.args [("name", "broken"); ("env", "python")] [] [] in
  let c' := Demo.args [("name", "roaming"); ("env", "python")] [] [] in
  (exists w' stored,
      fission_cli.pkgUpdate Demo.host c Demo.world = (Val None, w')
      /\ stored_package w' "default" "broken" = Some stored
      /\ Package.Spec stored = Package.Spec (Demo.package "broken" BuildStatusFailed "")
      /\ Package.Status stored = PackageStatus.mk BuildStatusFailed "exit status 1")
  /\ (exists w' stored,
         fission_cli.pkgUpdate Demo.host c' Demo.abroad = (Val None, w')
         /\ stored_package w' "default" "roaming" = Some stored
         /\ PackageSpec.Environment (Package.Spec stored)
            = EnvironmentReference.mk "default" "python"
         /\ Package.Status stored = PackageStatus.mk BuildStatusPending "").
Proof.
  intros c c'. split.
  - eexists.
    match goal with
    | |- exists stored, ?run = (_, ?w') /\ _ =>
        destruct (pkgUpdate_same_environment_name Demo.host c Demo.world (Val None) w'
                    (Demo.package "broken" BuildStatusFailed "exit status 1"))
          as [(msg & Hr & _) | (stored & H1 & H2 & H3)]
    end.
    + vm_compute. reflexivity.
    + vm_compute. reflexivity.
    + reflexivity.
    + reflexivity.
    + reflexivity.
    + reflexivity.
    + discriminate Hr.
    + exists stored. split; [vm_compute; reflexivity|]. split; [exact H1|].
      split; [exact H2 | exact H3].
  - eexists.
    match goal with
    | |- exists stored, ?run = (_, ?w') /\ _ =>
        destruct (pkgUpdate_same_environment_name Demo.host c' Demo.abroad (Val None) w'
                    Demo.roaming)
          as [(msg & Hr & _) | (stored & H1 & H2 & H3)]
    end.
    + vm_compute. reflexivity.
    + vm_compute. reflexivity.
    + reflexivity.
    + reflexivity.
    + reflexivity.
    + reflexivity.
    + discriminate Hr.
    + exists stored. split; [vm_compute; reflexivity|]. split; [exact H1|].
      split; [rewrite H2; reflexivity | exact H3].
Defined.

(** X15. [pkgUpdate] touches the record of its package and the records of
    the functions it found for it, and no other: every other package and
    every other function is stored afterwards as it was before, whatever the
    outcome of the command. *)
Theorem pkgUpdate_others_untouched host c w r w' :
  let name := cli.String c "name" in
  let ns := cli.String c "pkgNamespace" in
  function_keys_unique w ->
  fission_cli.pkgUpdate host c w = (r, w') ->
  (forall ns' name',
      (ns', name') <> (ns, name) ->
      stored_package w' ns' name' = stored_package w ns' name')
  /\ (forall ns' name',
         ~ In (ns', name') (map function_key (functionsReferencing w name ns)) ->
         stored_function w' ns' name' = stored_function w ns' name').
Proof.
  intros name ns Hnd H. apply pkgUpdate_inv in H. fold name ns in H.
  destruct H as [(msg & _ & Hp & Hf & _) | (pkg & w0 & pkg' & meta & w1 & r1 & w2
                       & Hpkg & Hs0 & Hup & Hloop & Hr)].
  { unfold stored_package, stored_function. rewrite Hp, Hf. split; reflexivity. }
  destruct (stored_package_key _ _ _ _ Hpkg) as [Hns Hnm].
  destruct Hs0 as (Hp0 & Hf0 & _).
  pose proof (updatePackage_others host _ _ _ _ _ _ _ _ _ _ _ _ Hup) as Hothers.
  rewrite Hns, Hnm in Hothers.
  apply updatePackage_written in Hup as (_ & _ & m & _ & _ & _ & _ & _ & _ & Hfn1).
  assert (Hfw : functions w1 = functions w) by congruence.
  assert (Hkeys : NoDup (map function_key (functionsReferencing w name ns))).
  { unfold functionsReferencing. apply NoDup_map_filter, NoDup_map_filter. exact Hnd. }
  assert (Hstored : forall fn, In fn (functionsReferencing w name ns) -> untouched w1 fn).
  { intros fn Hin. unfold untouched, stored_function. rewrite Hfw.
    apply untouched_stored; [exact Hnd|].
    unfold functionsReferencing in Hin. apply filter_In in Hin as [Hin _].
    apply filter_In in Hin as [Hin _]. exact Hin. }
  pose proof (updateFunctions_packages host _ _ _ _ _ Hloop) as Hpk.
  apply updateFunctions_spec in Hloop
    as (done & rest & Hsplit & _ & _ & Hkeep & _); [|exact Hkeys|exact Hstored].
  assert (Hw : packages w' = packages w2 /\ functions w' = functions w2)
    by (destruct r1; destruct Hr as [_ ->]; split; reflexivity).
  destruct Hw as [Hwp Hwf]. split.
  - intros ns' name' Hne. unfold stored_package in *.
    rewrite Hwp, Hpk, (Hothers ns' name' Hne), Hp0. reflexivity.
  - intros ns' name' Hnot. unfold stored_function in *. rewrite Hwf, Hkeep.
    + rewrite Hfw. reflexivity.
    + intros Hin. apply Hnot. rewrite Hsplit, map_app. apply in_or_app. left. exact Hin.
Qed.

Lemma pkgUpdate_others_untouched_witness :
  let c := Demo.args [("name", "built"); ("env", "nodejs")] [("f", true)] [] in
  function_keys_unique Demo.world
  /\ exists w',
       fission_cli.pkgUpdate Demo.host c Demo.world = (Val None, w')
       /\ stored_package w' "default" "queued" = stored_package Demo.world "default" "queued"
       /\ stored_function w' "default" "h" = stored_function Demo.world "default" "h".
Proof.
  intros c.
  assert (Hnd : function_keys_unique Demo.world).
  { unfold function_keys_unique. apply (bool_decide_unpack _). vm_compute. exact I. }
  split; [exact Hnd|]. eexists. split; [vm_compute; reflexivity|].
  match goal with
  | |- stored_package ?w' _ _ = _ /\ _ =>
      destruct (pkgUpdate_others_untouched Demo.host c Demo.world (Val None) w' Hnd
                  ltac:(vm_compute; reflexivity)) as [Hp Hf]
  end.
  split; [apply Hp; discriminate|]. apply Hf. vm_compute.
  intros [H | [H | []]]; discriminate H.
Defined.

(** ** Deleting packages *)

Lemma filter_nil_iff {A} (f : A -> bool) (l : list A) :
  (forall x, In x l -> f x = false) -> List.filter f l = [].
Proof.
  induction l as [|x l IH]; intros H; simpl; [reflexivity|].
  rewrite (H x (or_introl eq_refl)). apply IH. intros y Hy. apply H. right. exact Hy.
Qed.

Lemma filter_comm {A} (f g : A -> bool) (l : list A) :
  List.filter f (List.filter g l) = List.filter g (List.filter f l).
Proof.
  induction l as [|x l IH]; simpl; [reflexivity|].
  destruct (f x) eqn:Hf, (g x) eqn:Hg; simpl; rewrite ?Hf, ?Hg, IH; reflexivity.
Qed.

(** X16. [pkgDelete] of a named package without the force flag: when no
    function of the namespace of the package carries its name in its package
    reference and no call fails, the package is deleted, whatever functions
    of other namespaces refer to it. Its record is gone, every other package
    and every function is as before, and the calls made are the lookup of
    the package, the listing of the functions of its namespace and the
    deletion. *)
Theorem pkgDelete_unreferenced host c w :
  let name := cli.String c "name" in
  let ns := cli.String c "pkgNamespace" in
  nonempty name = true ->
  cli.Bool c "orphan" = false ->
  healthy host ->
  is_Some (stored_package w ns name) ->
  (forall fn, In fn (functions w) ->
              ObjectMeta.Namespace (Function.Metadata fn) = ns ->
              fission_cli.PackageRef_Name fn <> name) ->
  exists w',
    fission_cli.pkgDelete host c w = (Val None, w')
    /\ stored_package w' ns name = None
    /\ packages w' = List.filter (fun q => negb (client.is_package ns name q)) (packages w)
    /\ functions w' = functions w
    /\ trace w' = (OpPrint ("Package '" ++ name ++ "' deleted" ++ nl)
                     :: OpPackageDelete ns name :: OpFunctionList ns
                     :: OpPackageGet ns name :: trace w).
Proof.
  intros name ns Hname Horphan Hh [pkg Hpkg] Hnone.
  assert (Hrefs : functionsReferencing w name ns = []).
  { unfold functionsReferencing. apply filter_nil_iff. intros fn Hin.
    apply filter_In in Hin as [Hin Hns]. apply String.eqb_eq in Hns.
    apply String.eqb_neq. apply Hnone; assumption. }
  unfold fission_cli.pkgDelete. fold name ns. rewrite Hname, Horphan. cbn [negb andb].
  munfold. rewrite bind_run, PackageGet_run, Hh, Hpkg.
  rewrite bind_run. cbn [util.CheckErr ret].
  rewrite bind_run, getFunctionsByPackage_run, Hh. rewrite functionsReferencing_log, Hrefs.
  cbn [has_items]. rewrite andb_false_r, bind_run. cbn [ret].
  rewrite bind_run, deletePackage_run, Hh.
  unfold stored_package in *. wsimpl. rewrite Hpkg.
  rewrite bind_run. cbn [fmt.Printf modify ret].
  eexists. split; [reflexivity|]. wsimpl.
  split; [apply find_filter_negb|]. repeat split.
Qed.

Lemma pkgDelete_unreferenced_witness :
  let c := Demo.args [("name", "orphan1")] [] [] in
  In (Demo.function "staging" "k" "orphan1") (functions Demo.crossed)
  /\ exists w',
       fission_cli.pkgDelete Demo.host c Demo.crossed = (Val None, w')
       /\ stored_package w' "default" "orphan1" = None.
Proof.
  intros c. split; [vm_compute; auto 10|].
  destruct (pkgDelete_unreferenced Demo.host c Demo.crossed) as (w' & Hrun & Hgone & _).
  - reflexivity.
  - reflexivity.
  - intros calls op. reflexivity.
  - vm_compute. eauto.
  - intros fn Hin Hns Href. vm_compute in Hin.
    repeat (destruct Hin as [<- | Hin]; [vm_compute in Hns, Href; discriminate|]).
    exact Hin.
  - exists w'. split; [exact Hrun | exact Hgone].
Defined.

(** X17. The orphan sweep is idempotent: when [deleteOrphanPkgs] has
    returned nil, the namespace has no orphan left, the packages that
    functions refer to are all still there, and a second sweep, whatever its
    outcome, attempts no deletion and leaves the store as it is. *)
Theorem deleteOrphanPkgs_idempotent host ns w w' :
  fission_cli.deleteOrphanPkgs host ns w = (Val None, w') ->
  orphans w' ns = []
  /\ packages_in w' ns = List.filter (fun p => negb (is_orphan w ns p)) (packages_in w ns)
  /\ forall r w'',
       fission_cli.deleteOrphanPkgs host ns w' = (r, w'') ->
       same_store w' w''
       /\ delete_attempts (trace w'') = delete_attempts (trace w').
Proof.
  intros H.
  assert (Hsweep : forall v r v',
             fission_cli.deleteOrphanPkgs host ns v = (r, v') ->
             (r <> Val None /\ v' = log (OpPackageList ns) v)
             \/ exists deleted remaining,
                  orphans v ns = (deleted ++ remaining)%list
                  /\ functions v' = functions v
                  /\ packages v' = without ns deleted (packages v)
                  /\ revision v' = revision v
                  /\ (r = Val None -> remaining = [])
                  /\ (remaining = [] ->
                      delete_attempts (trace v')
                      = (rev (map (sweep_key ns) deleted) ++ delete_attempts (trace v))%list)).
  { intros v r v'. unfold fission_cli.deleteOrphanPkgs. munfold.
    rewrite bind_run, PackageList_run.
    destruct (fault host (trace v) (OpPackageList ns)).
    { intros E; inversion E; subst. left. split; [discriminate | reflexivity]. }
    intros E. right.
    assert (Hrev : revision v' = revision v).
    { eapply (keeps_run (fun a b => revision b = revision a)) in E; [exact E|].
      clear. generalize (packages_in v ns). intros l.
      induction l as [|p l IH]; cbn [fission_cli.deleteOrphanPkgs_range].
      - intros a r b Hr. inversion Hr; subst. reflexivity.
      - intros a r b. munfold. rewrite bind_run, getFunctionsByPackage_run.
        destruct (fault host _ _); [intros Hr; inversion Hr; reflexivity|].
        rewrite bind_run. cbn [util.CheckErr ret].
        destruct (has_items _); [intros Hr; apply IH in Hr; exact Hr|].
        rewrite bind_run, deletePackage_run.
        destruct (fault host _ _); [intros Hr; inversion Hr; reflexivity|].
        destruct (stored_package _ _ _); [|intros Hr; inversion Hr; reflexivity].
        intros Hr. apply IH in Hr. exact Hr. }
    apply range_sweep in E as (deleted & remaining & Hf & Hfn & Hpk & Hr).
    exists deleted, remaining. split; [exact Hf|]. split; [exact Hfn|].
    split; [exact Hpk|]. split; [exact Hrev|]. split.
    - intros ->. destruct Hr as [Hr _]. exact Hr.
    - intros ->. destruct r as [[e|]|msg].
      + destruct Hr as (p & rest & Hr & _). discriminate Hr.
      + destruct Hr as [_ Hr]. exact Hr.
      + exact Hr. }
  pose proof (Hsweep _ _ _ H) as [[Habs _] | (deleted & remaining & Ho & Hfn & Hpk & _ & Hnil & _)];
    [congruence|].
  specialize (Hnil eq_refl). subst remaining. rewrite app_nil_r in Ho.
  assert (Horph : forall p, is_orphan w' ns p = is_orphan w ns p).
  { intros p. unfold is_orphan, functionsReferencing. rewrite Hfn. reflexivity. }
  assert (Hdel : forall q, In q (packages_in w ns) ->
                   negb (existsb (fun p => client.is_package ns (Package_Name p) q) deleted)
                   = negb (is_orphan w ns q)).
  { intros q Hq. f_equal. unfold packages_in in Hq. apply filter_In in Hq as [Hq Hns].
    apply String.eqb_eq in Hns.
    destruct (is_orphan w ns q) eqn:Hoq.
    - apply existsb_exists. exists q. split.
      + rewrite <- Ho. unfold orphans, packages_in. apply filter_In. split; [|exact Hoq].
        apply filter_In. split; [exact Hq | apply String.eqb_eq; exact Hns].
      + apply is_meta_true. split; [exact Hns | reflexivity].
    - apply not_true_is_false. intros Hex.
      apply existsb_exists in Hex as (p & Hp & Hkey).
      rewrite <- Ho in Hp. unfold orphans in Hp. apply filter_In in Hp as [_ Hop].
      apply is_meta_true in Hkey as [_ Hnm].
      unfold is_orphan, Package_Name in *. rewrite Hnm in Hoq. congruence. }
  assert (Hin : packages_in w' ns
                = List.filter (fun p => negb (is_orphan w ns p)) (packages_in w ns)).
  { unfold packages_in at 1. rewrite Hpk. unfold without. rewrite filter_comm.
    apply filter_ext_in. exact Hdel. }
  assert (Hnone : orphans w' ns = []).
  { unfold orphans. rewrite Hin. apply filter_nil_iff. intros q Hq.
    apply filter_In in Hq as [_ Hq]. rewrite Horph. apply negb_true_iff. exact Hq. }
  split; [exact Hnone|]. split; [exact Hin|].
  intros r w'' H2.
  apply Hsweep in H2 as [[_ ->] | (deleted' & remaining' & Ho' & Hfn' & Hpk' & Hrev' & _ & Hatt)].
  { split; [repeat split | reflexivity]. }
  rewrite Hnone in Ho'. symmetry in Ho'. apply app_eq_nil in Ho' as [-> ->].
  rewrite without_nil in Hpk'. split; [repeat split; assumption|].
  rewrite (Hatt eq_refl). reflexivity.
Qed.

Lemma deleteOrphanPkgs_idempotent_witness :
  exists w',
    fission_cli.deleteOrphanPkgs Demo.host "default" Demo.world = (Val None, w')
    /\ orphans w' "default" = []
    /\ exists w'',
         fission_cli.deleteOrphanPkgs Demo.host "default" w' = (Val None, w'')
         /\ packages w'' = packages w'.
Proof.
  eexists. split; [vm_compute; reflexivity|].
  match goal with
  | |- orphans ?w' _ = [] /\ _ =>
      destruct (deleteOrphanPkgs_idempotent Demo.host "default" Demo.world w'
                  ltac:(vm_compute; reflexivity)) as (Hnone & _ & Hagain)
  end.
  split; [exact Hnone|]. eexists. split; [vm_compute; reflexivity|].
  match goal with
  | |- packages ?w'' = _ =>
      destruct (Hagain (Val None) w'' ltac:(vm_compute; reflexivity)) as ((Hp & _) & _)
  end.
  exact Hp.
Defined.

(** ** The commands that read *)

Lemma append_assoc (a b c : string) : ((a ++ b) ++ c = a ++ (b ++ c))%string.
Proof.
  induction a as [|x a IH]; [reflexivity|].
  change (String x ((a ++ b) ++ c) = String x (a ++ (b ++ c))). f_equal. exact IH.
Qed.

Lemma append_nil_r (a : string) : (a ++ "" = a)%string.
Proof.
  induction a as [|x a IH]; [reflexivity|].
  change (String x (a ++ "") = String x a). f_equal. exact IH.
Qed.

Lemma stores_kept_refl w : stores_kept w w.
Proof. repeat split. Qed.

Lemma stores_kept_trans w1 w2 w3 : stores_kept w1 w2 -> stores_kept w2 w3 -> stores_kept w1 w3.
Proof.
  intros (S1 & B1 & A1 & P1) (S2 & B2 & A2 & P2).
  split; [eapply same_store_trans; eassumption|]. repeat split; congruence.
Qed.

Lemma nothing_written_refl w : nothing_written w w.
Proof. repeat split. Qed.

Lemma nothing_written_trans w1 w2 w3 :
  nothing_written w1 w2 -> nothing_written w2 w3 -> nothing_written w1 w3.
Proof.
  intros [S1 D1] [S2 D2]. split; [eapply stores_kept_trans; eassumption | congruence].
Qed.

Lemma nothing_written_stores w w' : nothing_written w w' -> stores_kept w w'.
Proof. intros [H _]. exact H. Qed.

Create HintDb reads.

Section Reads.
Variable host : Host.
Variable lib : Library.

Ltac leaf := intros w r w' H; revert H.
Ltac done_leaf := intros H; inversion H; subst; repeat split.

Lemma PackageGet_reads m : keeps nothing_written (client.PackageGet host m).
Proof. destruct m as [name ns rv]. leaf. rewrite PackageGet_run. done_leaf. Qed.

Lemma PackageList_reads ns : keeps nothing_written (client.PackageList host ns).
Proof. leaf. rewrite PackageList_run. done_leaf. Qed.

Lemma getFunctionsByPackage_reads name ns :
  keeps nothing_written (fission_cli.getFunctionsByPackage host name ns).
Proof. leaf. rewrite getFunctionsByPackage_run. done_leaf. Qed.

Lemma DownloadURL_reads url : keeps nothing_written (_package.DownloadURL host url).
Proof. leaf. rewrite DownloadURL_run. done_leaf. Qed.

Lemma Printf_reads text : keeps nothing_written (fmt.Printf text).
Proof. leaf. done_leaf. Qed.

Lemma attempt_reads op : keeps nothing_written (attempt host op).
Proof. leaf. done_leaf. Qed.

Lemma GetTempDir_stores : keeps stores_kept (utils.GetTempDir host).
Proof. leaf. rewrite GetTempDir_run. destruct (fault host _ _); done_leaf. Qed.

Lemma Create_stores path : keeps stores_kept (os.Create host path).
Proof. leaf. rewrite Create_run. destruct (fault host _ _); done_leaf. Qed.

Lemma WriteArchiveToFile_stores f content :
  keeps stores_kept (_package.WriteArchiveToFile host f content).
Proof.
  leaf. unfold _package.WriteArchiveToFile.
  run_step (GetTempDir_run host); [done_leaf|].
  run_step (Create_run host); [done_leaf|].
  run_step (CopyToFile_run host); [done_leaf|].
  run_step (Chmod_run host); [done_leaf|].
  rewrite bind_run, Rename_run. wsimpl.
  destruct (fault host _ (OpRename _ _)); [done_leaf|].
  rewrite lookup_insert_eq. done_leaf.
Qed.

Hint Resolve PackageGet_reads PackageList_reads getFunctionsByPackage_reads
  DownloadURL_reads Printf_reads attempt_reads : reads.

Ltac read_step R_refl R_trans :=
  match goal with
  | |- keeps _ (mbind _ _) => munfold; apply keeps_bind; [exact R_trans | | intros]
  | |- keeps _ (bind _ _) => apply keeps_bind; [exact R_trans | | intros]
  | |- keeps _ (ret _) => apply keeps_ret; exact R_refl
  | |- keeps _ (log_.Fatal _) => apply keeps_Fatal; exact R_refl
  | |- keeps _ fission_cli.nil_dereference => apply keeps_Fatal; exact R_refl
  | |- keeps _ (util.CheckErr _ _) => apply keeps_CheckErr; exact R_refl
  | |- keeps _ (util.CheckError _ _) => apply keeps_CheckError; exact R_refl
  | |- keeps _ (match ?x with _ => _ end) => destruct x
  | |- keeps _ (let _ := _ in _) => cbv zeta
  | |- keeps _ _ => solve [eauto with reads]
  end.

Lemma archiveReader_reads archive :
  keeps nothing_written (fission_cli.archiveReader host lib archive).
Proof.
  unfold fission_cli.archiveReader, fission_cli.downloadStoragesvcURL.
  repeat read_step nothing_written_refl nothing_written_trans.
Qed.

Lemma copyToStdout_reads reader :
  keeps nothing_written (fission_cli.copyToStdout host reader).
Proof.
  unfold fission_cli.copyToStdout.
  repeat read_step nothing_written_refl nothing_written_trans.
Qed.

Lemma keeps_weaken {A} (R S : World -> World -> Prop) (m : M A) :
  (forall w w', R w w' -> S w w') -> keeps R m -> keeps S m.
Proof. intros HRS Hm w r w' H. apply HRS. eapply Hm. exact H. Qed.

Lemma writeArchive_stores output reader :
  keeps stores_kept (fission_cli.writeArchive host output reader).
Proof.
  pose proof GetTempDir_stores. pose proof Create_stores.
  pose proof WriteArchiveToFile_stores.
  unfold fission_cli.writeArchive.
  repeat read_step stores_kept_refl stores_kept_trans; eauto.
Qed.

Lemma pkgList_orphans_reads pkgList :
  forall w, keeps nothing_written (fission_cli.pkgList_orphans host pkgList w).
Proof.
  induction pkgList as [|pkg rest IH]; intros w; cbn [fission_cli.pkgList_orphans].
  - apply keeps_ret. exact nothing_written_refl.
  - cbv zeta. repeat read_step nothing_written_refl nothing_written_trans; apply IH.
Qed.

Hint Resolve archiveReader_reads copyToStdout_reads pkgList_orphans_reads : reads.

Lemma pkgInfo_reads c : keeps nothing_written (fission_cli.pkgInfo host lib c).
Proof.
  unfold fission_cli.pkgInfo.
  repeat read_step nothing_written_refl nothing_written_trans.
Qed.

Lemma pkgList_reads c : keeps nothing_written (fission_cli.pkgList host lib c).
Proof.
  unfold fission_cli.pkgList.
  repeat read_step nothing_written_refl nothing_written_trans.
Qed.

Lemma get_stores (select : PackageSpec.t -> Archive.t) c :
  keeps stores_kept (get_command host lib select c).
Proof.
  pose proof writeArchive_stores as Hw.
  assert (Hweak : forall A (m : M A), keeps nothing_written m -> keeps stores_kept m)
    by (intros A m; apply keeps_weaken, nothing_written_stores).
  unfold get_command. cbv zeta.
  repeat read_step stores_kept_refl stores_kept_trans;
    solve [eauto | apply Hweak; eauto with reads].
Qed.

Lemma get_stdout_reads (select : PackageSpec.t -> Archive.t) c :
  nonempty (cli.String c "output") = false ->
  keeps nothing_written (get_command host lib select c).
Proof.
  intros Hout. unfold get_command. cbv zeta. rewrite Hout.
  repeat read_step nothing_written_refl nothing_written_trans.
Qed.

End Reads.

(** X18. The commands that read write nothing to the control plane, the
    blob store or the spec files, whatever their outcome: [pkgInfo] and
    [pkgList] leave the disk alone as well, and so do [pkgSourceGet] and
    [pkgDeployGet] when they are given no output file. *)
Theorem reading_commands_write_nothing host lib c w r w' :
  (fission_cli.pkgInfo host lib c w = (r, w') -> nothing_written w w')
  /\ (fission_cli.pkgList host lib c w = (r, w') -> nothing_written w w')
  /\ (fission_cli.pkgSourceGet host lib c w = (r, w') ->
      stores_kept w w' /\ (nonempty (cli.String c "output") = false -> disk w' = disk w))
  /\ (fission_cli.pkgDeployGet host lib c w = (r, w') ->
      stores_kept w w' /\ (nonempty (cli.String c "output") = false -> disk w' = disk w)).
Proof.
  split; [apply pkgInfo_reads|]. split; [apply pkgList_reads|]. split; intros H.
  - split; [eapply (get_stores host lib PackageSpec.Source); exact H|].
    intros Hout. eapply (get_stdout_reads host lib PackageSpec.Source); eassumption.
  - split; [eapply (get_stores host lib PackageSpec.Deployment); exact H|].
    intros Hout. eapply (get_stdout_reads host lib PackageSpec.Deployment); eassumption.
Qed.

Lemma reading_commands_write_nothing_witness :
  exists w',
    fission_cli.pkgList Demo.host Demo.lib (Demo.args [] [("orphan", true)] []) Demo.world
    = (Val None, w')
    /\ nothing_written Demo.world w'.
Proof.
  eexists. split; [vm_compute; reflexivity|].
  match goal with
  | |- nothing_written _ ?w' =>
      destruct (reading_commands_write_nothing Demo.host Demo.lib
                  (Demo.args [] [("orphan", true)] []) Demo.world (Val None) w')
        as (_ & H & _)
  end.
  apply H. vm_compute. reflexivity.
Defined.

(** ** [pkgList]: the rows of the table *)

Lemma concat_rows (x : string) (xs : list string) :
  String.concat "" (x :: xs) = x ++ String.concat "" xs.
Proof.
  destruct xs as [|y ys]; [symmetry; apply append_nil_r | reflexivity].
Qed.

Lemma fold_rows (l : list Package.t) :
  forall acc,
    fold_left (fun w pkg => w ++ fission_cli.pkgList_row pkg) l acc
    = acc ++ String.concat "" (map fission_cli.pkgList_row l).
Proof.
  induction l as [|p l IH]; intros acc.
  - symmetry. apply append_nil_r.
  - cbn [fold_left map]. rewrite IH, concat_rows, append_assoc. reflexivity.
Qed.

Lemma logged_repeat_shift op n v :
  logged (repeat op n) (log op v) = logged (op :: repeat op n) v.
Proof.
  induction n as [|n IH]; [reflexivity|].
  change (logged (repeat op (S n)) (log op v)) with (log op (logged (repeat op n) (log op v))).
  rewrite IH. reflexivity.
Qed.

Lemma pkgList_orphans_run host ns (l : list Package.t) :
  Forall (fun p => Package_Namespace p = ns) l ->
  forall acc v t v',
    fission_cli.pkgList_orphans host l acc v = (Val t, v') ->
    t = acc ++ String.concat "" (map fission_cli.pkgList_row (List.filter (is_orphan v ns) l))
    /\ v' = logged (repeat (OpFunctionList ns) (length l)) v.
Proof.
  induction 1 as [|p l Hp _ IH]; intros acc v t v'; cbn [fission_cli.pkgList_orphans].
  - intros H; inversion H; subst. split; [symmetry; apply append_nil_r | reflexivity].
  - cbv zeta. unfold Package_Namespace in Hp. rewrite Hp. munfold.
    rewrite bind_run, getFunctionsByPackage_run.
    destruct (fault host _ _); [discriminate|].
    rewrite bind_run. cbn [util.CheckErr ret List.filter length repeat].
    unfold is_orphan at 1. fold (Package_Name p).
    destruct (has_items (functionsReferencing v (Package_Name p) ns)); cbn [negb];
      intros H; apply IH in H as [-> ->].
    + split; [reflexivity | apply logged_repeat_shift].
    + split; [cbn [map]; rewrite concat_rows, append_assoc; reflexivity|].
      apply logged_repeat_shift.
Qed.

(** X19. When [pkgList] returns nil it has printed one table: the heading
    and one row, with name, build status and environment, for every package
    of the namespace, in the order of the listing; under the orphan flag,
    for exactly the packages of the namespace that no function of the
    namespace refers to, which are the packages that the orphan sweep
    deletes. It lists the functions once for every package under the orphan
    flag and not at all without it. *)
Theorem pkgList_rows host lib c w w' :
  let ns := cli.String c "pkgNamespace" in
  fission_cli.pkgList host lib c w = (Val None, w') ->
  if cli.Bool c "orphan"
  then w' = log (OpPrint (tabwriter lib (table_of (orphans w ns))))
              (logged (repeat (OpFunctionList ns) (length (packages_in w ns)))
                 (log (OpPackageList ns) w))
  else w' = log (OpPrint (tabwriter lib (table_of (packages_in w ns))))
              (log (OpPackageList ns) w).
Proof.
  intros ns. unfold fission_cli.pkgList. fold ns. munfold.
  rewrite bind_run, PackageList_run.
  destruct (fault host _ _); [discriminate|].
  cbv zeta. rewrite bind_run.
  destruct (cli.Bool c "orphan").
  - destruct (fission_cli.pkgList_orphans host (packages_in w ns) _ _)
      as [[t|msg] v'] eqn:Hloop; [|discriminate].
    apply (pkgList_orphans_run host ns) in Hloop as [-> ->].
    + rewrite bind_run. cbn [fmt.Printf modify ret]. intros H; inversion H; subst.
      unfold table_of, orphans. rewrite !append_assoc. reflexivity.
    + unfold packages_in. apply Forall_forall. intros p Hp.
      apply list_elem_of_In, filter_In in Hp as [_ Hp]. apply String.eqb_eq in Hp. exact Hp.
  - cbn [ret]. rewrite bind_run. cbn [fmt.Printf modify ret].
    intros H; inversion H; subst. rewrite fold_rows. unfold table_of.
    rewrite !append_assoc. reflexivity.
Qed.

Lemma pkgList_rows_witness :
  exists w',
    fission_cli.pkgList Demo.host Demo.lib (Demo.args [] [("orphan", true)] []) Demo.world
    = (Val None, w')
    /\ head (trace w')
       = Some (OpPrint (table_of [Demo.package "broken" BuildStatusFailed "exit status 1";
                                  Demo.package "orphan1" BuildStatusSucceeded "";
                                  Demo.package "orphan2" BuildStatusSucceeded ""])).
Proof.
  eexists. split; [vm_compute; reflexivity|].
  match goal with
  | |- context [trace ?w'] =>
      pose proof (pkgList_rows Demo.host Demo.lib (Demo.args [] [("orphan", true)] [])
                    Demo.world w' ltac:(vm_compute; reflexivity)) as H
  end.
  cbv zeta in H. change (cli.Bool (Demo.args [] [("orphan", true)] []) "orphan") with true in H.
  cbv iota in H. rewrite H. vm_compute. reflexivity.
Defined.

(** ** [pkgSourceGet] and [pkgDeployGet] *)

Section Get.
Variable host : Host.
Variable lib : Library.

Lemma pkgSourceGet_command c :
  fission_cli.pkgSourceGet host lib c = get_command host lib PackageSpec.Source c.
Proof. reflexivity. Qed.

Lemma pkgDeployGet_command c :
  fission_cli.pkgDeployGet host lib c = get_command host lib PackageSpec.Deployment c.
Proof. reflexivity. Qed.

Lemma WriteArchiveToFile_healthy f content w :
  healthy host ->
  exists w',
    _package.WriteArchiveToFile host f content w = (Val None, w')
    /\ disk w' !! f = Some content.
Proof.
  intros Hh. unfold _package.WriteArchiveToFile. munfold.
  rewrite bind_run, GetTempDir_run, Hh. rewrite bind_run, Create_run, Hh.
  rewrite bind_run, CopyToFile_run, Hh. rewrite bind_run, Chmod_run, Hh.
  rewrite bind_run, Rename_run, Hh. wsimpl. rewrite lookup_insert_eq.
  eexists. split; [reflexivity|]. wsimpl. apply lookup_insert_eq.
Qed.

(** The command once the package is found. *)
Lemma get_command_found select c w pkg :
  let name := cli.String c "name" in
  let ns := cli.String c "pkgNamespace" in
  nonempty name = true ->
  fault host (trace w) (OpPackageGet ns name) = false ->
  stored_package w ns name = Some pkg ->
  get_command host lib select c w
  = bind (fission_cli.archiveReader host lib (select (Package.Spec pkg)))
      (fun reader =>
         if nonempty (cli.String c "output")
         then fission_cli.writeArchive host (cli.String c "output") reader
         else fission_cli.copyToStdout host reader)
      (log (OpPackageGet ns name) w).
Proof.
  intros name ns Hname Hf Hpkg. unfold get_command. fold name ns. rewrite Hname. munfold.
  rewrite bind_run. cbn [ret]. rewrite bind_run, PackageGet_run, Hf, Hpkg. reflexivity.
Qed.

Lemma deliver_healthy output content w :
  healthy host ->
  exists w',
    (if nonempty output then fission_cli.writeArchive host output (Some content)
     else fission_cli.copyToStdout host (Some content)) w = (Val None, w')
    /\ delivered output content w w'.
Proof.
  intros Hh. unfold delivered. destruct (nonempty output).
  - cbn [fission_cli.writeArchive]. apply WriteArchiveToFile_healthy, Hh.
  - cbn [fission_cli.copyToStdout]. munfold. rewrite bind_run. unfold attempt.
    rewrite Hh. cbn [negb ret]. eexists. split; [reflexivity|]. split; reflexivity.
Qed.

Lemma delivered_log output content op w w' :
  delivered output content (log op w) w' -> delivered output content w w'.
Proof. unfold delivered. destruct (nonempty output); auto. Qed.

Lemma get_literal select c w pkg :
  let name := cli.String c "name" in
  let ns := cli.String c "pkgNamespace" in
  nonempty name = true -> healthy host ->
  stored_package w ns name = Some pkg ->
  Archive.Type' (select (Package.Spec pkg)) = ArchiveTypeLiteral ->
  exists w',
    get_command host lib select c w = (Val None, w')
    /\ delivered (cli.String c "output") (Archive.Literal (select (Package.Spec pkg))) w w'.
Proof.
  intros name ns Hname Hh Hpkg Htype.
  rewrite (get_command_found select c w pkg Hname (Hh _ _) Hpkg). fold name ns.
  rewrite bind_run. unfold fission_cli.archiveReader. rewrite Htype. cbn [ret].
  destruct (deliver_healthy (cli.String c "output")
              (Archive.Literal (select (Package.Spec pkg)))
              (log (OpPackageGet ns name) w) Hh) as (w' & Hrun & Hd).
  exists w'. split; [exact Hrun|]. eapply delivered_log. exact Hd.
Qed.

Lemma get_url select c w pkg :
  let name := cli.String c "name" in
  let ns := cli.String c "pkgNamespace" in
  let url := Archive.URL (select (Package.Spec pkg)) in
  nonempty name = true -> healthy host ->
  stored_package w ns name = Some pkg ->
  Archive.Type' (select (Package.Spec pkg)) = ArchiveTypeUrl ->
  match RequestURI lib url with
  | None =>
      get_command host lib select c w = (Fatal nil_panic, log (OpPackageGet ns name) w)
  | Some requestURI =>
      match web host (proxied host requestURI) with
      | Some (code, body) =>
          if (code =? http.StatusOK)%Z then
            exists w',
              get_command host lib select c w = (Val None, w')
              /\ delivered (cli.String c "output") body w w'
              /\ In (OpHttpGet (proxied host requestURI)) (trace w')
              /\ forall u, In (OpHttpGet u) (trace w') ->
                           u = proxied host requestURI \/ In (OpHttpGet u) (trace w)
          else
            get_command host lib select c w
            = (Fatal ("Failed to download from storage service url: " ++ url ++ ": "
                      ++ show_Z code ++ " - HTTP response returned non 200 status"),
               log (OpHttpGet (proxied host requestURI)) (log (OpPackageGet ns name) w))
      | None =>
          get_command host lib select c w
          = (Fatal ("Failed to download from storage service url: " ++ url ++ ": Get "
                    ++ proxied host requestURI ++ ": no such host"),
             log (OpHttpGet (proxied host requestURI)) (log (OpPackageGet ns name) w))
      end
  end.
Proof.
  intros name ns url Hname Hh Hpkg Htype.
  rewrite (get_command_found select c w pkg Hname (Hh _ _) Hpkg). fold name ns.
  rewrite bind_run. unfold fission_cli.archiveReader, fission_cli.downloadStoragesvcURL.
  rewrite Htype. fold url. munfold. rewrite bind_run.
  destruct (RequestURI lib url) as [uri|]; [|reflexivity].
  fold (proxied host uri). rewrite bind_run, DownloadURL_run, Hh.
  destruct (web host (proxied host uri)) as [[code body]|]; [|reflexivity].
  destruct (code =? http.StatusOK)%Z; [|reflexivity].
  rewrite bind_run. cbn [util.CheckErr ret].
  set (w1 := log (OpHttpGet (proxied host uri)) (log (OpPackageGet ns name) w)).
  destruct (deliver_healthy (cli.String c "output") body w1 Hh) as (w' & Hrun & Hd).
  exists w'. split; [exact Hrun|].
  split; [eapply delivered_log, delivered_log; exact Hd|].
  assert (Hext : exists calls,
             trace w' = (calls ++ trace w1)%list
             /\ Forall (fun op => forall u, op <> OpHttpGet u) calls).
  { clear Hd. destruct (nonempty (cli.String c "output")).
    - cbn [fission_cli.writeArchive] in Hrun. revert Hrun.
      unfold _package.WriteArchiveToFile. munfold.
      rewrite bind_run, GetTempDir_run, Hh. rewrite bind_run, Create_run, Hh.
      rewrite bind_run, CopyToFile_run, Hh. rewrite bind_run, Chmod_run, Hh.
      rewrite bind_run, Rename_run, Hh. wsimpl. rewrite lookup_insert_eq.
      intros Hrun; inversion Hrun; subst. wsimpl.
      eexists [_; _; _; _; _]. split; [reflexivity|].
      repeat constructor; discriminate.
    - cbn [fission_cli.copyToStdout] in Hrun. revert Hrun. munfold. rewrite bind_run.
      unfold attempt. rewrite Hh. cbn [negb ret]. intros Hrun; inversion Hrun; subst.
      exists [OpPrint (string_of_list_byte body)]. split; [reflexivity|].
      repeat constructor; discriminate. }
  destruct Hext as (calls & Htr & Hcalls). rewrite Htr. split.
  - apply in_or_app. right. left. reflexivity.
  - intros u Hu. apply in_app_or in Hu as [Hu | Hu].
    + exfalso. rewrite List.Forall_forall in Hcalls. exact (Hcalls _ Hu u eq_refl).
    + destruct Hu as [Hu | [Hu | Hu]]; [inversion Hu; auto | discriminate Hu | auto].
Qed.

Lemma get_nothing select c w pkg :
  let name := cli.String c "name" in
  let ns := cli.String c "pkgNamespace" in
  let output := cli.String c "output" in
  nonempty name = true ->
  stored_package w ns name = Some pkg ->
  Archive.Type' (select (Package.Spec pkg)) = ArchiveTypeNone ->
  (forall r w',
      get_command host lib select c w = (r, w') ->
      r <> Val None /\ disk w' !! output = disk w !! output)
  /\ (healthy host ->
      exists w', get_command host lib select c w = (Fatal nil_panic, w')).
Proof.
  intros name ns output Hname Hpkg Htype. split.
  - intros r w'. unfold get_command. fold name ns output. rewrite Hname. munfold.
    rewrite bind_run. cbn [ret]. rewrite bind_run, PackageGet_run.
    destruct (fault host (trace w) _); [intros H; inversion H; subst; split;
                                          [discriminate | reflexivity]|].
    rewrite Hpkg, bind_run. unfold fission_cli.archiveReader. rewrite Htype. cbn [ret].
    destruct (nonempty output).
    + cbn [fission_cli.writeArchive]. munfold. rewrite bind_run, GetTempDir_run. wsimpl.
      destruct (fault host _ OpTempDir); [intros H; inversion H; subst; split;
                                            [discriminate | reflexivity]|].
      rewrite bind_run, Create_run. wsimpl.
      destruct (fault host _ (OpCreate _)); intros H; inversion H; subst;
        (split; [discriminate|]); [reflexivity|].
      wsimpl. apply lookup_insert_ne, Join_tmp_fresh.
    + intros H; inversion H; subst. split; [discriminate | reflexivity].
  - intros Hh. rewrite (get_command_found select c w pkg Hname (Hh _ _) Hpkg).
    fold name ns output. rewrite bind_run. unfold fission_cli.archiveReader.
    rewrite Htype. cbn [ret]. destruct (nonempty output).
    + cbn [fission_cli.writeArchive]. munfold.
      rewrite bind_run, GetTempDir_run, Hh. rewrite bind_run, Create_run, Hh.
      eexists. reflexivity.
    + eexists. reflexivity.
Qed.

End Get.

(** X20. On a host where no call fails, [pkgSourceGet] and [pkgDeployGet]
    deliver the literal bytes of a literal archive unchanged: into the
    output file when one is named, to standard output otherwise, and then
    the disk is as it was. *)
Theorem pkgGet_literal host lib c w pkg :
  let name := cli.String c "name" in
  let ns := cli.String c "pkgNamespace" in
  let output := cli.String c "output" in
  nonempty name = true -> healthy host ->
  stored_package w ns name = Some pkg ->
  (Archive.Type' (PackageSpec.Source (Package.Spec pkg)) = ArchiveTypeLiteral ->
   exists w',
     fission_cli.pkgSourceGet host lib c w = (Val None, w')
     /\ delivered output (Archive.Literal (PackageSpec.Source (Package.Spec pkg))) w w')
  /\ (Archive.Type' (PackageSpec.Deployment (Package.Spec pkg)) = ArchiveTypeLiteral ->
      exists w',
        fission_cli.pkgDeployGet host lib c w = (Val None, w')
        /\ delivered output (Archive.Literal (PackageSpec.Deployment (Package.Spec pkg)))
             w w').
Proof.
  intros name ns output Hname Hh Hpkg. split; intros Htype.
  - rewrite pkgSourceGet_command. apply get_literal; assumption.
  - rewrite pkgDeployGet_command. apply get_literal; assumption.
Qed.

Lemma pkgGet_literal_witness :
  let c := Demo.args [("name", "archived"); ("output", "out.zip")] [] [] in
  nonempty (cli.String c "name") = true
  /\ healthy Demo.host
  /\ exists w',
       fission_cli.pkgDeployGet Demo.host Demo.lib c Demo.shelf = (Val None, w')
       /\ disk w' !! "out.zip" = Some (Demo.bytes "PKdeploy").
Proof.
  intros c. split; [reflexivity|].
  assert (Hh : healthy Demo.host) by (intros calls op; reflexivity).
  split; [exact Hh|].
  destruct (pkgGet_literal Demo.host Demo.lib c Demo.shelf Demo.archived eq_refl Hh
              ltac:(vm_compute; reflexivity)) as [_ H].
  destruct (H eq_refl) as (w' & Hrun & Hd).
  exists w'. split; [exact Hrun | exact Hd].
Defined.

(** X21. On a host where no call fails, [pkgSourceGet] and [pkgDeployGet]
    fetch an archive of kind URL through the proxy of the controller, at the
    controller address followed by "/proxy/storage/" and the request URI of
    the stored URL, and make no other download: the body of an answer with
    status 200 is delivered, any other answer ends the process with "Failed
    to download from storage service url", and a stored URL that does not
    parse ends it at the nil reader. *)
Theorem pkgGet_url host lib c w pkg :
  let name := cli.String c "name" in
  let ns := cli.String c "pkgNamespace" in
  let output := cli.String c "output" in
  nonempty name = true -> healthy host ->
  stored_package w ns name = Some pkg ->
  (Archive.Type' (PackageSpec.Source (Package.Spec pkg)) = ArchiveTypeUrl ->
   fetched_through_proxy host lib (fission_cli.pkgSourceGet host lib c)
     (Archive.URL (PackageSpec.Source (Package.Spec pkg))) output ns name w)
  /\ (Archive.Type' (PackageSpec.Deployment (Package.Spec pkg)) = ArchiveTypeUrl ->
      fetched_through_proxy host lib (fission_cli.pkgDeployGet host lib c)
        (Archive.URL (PackageSpec.Deployment (Package.Spec pkg))) output ns name w).
Proof.
  intros name ns output Hname Hh Hpkg. split; intros Htype; unfold fetched_through_proxy.
  - rewrite pkgSourceGet_command.
    exact (get_url host lib PackageSpec.Source c w pkg Hname Hh Hpkg Htype).
  - rewrite pkgDeployGet_command.
    exact (get_url host lib PackageSpec.Deployment c w pkg Hname Hh Hpkg Htype).
Qed.

Lemma pkgGet_url_witness :
  let c := Demo.args [("name", "archived"); ("output", "src.zip")] [] [] in
  nonempty (cli.String c "name") = true
  /\ healthy Demo.served
  /\ exists w',
       fission_cli.pkgSourceGet Demo.served Demo.lib c Demo.shelf = (Val None, w')
       /\ disk w' !! "src.zip" = Some (Demo.bytes "PKsource")
       /\ In (OpHttpGet "http://127.0.0.1:8888/proxy/storage//v1/archive?id=u7") (trace w').
Proof.
  intros c. split; [reflexivity|].
  assert (Hh : healthy Demo.served) by (intros calls op; reflexivity).
  split; [exact Hh|].
  destruct (pkgGet_url Demo.served Demo.lib c Demo.shelf Demo.archived eq_refl Hh
              ltac:(vm_compute; reflexivity)) as [H _].
  specialize (H eq_refl). unfold fetched_through_proxy in H.
  change (RequestURI Demo.lib
            (Archive.URL (PackageSpec.Source (Package.Spec Demo.archived))))
    with (Some "/v1/archive?id=u7") in H.
  cbv iota beta in H.
  change (web Demo.served (proxied Demo.served "/v1/archive?id=u7"))
    with (Some (200%Z, Demo.bytes "PKsource")) in H.
  cbv iota beta in H. change (200 =? http.StatusOK)%Z with true in H. cbv iota in H.
  destruct H as (w' & Hrun & Hd & Hin & _).
  exists w'. split; [exact Hrun|]. split; [exact Hd | exact Hin].
Defined.

(** X22. For a package without the archive asked for, [pkgSourceGet] and
    [pkgDeployGet] never succeed, whichever calls fail: the reader stays nil
    and its first use ends the process, so that on a host where no call
    fails the commands end with the nil dereference of the Go runtime. The
    output file is left as it was. *)
Theorem pkgGet_without_archive host lib c w pkg :
  let name := cli.String c "name" in
  let ns := cli.String c "pkgNamespace" in
  let output := cli.String c "output" in
  nonempty name = true ->
  stored_package w ns name = Some pkg ->
  (Archive.Type' (PackageSpec.Source (Package.Spec pkg)) = ArchiveTypeNone ->
   (forall r w',
       fission_cli.pkgSourceGet host lib c w = (r, w') ->
       r <> Val None /\ disk w' !! output = disk w !! output)
   /\ (healthy host ->
       exists w', fission_cli.pkgSourceGet host lib c w = (Fatal nil_panic, w')))
  /\ (Archive.Type' (PackageSpec.Deployment (Package.Spec pkg)) = ArchiveTypeNone ->
      (forall r w',
          fission_cli.pkgDeployGet host lib c w = (r, w') ->
          r <> Val None /\ disk w' !! output = disk w !! output)
      /\ (healthy host ->
          exists w', fission_cli.pkgDeployGet host lib c w = (Fatal nil_panic, w'))).
Proof.
  intros name ns output Hname Hpkg. split; intros Htype.
  - rewrite pkgSourceGet_command.
    apply (get_nothing host lib PackageSpec.Source c w pkg); assumption.
  - rewrite pkgDeployGet_command.
    apply (get_nothing host lib PackageSpec.Deployment c w pkg); assumption.
Qed.

Lemma pkgGet_without_archive_witness :
  let c := Demo.args [("name", "built")] [] [] in
  nonempty (cli.String c "name") = true
  /\ exists w',
       fission_cli.pkgSourceGet Demo.host Demo.lib c Demo.world = (Fatal nil_panic, w').
Proof.
  intros c. split; [reflexivity|].
  destruct (pkgGet_without_archive Demo.host Demo.lib c Demo.world
              (Demo.package "built" BuildStatusSucceeded "ok") eq_refl
              ltac:(vm_compute; reflexivity)) as [H _].
  destruct (H eq_refl) as [_ Hrun]. apply Hrun. intros calls op. reflexivity.
Defined.

(** ** From [createPackage] to [pkgDeployGet] *)

Section RoundTrip.
Variable host : Host.
Variable lib : Library.

(** [createArchive] without spec file: the existence check, the archive
    file, the upload. *)
Lemma createArchive_inv includeFiles noZip specDir w a w' :
  fission_cli.createArchive host includeFiles noZip specDir "" w = (Val a, w') ->
  exists calls path w1,
    fission_cli.makeArchiveFileIfNeeded host "" includeFiles noZip (logged calls w)
    = (Val path, w1)
    /\ _package.UploadArchive host path w1 = (Val a, w').
Proof.
  unfold fission_cli.createArchive. munfold. rewrite bind_run.
  destruct (fission_cli.checkFilesExistence host includeFiles [] w) as [r0 w0] eqn:Hcheck.
  apply checkFilesExistence_run in Hcheck as (calls & -> & _ & [-> | ->]); [|discriminate].
  rewrite bind_run. destruct (has_items _); [discriminate|]. cbn [ret].
  change (nonempty "") with false. cbv iota. rewrite bind_run.
  destruct (fission_cli.makeArchiveFileIfNeeded host "" includeFiles noZip (logged calls w))
    as [[path|msg] w1] eqn:Hmake; [|discriminate].
  intros H. eauto.
Qed.

(** A zip file below the literal size limit, given alone, is stored as a
    literal archive of its bytes. *)
Lemma createArchive_small_zip file content noZip specDir w a w' :
  fission_cli.createArchive host [file] noZip specDir "" w = (Val a, w') ->
  matched host (disk w) [file] = [file] ->
  disk w !! file = Some content ->
  ZipMatch host file (Some content) || noZip = true ->
  isHTTP file = false ->
  (Z.of_nat (length content) < ArchiveLiteralSizeLimit host)%Z ->
  a = Archive.mk ArchiveTypeLiteral content "" Checksum.zero.
Proof.
  intros H Hmatch Hfile Hzip Hlocal Hsmall.
  apply createArchive_inv in H as (calls & path & w1 & Hmake & Hup).
  destruct (logged_fields calls w) as (_ & _ & _ & Hd & _).
  apply makeArchiveFileIfNeeded_inv in Hmake. unfold used_as_is in Hmake.
  rewrite Hd, Hmatch, Hfile, Hzip in Hmake. cbn [orb] in Hmake.
  destruct Hmake as (-> & _ & Hd1 & _).
  apply UploadArchive_inv in Hup as (f & w0 & c0 & Hfirst & Hc & Hst).
  rewrite Hlocal in Hfirst. destruct Hfirst as [-> ->].
  rewrite Hd1, Hfile in Hc. inversion Hc; subst c0.
  unfold stored_as in Hst. apply Z.ltb_lt in Hsmall. rewrite Hsmall in Hst.
  destruct Hst as [-> _]. reflexivity.
Qed.

End RoundTrip.

(** X23. Round trip of a literal archive: when [createPackage] has made a
    package of one deployment file that is taken as it is (a zip file, or
    any file when zipping is switched off) and is smaller than the literal
    size limit, then [pkgDeployGet] on the name of the new package, on a
    host where no call fails, delivers exactly the bytes of that file. *)
Theorem create_then_get_round_trip host lib c c' ns env envNs file content buildcmd
        specDir noZip w meta w1 :
  fission_cli.createPackage host c ns env envNs [] [file] buildcmd specDir "" noZip w
  = (Val meta, w1) ->
  matched host (disk w) [file] = [file] ->
  disk w !! file = Some content ->
  ZipMatch host file (Some content) || noZip = true ->
  isHTTP file = false ->
  (Z.of_nat (length content) < ArchiveLiteralSizeLimit host)%Z ->
  healthy host ->
  cli.String c' "name" = ObjectMeta.Name meta ->
  cli.String c' "pkgNamespace" = ns ->
  nonempty (ObjectMeta.Name meta) = true ->
  exists w2,
    fission_cli.pkgDeployGet host lib c' w1 = (Val None, w2)
    /\ delivered (cli.String c' "output") content w1 w2.
Proof.
  intros H Hmatch Hfile Hzip Hlocal Hsmall Hh Hname Hns Hnonempty.
  apply createPackage_record in H
    as (pkg & _ & _ & _ & Hst & _ & _ & _ & _ & _ & _ & _ & w0 & w0' & Hdep & _).
  unfold archive_step in Hdep. destruct Hdep as (wa & Hdep & _).
  apply (createArchive_small_zip host file content) in Hdep; try assumption.
  rewrite pkgDeployGet_command.
  destruct (get_literal host lib PackageSpec.Deployment c' w1 pkg) as (w2 & Hrun & Hd).
  - rewrite Hname. exact Hnonempty.
  - exact Hh.
  - rewrite Hname, Hns. exact Hst.
  - rewrite Hdep. reflexivity.
  - exists w2. split; [exact Hrun|]. rewrite Hdep in Hd. exact Hd.
Qed.

Lemma create_then_get_round_trip_witness :
  exists meta w1 w2,
    fission_cli.createPackage Demo.host (Demo.args [] [] []) "default" "python" "default"
      [] ["fn.py"] "" "" "" true Demo.world = (Val meta, w1)
    /\ fission_cli.pkgDeployGet Demo.host Demo.lib
         (Demo.args [("name", ObjectMeta.Name meta); ("output", "copy.py")] [] []) w1
       = (Val None, w2)
    /\ disk w2 !! "copy.py" = Some (Demo.bytes "hi").
Proof.
  eexists _, _.
  match goal with
  | |- exists w2, ?run = (Val ?meta, ?w1) /\ _ =>
      assert (Hrun : run = (Val meta, w1)) by (vm_compute; reflexivity)
  end.
  match type of Hrun with
  | _ = (Val ?meta, ?w1) =>
      destruct (create_then_get_round_trip Demo.host Demo.lib (Demo.args [] [] [])
                  (Demo.args [("name", ObjectMeta.Name meta); ("output", "copy.py")] [] [])
                  "default" "python" "default" "fn.py" (Demo.bytes "hi") "" "" true
                  Demo.world meta w1 Hrun)
        as (w2 & Hget & Hd);
        [ vm_compute; reflexivity | vm_compute; reflexivity | reflexivity | reflexivity
        | vm_compute; reflexivity | intros calls op; reflexivity
        | reflexivity | reflexivity | reflexivity | ]
  end.
  exists w2. split; [exact Hrun|]. split; [exact Hget | exact Hd].
Defined.

(** ** [pkgCreate] *)

(** X24. A returning [pkgCreate] returns nil, had [--env] and at least one
    of [--src] and [--deploy], and has added exactly one package to the
    store, under a name that was free: in the namespace, with the
    environment and the build command of the flags, pending when there is a
    source archive and succeeded otherwise. The packages that were stored
    and the functions are as before. *)
Theorem pkgCreate_adds_one host c w r w' :
  fission_cli.pkgCreate host c w = (Val r, w') ->
  r = None
  /\ nonempty (cli.String c "env") = true
  /\ has_items (cli.StringSlice c "src") || has_items (cli.StringSlice c "deploy") = true
  /\ exists pkg,
       packages w' = (packages w ++ [pkg])%list
       /\ functions w' = functions w
       /\ stored_package w (cli.String c "pkgNamespace")
            (ObjectMeta.Name (Package.Metadata pkg)) = None
       /\ ObjectMeta.Namespace (Package.Metadata pkg) = cli.String c "pkgNamespace"
       /\ PackageSpec.Environment (Package.Spec pkg)
          = EnvironmentReference.mk (cli.String c "envNamespace") (cli.String c "env")
       /\ PackageSpec.BuildCommand (Package.Spec pkg) = cli.String c "buildcmd"
       /\ PackageStatus.BuildStatus (Package.Status pkg)
          = (if has_items (cli.StringSlice c "src")
             then BuildStatusPending else BuildStatusSucceeded).
Proof.
  unfold fission_cli.pkgCreate. munfold. rewrite bind_run.
  destruct (nonempty (cli.String c "env")) eqn:Henv; [|discriminate].
  cbn [ret]. rewrite bind_run.
  destruct (has_items (cli.StringSlice c "src")) eqn:Hsrc;
    destruct (has_items (cli.StringSlice c "deploy")) eqn:Hdep;
    cbn [negb andb orb ret log_.Fatal]; try discriminate;
    rewrite bind_run;
    destruct (fission_cli.createPackage _ _ _ _ _ _ _ _ _ _ _ _) as [[meta|msg] w1] eqn:Hc;
    try discriminate;
    cbn [ret]; intros H; inversion H; subst; clear H;
    (split; [reflexivity|]); (split; [reflexivity|]); (split; [reflexivity|]);
    apply createPackage_record in Hc
      as (pkg & Hfree & Hp & Hf & _ & Hm & Hn & _ & _ & He & Hb & Hs & _);
    exists pkg; rewrite Hm, Hs; cbn [PackageStatus.BuildStatus];
    repeat (split; try assumption); rewrite ?Hsrc; reflexivity.
Qed.

Lemma pkgCreate_adds_one_witness :
  exists w' pkg,
    fission_cli.pkgCreate Demo.host
      (Demo.args [("env", "python"); ("pkgNamespace", "default")] []
         [("deploy", ["fn.py"])]) Demo.world = (Val None, w')
    /\ packages w' = (packages Demo.world ++ [pkg])%list
    /\ PackageStatus.BuildStatus (Package.Status pkg) = BuildStatusSucceeded.
Proof.
  eexists.
  match goal with
  | |- exists pkg, ?run = (Val None, ?w1) /\ _ =>
      assert (Hrun : run = (Val None, w1)) by (vm_compute; reflexivity)
  end.
  destruct (pkgCreate_adds_one _ _ _ _ _ Hrun)
    as (_ & _ & _ & pkg & Hp & _ & _ & _ & _ & _ & Hs).
  exists pkg. split; [exact Hrun|]. split; [exact Hp | exact Hs].
Defined.
